(** * Scraping pipelines: video-segment extractor, XML downloader, podcast downloader

    A shallow embedding of
      - [extract_videos.py]            (module [ExtractVideos]),
      - [parliament/download.py]       (module [Parliament]),
      - [podcast/download_ivoox_podcast.py] (module [Podcast]),
    together with the Python library operations these scripts call
    (modules [Py] and [PyFloat]).

    Python [str] values are modelled as byte strings (their UTF-8 encoding);
    Python exceptions as an explicit error result; the file system and the
    log of network requests as explicit state. *)

From Stdlib Require Import ZArith Ascii List Bool DecimalString.
From stdpp Require Import base option list strings gmap.

Local Open Scope Z_scope.

(* ===================================================================== *)
(** * Python library operations                                           *)
(* ===================================================================== *)

Module Py.

(** The line feed, ["\n"]. *)
Definition nl : string := String "010"%char "".

(** Truthiness of a [str]: the empty string is false. *)
Definition truthy (s : string) : bool :=
  match s with "" => false | String _ _ => true end.

(** [s.startswith(pre)] *)
Fixpoint startswith (pre s : string) : bool :=
  match pre, s with
  | "", _ => true
  | String a pre', String b s' => bool_decide (a = b) && startswith pre' s'
  | String _ _, "" => false
  end.

(** [sub in s] *)
Fixpoint contains (sub s : string) : bool :=
  startswith sub s ||
  match s with
  | "" => false
  | String _ s' => contains sub s'
  end.

(** [c in s] for a single character. *)
Fixpoint has_char (c : ascii) (s : string) : bool :=
  match s with
  | "" => false
  | String a s' => bool_decide (a = c) || has_char c s'
  end.

(** [s.split(sep)] for a one-character separator: never the empty list. *)
Fixpoint split (sep : ascii) (s : string) : list string :=
  match s with
  | "" => [""]
  | String a s' =>
      if bool_decide (a = sep) then "" :: split sep s'
      else match split sep s' with
           | [] => [String a ""]
           | w :: ws => String a w :: ws
           end
  end.

(** [s.split(sep, 1)]: [None] when the result has one element (no
    separator), [Some (before, after)] when it has two. *)
Fixpoint split1 (sep : ascii) (s : string) : option (string * string) :=
  match s with
  | "" => None
  | String a s' =>
      if bool_decide (a = sep) then Some ("", s')
      else match split1 sep s' with
           | None => None
           | Some (b, r) => Some (String a b, r)
           end
  end.

(** [s.replace(a, b)] for single characters. *)
Fixpoint replace (a b : ascii) (s : string) : string :=
  match s with
  | "" => ""
  | String c s' => String (if bool_decide (c = a) then b else c) (replace a b s')
  end.

(** [l[-1]] on a list of strings that [split] produced. *)
Definition last_item (l : list string) : string := List.last l "".

(** Characters that [str.strip()] removes, within ASCII: tab, line feed,
    vertical tab, form feed, carriage return, the separators 0x1c-0x1f
    and space.  (The non-ASCII Unicode spaces are outside this model.) *)
Definition is_space (a : ascii) : bool :=
  let n := N_of_ascii a in
  ((9 <=? n) && (n <=? 13) || (28 <=? n) && (n <=? 32))%N.

Fixpoint lstrip_by (f : ascii -> bool) (s : string) : string :=
  match s with
  | "" => ""
  | String a s' => if f a then lstrip_by f s' else s
  end.

Fixpoint rstrip_by (f : ascii -> bool) (s : string) : string :=
  match s with
  | "" => ""
  | String a s' =>
      match rstrip_by f s' with
      | "" => if f a then "" else String a ""
      | r => String a r
      end
  end.

(** [s.strip()] *)
Definition strip (s : string) : string := rstrip_by is_space (lstrip_by is_space s).

(** [f"{n}"] for an [int]. *)
Definition str_of_int (n : Z) : string := NilZero.string_of_int (Z.to_int n).

(** [int(s)] for a [str], base 10: surrounding whitespace (tab, line feed,
    vertical tab, form feed, carriage return, space) is dropped, one sign is
    allowed, and the digits may be grouped by single underscores.  [None]
    stands for the [ValueError] that [int] raises.  (Non-ASCII decimal
    digits and spaces are outside this model.) *)
Definition is_c_space (a : ascii) : bool :=
  let n := N_of_ascii a in
  ((9 <=? n) && (n <=? 13) || (n =? 32))%N.

Fixpoint int_digits (acc : Z) (after_digit : bool) (s : string) : option Z :=
  match s with
  | "" => if after_digit then Some acc else None
  | String a s' =>
      match Ascii.is_nat a with
      | Some d => int_digits (10 * acc + Z.of_nat d) true s'
      | None =>
          if bool_decide (a = "_"%char) && after_digit
          then int_digits acc false s'
          else None
      end
  end.

Definition int (s : string) : option Z :=
  match rstrip_by is_c_space (lstrip_by is_c_space s) with
  | String "-" ds => Z.opp <$> int_digits 0 false ds
  | String "+" ds => int_digits 0 false ds
  | ds => int_digits 0 false ds
  end.

(** [os.path.split(p)[1]]: the text after the last slash. *)
Definition path_tail (p : string) : string := last_item (split "/" p).

(** [os.path.join(a, b)] (POSIX). *)
Fixpoint endswith_char (c : ascii) (s : string) : bool :=
  match s with
  | "" => false
  | String a "" => bool_decide (a = c)
  | String _ s' => endswith_char c s'
  end.

Definition path_join2 (a b : string) : string :=
  if startswith "/" b then b
  else if negb (truthy a) || endswith_char "/" a then a +:+ b
  else a +:+ "/" +:+ b.

(** [os.path.join(a, *ps)] *)
Definition path_join (a : string) (ps : list string) : string :=
  foldl path_join2 a ps.

(** ** [urllib.parse] *)

Definition hex_value (a : ascii) : option N :=
  let n := N_of_ascii a in
  if ((48 <=? n) && (n <=? 57))%N then Some (n - 48)%N
  else if ((65 <=? n) && (n <=? 70))%N then Some (n - 55)%N
  else if ((97 <=? n) && (n <=? 102))%N then Some (n - 87)%N
  else None.

(** [urllib.parse.unquote]: every ["%XY"] with two hexadecimal digits
    becomes the byte it names; any other ["%"] stays.  CPython then
    decodes the bytes as UTF-8 and puts U+FFFD where they are not valid;
    this model keeps the bytes as they are. *)
Definition hex_byte (h l : ascii) : option ascii :=
  match hex_value h, hex_value l with
  | Some x, Some y => Some (ascii_of_N (16 * x + y))
  | _, _ => None
  end.

Fixpoint unquote (s : string) : string :=
  match s with
  | "" => ""
  | String a s' =>
      match s' with
      | String h (String l s'') =>
          match (if bool_decide (a = "%"%char) then hex_byte h l else None) with
          | Some b => String b (unquote s'')
          | None => String a (unquote s')
          end
      | _ => String a (unquote s')
      end
  end.

(** The characters that [urlsplit] strips on the left (C0 controls and
    space) and the ones it deletes everywhere (tab, CR, LF). *)
Definition is_c0_or_space (a : ascii) : bool := (N_of_ascii a <=? 32)%N.
Definition is_unsafe_url_byte (a : ascii) : bool :=
  let n := N_of_ascii a in ((n =? 9) || (n =? 10) || (n =? 13))%N.

Fixpoint remove_chars (f : ascii -> bool) (s : string) : string :=
  match s with
  | "" => ""
  | String a s' => if f a then remove_chars f s' else String a (remove_chars f s')
  end.

Definition is_ascii_alpha (a : ascii) : bool :=
  let n := N_of_ascii a in
  ((65 <=? n) && (n <=? 90) || (97 <=? n) && (n <=? 122))%N.
Definition is_ascii_digit (a : ascii) : bool :=
  let n := N_of_ascii a in ((48 <=? n) && (n <=? 57))%N.
(** [scheme_chars]: letters, digits and ["+-."]. *)
Definition is_scheme_char (a : ascii) : bool :=
  is_ascii_alpha a || is_ascii_digit a ||
  bool_decide (a = "+"%char) || bool_decide (a = "-"%char) || bool_decide (a = "."%char).

Fixpoint all_chars (f : ascii -> bool) (s : string) : bool :=
  match s with
  | "" => true
  | String a s' => f a && all_chars f s'
  end.

Definition lower_char (a : ascii) : ascii :=
  let n := N_of_ascii a in
  if ((65 <=? n) && (n <=? 90))%N then ascii_of_N (n + 32) else a.
Fixpoint lower (s : string) : string :=
  match s with
  | "" => ""
  | String a s' => String (lower_char a) (lower s')
  end.

(** The scheme step of [urlsplit]: [i = url.find(':')]; when [i > 0], the
    first character is an ASCII letter and [url[:i]] has scheme characters
    only, the scheme is cut off. *)
Definition split_scheme (url : string) : string * string :=
  match split1 ":" url with
  | Some (String a pre, rest) =>
      if is_ascii_alpha a && all_chars is_scheme_char (String a pre)
      then (lower (String a pre), rest)
      else ("", url)
  | _ => ("", url)
  end.

(** [_splitnetloc(url, 2)] on the text after ["//"]: the host part runs
    up to the first of ["/"], ["?"], ["#"]. *)
Definition is_netloc_delim (a : ascii) : bool :=
  bool_decide (a = "/"%char) || bool_decide (a = "?"%char) || bool_decide (a = "#"%char).
Fixpoint splitnetloc (s : string) : string * string :=
  match s with
  | "" => ("", "")
  | String a s' =>
      if is_netloc_delim a then ("", s)
      else let '(n, r) := splitnetloc s' in (String a n, r)
  end.

Record SplitResult := mkSplitResult {
  scheme : string; netloc : string; path : string;
  query : string; fragment : string }.

(** [urllib.parse.urlsplit(url)]; [None] is the [ValueError]
    ("Invalid IPv6 URL") raised for a host with one square bracket but
    not the other.  (The further checks that recent CPython releases run
    on a well-bracketed or non-ASCII host are not modelled.)
    [urlparse] returns the same [query]: it only cuts the [;parameters]
    off the path afterwards. *)
Definition urlsplit (url0 : string) : option SplitResult :=
  let url := remove_chars is_unsafe_url_byte (lstrip_by is_c0_or_space url0) in
  let '(sch, url) := split_scheme url in
  let '(loc, url) :=
    match url with
    | String "/" (String "/" rest) => splitnetloc rest
    | _ => ("", url)
    end in
  if xorb (has_char "[" loc) (has_char "]" loc) then None
  else
    let '(url, frag) :=
      match split1 "#" url with Some (u, f) => (u, f) | None => (url, "") end in
    let '(url, qry) :=
      match split1 "?" url with Some (u, q) => (u, q) | None => (url, "") end in
    Some (mkSplitResult sch loc url qry frag).

(** [urllib.parse.parse_qsl(qs)] with its defaults (blank values dropped,
    no strict parsing, separator ["&"]). *)
Definition parse_field (name_value : string) : option (string * string) :=
  match split1 "=" name_value with
  | Some (n, v) =>
      if truthy v
      then Some (unquote (replace "+" " " n), unquote (replace "+" " " v))
      else None
  | None => None
  end.

Definition parse_qsl (qs : string) : list (string * string) :=
  omap parse_field (split "&" qs).

(** [urllib.parse.parse_qs(qs)]: a dict from each name to the list of its
    values, in order of appearance. *)
Definition parse_qs_add (d : gmap string (list string)) (nv : string * string)
  : gmap string (list string) :=
  match d !! nv.1 with
  | Some vs => <[nv.1 := vs ++ [nv.2]]> d
  | None => <[nv.1 := [nv.2]]> d
  end.

Definition parse_qs (qs : string) : gmap string (list string) :=
  foldl parse_qs_add ∅ (parse_qsl qs).

(** The values a list of pairs gives to one name, in order. *)
Definition values_of (k : string) (pairs : list (string * string)) : list string :=
  omap (fun nv => if decide (nv.1 = k) then Some nv.2 else None) pairs.

End Py.

(* ===================================================================== *)
(** * Python floating point numbers                                       *)
(* ===================================================================== *)

(** What [print_summary] does with numbers: the division of two integers,
    [round] to a number of decimals, and the text [repr] prints.  A
    [float] is a binary64 number; all three operations are exact
    computations on its mantissa and exponent. *)
Module PyFloat.
Import Py.

(** A finite binary64 number: [mant * 2^expo] with its sign.  Zero is
    [mant = 0], [expo = 0]; a normal number has [2^52 <= mant < 2^53]; a
    subnormal one has [expo = -1074]. *)
Record float := mkFloat { negative : bool; mant : Z; expo : Z }.

(** The fraction [num/den] rounded to an integer, ties to even. *)
Definition round_half_even (num den : Z) : Z :=
  let q := num / den in
  match 2 * (num mod den) ?= den with
  | Lt => q
  | Gt => q + 1
  | Eq => if Z.even q then q else q + 1
  end.

(** The fraction [p/q] times [b^k], for any sign of [k]. *)
Definition scaled (b : Z) (p q k : Z) : Z * Z :=
  if 0 <=? k then (p * b ^ k, q) else (p, q * b ^ (- k)).

(** The binary64 number nearest to [p/q] ([p], [q] positive), ties to
    even, as mantissa and exponent; [None] when it is out of range. *)
Definition nearest (p q : Z) : option (Z * Z) :=
  let k := Z.log2 p - Z.log2 q in
  let '(n, d) := scaled 2 p q (- k) in
  let fl := if d <=? n then k else k - 1 in
  let e := Z.max (fl - 52) (-1074) in
  let '(n, d) := scaled 2 p q (- e) in
  let m := round_half_even n d in
  let '(m, e) := if m =? 2 ^ 53 then (2 ^ 52, e + 1) else (m, e) in
  if 971 <? e then None else Some (m, e).

(** The number nearest to [p/q] with the sign given. *)
Definition signed (neg : bool) (p q : Z) : option float :=
  if p =? 0 then Some (mkFloat neg 0 0)
  else
    match nearest p q with
    | Some (m, e) => Some (if m =? 0 then mkFloat neg 0 0 else mkFloat neg m e)
    | None => None
    end.

(** [a / b] on integers with [b] positive: the quotient correctly rounded;
    [None] is the [OverflowError]. *)
Definition true_divide (a b : Z) : option float :=
  signed (if a =? 0 then false else a <? 0) (Z.abs a) b.

(** [round(x, ndigits)] for [ndigits >= 0]: the exact value of [x] rounded
    to [ndigits] decimals, ties to even, and the decimal read back. *)
Definition round_ndigits (x : float) (ndigits : Z) : option float :=
  let '(n, d) := scaled 2 (mant x * 10 ^ ndigits) 1 (expo x) in
  signed (negative x) (round_half_even n d) (10 ^ ndigits).

(** [k] with [10^k <= p/q < 10^(k+1)], found from an estimate that is off
    by one at most. *)
Definition ge_pow10 (p q k : Z) : bool :=
  let '(n, d) := scaled 10 p q (- k) in d <=? n.

Definition floor_log10 (p q : Z) : Z :=
  let k := ((Z.log2 p - Z.log2 q) * 30103) / 100000 in
  if ge_pow10 p q (k + 2) then k + 2
  else if ge_pow10 p q (k + 1) then k + 1
  else if ge_pow10 p q k then k
  else if ge_pow10 p q (k - 1) then k - 1
  else k - 2.

(** The decimal [c * 10^j] reads back as the number [m * 2^e]. *)
Definition reads_back (c j m e : Z) : bool :=
  let '(n, d) := scaled 10 c 1 j in
  bool_decide (nearest n d = Some (m, e)).

(** The decimals of [nd] digits next to [m * 2^e] that read back as it,
    the nearer one first: [Some (c, j)] stands for [c * 10^j]. *)
Definition shortest_at (m e k nd : Z) : option (Z * Z) :=
  let j := k + 1 - nd in
  let '(p, q) := scaled 2 m 1 e in
  let '(n, d) := scaled 10 p q (- j) in
  let lo := n / d in
  let r := n mod d in
  if r =? 0 then Some (lo, j)
  else
    let hi := lo + 1 in
    let lo_first :=
      match 2 * r ?= d with
      | Lt => true
      | Gt => false
      | Eq => Z.even lo
      end in
    let '(c1, c2) := if lo_first then (lo, hi) else (hi, lo) in
    if reads_back c1 j m e then Some (c1, j)
    else if reads_back c2 j m e then Some (c2, j)
    else None.

(** The shortest decimal that reads back as [m * 2^e] (17 digits always
    do), tried from [nd] digits on. *)
Fixpoint shortest (fuel : nat) (m e k nd : Z) : Z * Z :=
  match fuel with
  | O => (0, 0)
  | S fuel' =>
      match shortest_at m e k nd with
      | Some r => r
      | None => shortest fuel' m e k (nd + 1)
      end
  end.

(** A decimal without its trailing zeros. *)
Fixpoint strip_zeros (fuel : nat) (c j : Z) : Z * Z :=
  match fuel with
  | O => (c, j)
  | S fuel' => if c mod 10 =? 0 then strip_zeros fuel' (c / 10) (j + 1) else (c, j)
  end.

Fixpoint zeros (n : nat) : string :=
  match n with
  | O => ""
  | S n' => String "0" (zeros n')
  end.

Fixpoint take_string (n : nat) (s : string) : string :=
  match n, s with
  | S n', String a s' => String a (take_string n' s')
  | _, _ => ""
  end.

Fixpoint drop_string (n : nat) (s : string) : string :=
  match n, s with
  | S n', String a s' => drop_string n' s'
  | _, _ => s
  end.

(** [repr(x)]: the shortest digits that read back as [x]; with an exponent
    when the decimal point would be more than 16 places to the right of the
    first digit or more than 3 to its left. *)
Definition repr (x : float) : string :=
  let sign := if negative x then "-" else "" in
  if mant x =? 0 then sign +:+ "0.0"
  else
    let '(p, q) := scaled 2 (mant x) 1 (expo x) in
    let k := floor_log10 p q in
    let '(c, j) := shortest 17 (mant x) (expo x) k 1 in
    let '(c, j) := strip_zeros 17 c j in
    let digits := str_of_int c in
    let ndigits := Z.of_nat (String.length digits) in
    let decpt := ndigits + j in
    if (decpt <=? -4) || (16 <? decpt) then
      let exponent := decpt - 1 in
      sign +:+ take_string 1 digits +:+
      (if 1 <? ndigits then "." +:+ drop_string 1 digits else "") +:+
      "e" +:+ (if exponent <? 0 then "-" else "+") +:+
      (if Z.abs exponent <? 10 then "0" else "") +:+ str_of_int (Z.abs exponent)
    else if decpt <=? 0 then
      sign +:+ "0." +:+ zeros (Z.to_nat (- decpt)) +:+ digits
    else if ndigits <=? decpt then
      sign +:+ digits +:+ zeros (Z.to_nat (decpt - ndigits)) +:+ ".0"
    else
      sign +:+ take_string (Z.to_nat decpt) digits +:+ "." +:+
      drop_string (Z.to_nat decpt) digits.

End PyFloat.

(* ===================================================================== *)
(** * Exceptions                                                          *)
(* ===================================================================== *)

(** The Python exceptions the scripts can meet, each with its message
    ([str(e)]).  [ValueError] is the one class that
    [parliament/download.py] catches per row. *)
Inductive exn :=
| ValueError (msg : string)
| HTTPError (msg : string)        (* [raise_for_status] on a non-success response *)
| ConnectionError (msg : string)  (* any other failure of the transport *)
| TypeError (msg : string)
| IndexError (msg : string)
| KeyError (key : string)         (* a dictionary has no such key *)
| AttributeError (msg : string)
| OverflowError (msg : string).

(** [str(e)]; a [KeyError] shows its key as [repr] does. *)
Definition str_exn (e : exn) : string :=
  match e with
  | ValueError msg | HTTPError msg | ConnectionError msg
  | TypeError msg | IndexError msg | AttributeError msg | OverflowError msg => msg
  | KeyError key => "'" +:+ key +:+ "'"
  end.

Inductive result (A : Type) :=
| Ok (a : A)
| Raise (e : exn).
Arguments Ok {A} a.
Arguments Raise {A} e.

(* ===================================================================== *)
(** * extract_videos.py                                                   *)
(* ===================================================================== *)

Module ExtractVideos.
Import Py.

(** ** [xml.etree.ElementTree] *)

(** An [Element]: its tag, its [text] (absent or a string) and its
    children in order. *)
#[warnings="-register-all"] Inductive Element :=
  Elem (tag : string) (text : option string) (children : list Element).

Definition tag (e : Element) : string := match e with Elem t _ _ => t end.
Definition text (e : Element) : option string := match e with Elem _ t _ => t end.
Definition children (e : Element) : list Element := match e with Elem _ _ cs => cs end.

(** [e.iter()]: the element and all elements below it, in document order. *)
Fixpoint iter (e : Element) : list Element :=
  match e with
  | Elem _ _ cs => e :: flat_map iter cs
  end.

(** Python compares elements by identity.  Inside the tree below a
    context root an element is identified by its position: the child
    indices leading to it from the root (the root itself is [[]]). *)
Fixpoint iter_positions (e : Element) : list (list nat) :=
  match e with
  | Elem _ _ cs =>
      [] :: (fix kids (i : nat) (l : list Element) : list (list nat) :=
               match l with
               | [] => []
               | c :: l' => map (cons i) (iter_positions c) ++ kids (S i) l'
               end) 0%nat cs
  end.

Fixpoint element_at (e : Element) (pos : list nat) : option Element :=
  match pos with
  | [] => Some e
  | i :: pos' =>
      match children e !! i with
      | Some c => element_at c pos'
      | None => None
      end
  end.

(** [ElementPath.get_parent_map(context)]:
    [for p in context.root.iter(): for e in p: parent_map[e] = p]. *)
Definition child_entries (root : Element) (p : list nat) : list (list nat * list nat) :=
  match element_at root p with
  | Some e => map (fun i => (p ++ [i], p)) (seq 0 (length (children e)))
  | None => []
  end.

Definition get_parent_map (root : Element) : gmap (list nat) (list nat) :=
  foldl (fun m kv => <[kv.1 := kv.2]> m) ∅
        (flat_map (child_entries root) (iter_positions root)).

(** [e.find('..')]: the context root of the search is [e] itself, the
    result set starts as [[e]], and the [..] step yields the parent of
    each result that is a key of the parent map. *)
Definition find_parent (e : Element) : option Element :=
  match get_parent_map e !! [] with
  | Some p => element_at e p
  | None => None
  end.

(** [e.find('.//' + t)]: the first element strictly below [e], in
    document order, whose tag is [t]. *)
Definition find_descendant (t : string) (e : Element) : option Element :=
  List.find (fun d => bool_decide (tag d = t)) (flat_map iter (children e)).

(** ** [XMLVideoExtractor] *)

Record VideoInfo := mkVideoInfo {
  url : string;
  stream_legealdia : option string;
  stream_organoa : option string;
  stream_data : option string;
  stream_name : option string;
  start_time : option string;
  end_time : option string }.

(** Truthiness of an optional string: [None] and [""] are false. *)
Definition truthy_opt (o : option string) : bool :=
  match o with Some s => truthy s | None => false end.

(** [params.get(key, [None])[0]]; a list stored by [parse_qs] is never
    empty, so the index does not fail. *)
Definition get_param (params : gmap string (list string)) (key : string) : option string :=
  match params !! key with
  | Some vs => head vs
  | None => None
  end.

(** The guard that opens [_parse_video_url]:
    [if 'streamlegealdia' not in url and 'streamdbstart' not in url: return None] *)
Definition stream_guard (url : string) : bool :=
  contains "streamlegealdia" url || contains "streamdbstart" url.

Definition _parse_video_url (url : string) : result (option VideoInfo) :=
  if negb (contains "streamlegealdia" url) && negb (contains "streamdbstart" url)
  then Ok None
  else
    match urlsplit url with
    | None => Raise (ValueError "Invalid IPv6 URL")
    | Some parsed =>
        let params := parse_qs (query parsed) in
        let video_info :=
          {| url := url;
             stream_legealdia := get_param params "streamlegealdia";
             stream_organoa := get_param params "streamorganoa";
             stream_data := get_param params "streamdata";
             stream_name := get_param params "streamname";
             start_time := get_param params "streamdbstart";
             end_time := get_param params "streamdbend" |} in
        if truthy_opt (start_time video_info) || truthy_opt (end_time video_info)
        then Ok (Some video_info)
        else Ok None
    end.

Definition description_tag : string := "sesiones_pleno_asunto_indice_descripcion".

(** The loop of [_get_description]: [n] iterations are left. *)
Fixpoint _get_description_loop (n : nat) (parent : Element) : option string :=
  match n with
  | O => None
  | S n' =>
      match find_parent parent with
      | None => None
      | Some parent' =>
          match find_descendant description_tag parent' with
          | Some desc_elem =>
              if truthy_opt (text desc_elem)
              then strip <$> text desc_elem
              else _get_description_loop n' parent'
          | None => _get_description_loop n' parent'
          end
      end
  end.

Definition _get_description (element : Element) : option string :=
  _get_description_loop 5 element.

(** One extracted segment: the parsed fields and the ['description']
    entry added by [_extract_video_links]. *)
Record Video := mkVideo { info : VideoInfo; description : option string }.

(** The test on an element of [_extract_video_links]: its text, stripped,
    when that holds both markers. *)
Definition candidate_text (element : Element) : option string :=
  match text element with
  | Some t =>
      if truthy t then
        let text := strip t in
        if contains "legebiltzarra.eus" text && contains "videos" text
        then Some text else None
      else None
  | None => None
  end.

(** [_extract_video_links]: the loop over [root.iter()], appending to
    [self.videos]; an exception of [_parse_video_url] leaves the loop. *)
Fixpoint links_loop (elements : list Element) (videos : list Video) : result (list Video) :=
  match elements with
  | [] => Ok videos
  | element :: rest =>
      match candidate_text element with
      | None => links_loop rest videos
      | Some text =>
          match _parse_video_url text with
          | Raise e => Raise e
          | Ok None => links_loop rest videos
          | Ok (Some video_info) =>
              links_loop rest (videos ++ [mkVideo video_info (_get_description element)])
          end
      end
  end.

Definition _extract_video_links (root : Element) : result (list Video) :=
  links_loop (iter root) [].

(** ** The claims' own notions *)

(** A query string "contains the parameter [key]": one of its
    [&]-separated fields reads [name=value] with a non-empty value and a
    name that decodes to [key]. *)
Definition has_param (key qs : string) : Prop :=
  exists field n v,
    field ∈ split "&" qs /\ split1 "=" field = Some (n, v) /\
    v <> "" /\ unquote (replace "+" " " n) = key.

(** The URL text is accepted as a segment. *)
Definition accepted (url : string) : Prop :=
  exists video_info, _parse_video_url url = Ok (Some video_info).

(** The URL text is discarded. *)
Definition discarded (url : string) : Prop := _parse_video_url url = Ok None.

(** Its query string carries a start or an end timestamp. *)
Definition has_timestamp (url : string) : Prop :=
  exists parsed, urlsplit url = Some parsed /\
    (has_param "streamdbstart" (query parsed) \/ has_param "streamdbend" (query parsed)).

(** The document position's ancestors, nearest first. *)
Fixpoint ancestors (pos : list nat) : list (list nat) :=
  match pos with
  | [] => []
  | i :: pos' => map (cons i) (ancestors pos') ++ [[]]
  end.

(** The description as the specification words it: walk up to five
    ancestors of the matched element, nearest first, search below each
    for the description node, and take the first non-empty text. *)
Definition description_of_node (a : Element) : option string :=
  match find_descendant description_tag a with
  | Some d => if truthy_opt (text d) then strip <$> text d else None
  | None => None
  end.

Definition spec_description (root : Element) (pos : list nat) : option string :=
  head (omap (fun a => element_at root a ≫= description_of_node)
             (take 5 (ancestors pos))).

(** ** Sample inputs *)

Definition end_with_legislature : string :=
  "https://www.legebiltzarra.eus/videos?streamlegealdia=12&streamdbend=00:10:00".

Definition end_only : string :=
  "https://www.legebiltzarra.eus/videos?streamdbend=00:10:00".

Definition session_doc : Element :=
  Elem "pleno" None
    [Elem "sesiones_pleno_asunto" None
       [Elem "sesiones_pleno_asunto_indice_descripcion" (Some " Presupuestos ") [];
        Elem "sesiones_pleno_asunto_video"
             (Some "https://www.legebiltzarra.eus/videos?streamdbstart=00:01:00") []]].

End ExtractVideos.

(* ===================================================================== *)
(** * The world of a run: files, network, standard output, metadata store *)
(* ===================================================================== *)

Module Exec.

(** What the network answers to a GET. *)
Inductive Response :=
| Resp (content : list Byte.byte)
    (* a success response with this body *)
| BadStatus (msg : string)
    (* a non-success status: [raise_for_status] raises [HTTPError msg] *)
| Failed (e : exn)
    (* [requests.get] raised [e]: a transport failure, or one of the URL
       errors of [requests], which are [ValueError]s *)
| Broken (partial : list Byte.byte) (msg : string).
    (* a success status, but the body stopped after [partial] *)

(** The network requests a script issues, by call site. *)
Inductive Request :=
| PageRequest (url : string)              (* an HTML index page *)
| FeedRequest (url : string)              (* an RSS feed *)
| DownloadRequest (url target : string).  (* a payload, to be saved at [target] *)

Definition is_download (r : Request) : bool :=
  match r with DownloadRequest _ _ => true | _ => false end.

Section WithStore.
Context {Store : Type}.

(** The state a script acts on: the files on disk, the requests issued
    so far, the lines printed so far, and the content of the metadata
    store file. *)
Record State := mkState {
  files : gmap string (list Byte.byte);
  requests : list Request;
  stdout : list string;
  store : Store }.

(** A computation that may raise: the state reached is kept either way. *)
Definition M (A : Type) : Type := State -> result A * State.

Definition ret {A} (a : A) : M A := fun s => (Ok a, s).

Definition bind {A B} (m : M A) (k : A -> M B) : M B :=
  fun s =>
    match m s with
    | (Ok a, s') => k a s'
    | (Raise e, s') => (Raise e, s')
    end.

Definition raise {A} (e : exn) : M A := fun s => (Raise e, s).

(** [try: m  except ValueError as e: h(str(e))] *)
Definition except_ValueError {A} (m : M A) (h : string -> M A) : M A :=
  fun s =>
    match m s with
    | (Raise (ValueError msg), s') => h msg s'
    | r => r
    end.

(** [try: m  except Exception as e: h(e)] *)
Definition except_Exception {A} (m : M A) (h : exn -> M A) : M A :=
  fun s =>
    match m s with
    | (Raise e, s') => h e s'
    | r => r
    end.

Definition print (line : string) : M unit :=
  fun s => (Ok tt, mkState (files s) (requests s) (stdout s ++ [line]) (store s)).

Definition log_request (r : Request) : M unit :=
  fun s => (Ok tt, mkState (files s) (requests s ++ [r]) (stdout s) (store s)).

(** [os.path.exists(path)] *)
Definition path_exists (path : string) : M bool :=
  fun s => (Ok (bool_decide (is_Some (files s !! path))), s).

(** [with open(path, "wb") as f: f.write(content)] *)
Definition write_file (path : string) (content : list Byte.byte) : M unit :=
  fun s => (Ok tt, mkState (<[path := content]> (files s)) (requests s) (stdout s) (store s)).

Definition read_store : M Store := fun s => (Ok (store s), s).

Definition write_store (data : Store) : M unit :=
  fun s => (Ok tt, mkState (files s) (requests s) (stdout s) data).

(** The state, one line later. *)
Definition printed (s : State) (line : string) : State :=
  mkState (files s) (requests s) (stdout s ++ [line]) (store s).

(** The state, one request later. *)
Definition logged (s : State) (r : Request) : State :=
  mkState (files s) (requests s ++ [r]) (stdout s) (store s).

(** [s'] comes after [s] with the same files, the same download requests
    and the same store: only lines were printed and pages or feeds
    requested. *)
Definition quiet (s s' : State) : Prop :=
  files s' = files s /\
  List.filter is_download (requests s') = List.filter is_download (requests s) /\
  store s' = store s.

(** [s'] comes after [s] by printing, requesting and creating files: the
    store is the same, every file of [s] is still there with its content,
    and no download issued in between aimed at a file of [s]. *)
Definition extends (s s' : State) : Prop :=
  store s' = store s /\
  files s ⊆ files s' /\
  exists issued,
    requests s' = requests s ++ issued /\
    forall url target, DownloadRequest url target ∈ issued -> files s !! target = None.

End WithStore.

Arguments State : clear implicits.
Arguments M : clear implicits.

Notation "'let*' x ':=' m 'in' k" := (bind m (fun x => k))
  (at level 10, x name, m at level 100, k at level 200).

End Exec.

(* ===================================================================== *)
(** * parliament/download.py                                              *)
(* ===================================================================== *)

Module Parliament.
Import Py Exec.

(** ** Data *)

(** One record of ['xml_info_list']. *)
Record XmlInfo := mkXmlInfo {
  name : string;
  xml_filepath : string;
  xml_url : string }.

(** One line of the metadata file.  A missing ['xml_info_list'] key is
    [None]: the script reads it with [.get("xml_info_list", [])]. *)
Record XmlMetadata := mkXmlMetadata {
  html_url : string;
  group_name : string;     (* the key ['name'] of the group *)
  xml_info_list : option (list XmlInfo) }.

(** What the script reads of a [<td>]: [get_text(strip=True)] and the
    [href] of the first [<a href=...>] below it, if there is one. *)
Record Cell := mkCell { cell_text : string; cell_href : option string }.

(** What the script reads of a [<tr>]: [row.find_all("td")]. *)
Record Row := mkRow { cells : list Cell }.

(** What one run meets outside the program: the answer of the network to
    a GET of each URL, and the rows [BeautifulSoup(...).find_all("tr")]
    finds in a page body. *)
Record World := mkWorld {
  http_get : string -> Response;
  soup_rows : list Byte.byte -> list Row }.

Record Args := mkArgs { xml_metadata_file : string; xml_output_dir : string }.

Abbreviation State := (Exec.State (list XmlMetadata)).
Abbreviation M := (Exec.M (list XmlMetadata)).

(** [requests.get(url)] followed by [raise_for_status()]; the request is
    logged as [r]. *)
Definition get_checked (w : World) (r : Request) (url : string) : M (list Byte.byte) :=
  let* _ := log_request r in
  match http_get w url with
  | Resp content => ret content
  | BadStatus msg => raise (HTTPError msg)
  | Failed e => raise e
  | Broken _ msg => raise (ConnectionError msg)
  end.

(** [any(xml_info['name'] == name for xml_info in xml_info_list)] *)
Definition name_known (name0 : string) (xml_info_list : list XmlInfo) : bool :=
  existsb (fun xml_info => bool_decide (name xml_info = name0)) xml_info_list.

(** ** [download_xml] *)

Definition download_xml (w : World) (row : Row) (base_url output_dir : string)
    (xml_info_list : list XmlInfo) : M XmlInfo :=
  match cells row with
  | cell0 :: cell1 :: _ =>
      let name := cell_text cell0 in
      if name_known name xml_info_list
      then raise (ValueError ("File already downloaded 'name': '" +:+ name +:+ "'"))
      else
        match cell_href cell1 with
        | None => raise (ValueError "'a_tag' not found")
        | Some href =>
            let href := if startswith "http" href then href else base_url +:+ href in
            let filepath := output_dir +:+ "/" +:+ last_item (split "=" href) in
            let* _ := print ("Downloading " +:+ href +:+ " ...") in
            let* content := get_checked w (DownloadRequest href filepath) href in
            let* _ := write_file filepath content in
            ret (mkXmlInfo name filepath href)
        end
  | _ => (* len(cells) < 2 *)
      raise (ValueError "Skipping Malformed rows")
  end.

(** ** [main] *)

(** The loop [for row in soup.find_all("tr")]: [new_xml_info_list] is the
    list built so far. *)
Fixpoint rows_loop (w : World) (rows : list Row) (base_url output_dir : string)
    (xml_info_list new_xml_info_list : list XmlInfo) : M (list XmlInfo) :=
  match rows with
  | [] => ret new_xml_info_list
  | row :: rest =>
      let* new_xml_info_list :=
        except_ValueError
          (let* xml_info := download_xml w row base_url output_dir xml_info_list in
           ret (new_xml_info_list ++ [xml_info]))
          (fun e =>
             let* _ := print ("Caught exception: " +:+ e) in
             ret new_xml_info_list) in
      rows_loop w rest base_url output_dir xml_info_list new_xml_info_list
  end.

(** [f"https://{html_url.split('/')[2]}"] *)
Definition base_url_of (html_url : string) : M string :=
  match split "/" html_url !! 2%nat with
  | Some host => ret ("https://" +:+ host)
  | None => raise (IndexError "list index out of range")
  end.

(** The body of the loop [for xml_metadata in xml_metadata_list]: returns
    [new_xml_metadata] and the group as updated in place.
    ([os.makedirs] only creates directories, which the state does not
    track.) *)
Definition process_metadata (w : World) (xml_output_dir : string)
    (xml_metadata : XmlMetadata) : M (XmlMetadata * XmlMetadata) :=
  let html_url := html_url xml_metadata in
  let name := group_name xml_metadata in
  let xml_info_list := default [] (xml_info_list xml_metadata) in
  let output_dir := xml_output_dir +:+ "/" +:+ name in
  let* content := get_checked w (PageRequest html_url) html_url in
  let rows := soup_rows w content in
  let* base_url := base_url_of html_url in
  let* new_xml_info_list := rows_loop w rows base_url output_dir xml_info_list [] in
  ret (mkXmlMetadata html_url name (Some new_xml_info_list),
       mkXmlMetadata html_url name (Some (new_xml_info_list ++ xml_info_list))).

(** The loop over the groups: returns [new_xml_metadata_list] and the
    updated [xml_metadata_list]. *)
Fixpoint metadata_loop (w : World) (xml_output_dir : string)
    (xml_metadata_list : list XmlMetadata) : M (list XmlMetadata * list XmlMetadata) :=
  match xml_metadata_list with
  | [] => ret ([], [])
  | xml_metadata :: rest =>
      let* r := process_metadata w xml_output_dir xml_metadata in
      let* rs := metadata_loop w xml_output_dir rest in
      ret (r.1 :: rs.1, r.2 :: rs.2)
  end.

(** [print_xml_summary] *)
Fixpoint print_xml_summary_lines (xml_metadata_list : list XmlMetadata) : M unit :=
  match xml_metadata_list with
  | [] => ret tt
  | xml_metadata :: rest =>
      let n_files := length (default [] (xml_info_list xml_metadata)) in
      let* _ := print ("  - " +:+ group_name xml_metadata +:+ ": " +:+
                       str_of_int (Z.of_nat n_files) +:+ " files") in
      print_xml_summary_lines rest
  end.

Definition print_xml_summary (xml_metadata_list : list XmlMetadata) (title : string) : M unit :=
  let* _ := print ("- " +:+ title +:+ ":") in
  print_xml_summary_lines xml_metadata_list.

(** [main]: read the store, run the loop, write the store, print the
    summaries.  The result is the pair ([new_xml_metadata_list],
    [xml_metadata_list]) that the two summaries are printed from. *)
Definition main (w : World) (args : Args) : M (list XmlMetadata * list XmlMetadata) :=
  let* xml_metadata_list := read_store in
  let* r := metadata_loop w (xml_output_dir args) xml_metadata_list in
  let* _ := write_store r.2 in
  let* _ := print (nl +:+ ":::::: XML SUMMARY ::::::") in
  let* _ := print_xml_summary r.1 "New Data" in
  let* _ := print_xml_summary r.2 "Total Data" in
  ret r.

(** ** The claims' own notions *)

(** The names of a record list. *)
Definition names (xml_info_list : list XmlInfo) : list string := map name xml_info_list.

(** The invariant of an [XmlMetadataGroup]: no two records share a name. *)
Definition unique_names (xml_metadata : XmlMetadata) : Prop :=
  NoDup (names (default [] (xml_info_list xml_metadata))).

(** The names a page offers: the first-cell texts of its rows of two cells
    at least, in page order. *)
Definition row_names (rows : list Row) : list string :=
  omap (fun row => match cells row with
                   | cell0 :: _ :: _ => Some (cell_text cell0)
                   | _ => None
                   end) rows.

(** The per-row rejections, with the message each is reported by:
    fewer than two cells, a name already in the known list, no hyperlink
    in the second cell. *)
Definition rejection (xml_info_list : list XmlInfo) (row : Row) : option string :=
  match cells row with
  | cell0 :: cell1 :: _ =>
      if name_known (cell_text cell0) xml_info_list
      then Some ("File already downloaded 'name': '" +:+ cell_text cell0 +:+ "'")
      else match cell_href cell1 with
           | None => Some "'a_tag' not found"
           | Some _ => None
           end
  | _ => Some "Skipping Malformed rows"
  end.

(** The absolute URL a row links to. *)
Definition row_link (base_url : string) (row : Row) : option string :=
  match cells row with
  | _ :: cell1 :: _ =>
      match cell_href cell1 with
      | Some href => Some (if startswith "http" href then href else base_url +:+ href)
      | None => None
      end
  | _ => None
  end.

(** The first cell of the row, when it has one, names a known record. *)
Definition row_known (xml_info_list : list XmlInfo) (row : Row) : bool :=
  match cells row with
  | cell0 :: _ => name_known (cell_text cell0) xml_info_list
  | [] => true
  end.

(** Every row of the group's index page, as the network serves it, names
    a known record. *)
Definition page_known (w : World) (xml_metadata : XmlMetadata) : bool :=
  match http_get w (html_url xml_metadata) with
  | Resp content =>
      forallb (row_known (default [] (xml_info_list xml_metadata))) (soup_rows w content)
  | _ => true
  end.

(** The download requests in a log. *)
Definition downloads (log : list Request) : list Request := List.filter is_download log.

(** What a run prepends to a group: the new group [new] holds the records
    created in the run, and the updated group [total] holds them in front
    of the records of [old], whose other fields it keeps. *)
Definition prepended (old new total : XmlMetadata) : Prop :=
  exists new_xml_info_list,
    xml_info_list new = Some new_xml_info_list /\
    xml_info_list total = Some (new_xml_info_list ++ default [] (xml_info_list old)) /\
    html_url total = html_url old /\ group_name total = group_name old.

(** ** Sample inputs *)

Definition sample_url : string := "https://www.legebiltzarra.eus/comparla/listado".

Definition sample_body : list Byte.byte := [Byte.x3c; Byte.x78; Byte.x3e].

(** A page with two rows of the same new name, each with its own link. *)
Definition twin_rows : list Row :=
  [mkRow [mkCell "Pleno 1" None; mkCell "XML" (Some "/descarga?fichero=pleno1.xml")];
   mkRow [mkCell "Pleno 1" None; mkCell "XML" (Some "/descarga?fichero=pleno1_bis.xml")]].

Definition twin_world : World := mkWorld (fun _ => Resp sample_body) (fun _ => twin_rows).

Definition sample_args : Args := mkArgs "xml_metadata.json" "xml".

Definition empty_state (gs : list XmlMetadata) : State := mkState ∅ [] [] gs.

Definition fresh_store : list XmlMetadata := [mkXmlMetadata sample_url "XII" (Some [])].

(** A store that already holds ["Pleno 1"], and a page with a malformed
    row, a row of that name, a row without link, a new row whose file the
    server refuses, and one more new row. *)
Definition pleno1 : XmlInfo :=
  mkXmlInfo "Pleno 1" "xml/XII/pleno1.xml"
            "https://www.legebiltzarra.eus/descarga?fichero=pleno1.xml".

Definition one_group : XmlMetadata := mkXmlMetadata sample_url "XII" (Some [pleno1]).

Definition one_store : list XmlMetadata := [one_group].

Definition row_malformed : Row := mkRow [mkCell "Cabecera" None].
Definition row_duplicate : Row :=
  mkRow [mkCell "Pleno 1" None; mkCell "XML" (Some "/descarga?fichero=pleno1.xml")].
Definition row_no_link : Row := mkRow [mkCell "Pleno 2" None; mkCell "pendiente" None].
Definition row_refused : Row :=
  mkRow [mkCell "Pleno 3" None; mkCell "XML" (Some "/descarga?fichero=pleno3.xml")].
Definition row_new : Row :=
  mkRow [mkCell "Pleno 4" None; mkCell "XML" (Some "/descarga?fichero=pleno4.xml")].

Definition mixed_rows : list Row :=
  [row_malformed; row_duplicate; row_no_link; row_refused; row_new].

Definition refusing_world : World :=
  mkWorld (fun url =>
             if bool_decide (url = "https://www.legebiltzarra.eus/descarga?fichero=pleno3.xml")
             then BadStatus "404 Client Error"
             else Resp sample_body)
          (fun _ => mixed_rows).

(** The same page served by a network that delivers every file. *)
Definition serving_world : World := mkWorld (fun _ => Resp sample_body) (fun _ => mixed_rows).

(** The records that run creates. *)
Definition pleno3 : XmlInfo :=
  mkXmlInfo "Pleno 3" "xml/XII/pleno3.xml"
            "https://www.legebiltzarra.eus/descarga?fichero=pleno3.xml".
Definition pleno4 : XmlInfo :=
  mkXmlInfo "Pleno 4" "xml/XII/pleno4.xml"
            "https://www.legebiltzarra.eus/descarga?fichero=pleno4.xml".

(** A page on which every row is known. *)
Definition known_world : World :=
  mkWorld (fun _ => Resp sample_body)
          (fun _ => [row_duplicate; mkRow [mkCell "Pleno 1" None]; mkRow []]).

End Parliament.

(* ===================================================================== *)
(** * podcast/download_ivoox_podcast.py                                   *)
(* ===================================================================== *)

Module Podcast.
Import Py Exec.

(** ** Data *)

(** [AudioFeed]: one record of ['audio_list'].  The title and the duration
    are what the feed entry gave, possibly nothing. *)
Record AudioFeed := mkAudioFeed {
  id : Z;
  pub_date : string;
  title : option string;
  duration : option string;
  audio_filepath : string;
  url : string }.

(** [Feed]: one line of the feed file.  Every key is read with [.get], so
    each may be missing ([None]). *)
Record Feed := mkFeed {
  source : option string;
  name : option string;
  rss_url : option string;
  audio_list : option (list AudioFeed) }.

(** What the script reads of a feed entry as [feedparser] presents it. *)
Record Enclosure := mkEnclosure { enclosure_url : option string }.

(** The fields of a [time.struct_time] that ["%Y-%m-%d"] prints. *)
Record struct_time := mkTime { tm_year : nat; tm_mon : nat; tm_mday : nat }.

Record Entry := mkEntry {
  enclosures : option (list Enclosure);   (* [None]: no ['enclosures'] key *)
  entry_id : option string;               (* [entry.get("id")] *)
  published_parsed : option struct_time;
  entry_title : option string;
  itunes_duration : option string;
  itunes_season : option string;
  itunes_episode : option string }.

(** The result of [feedparser.parse]. *)
Record ParsedFeed := mkParsedFeed {
  bozo : bool;
  bozo_exception : string;
  entries : list Entry }.

(** What one run meets outside the program: the answer of the network to a
    GET of each URL, and what [feedparser.parse] makes of each feed URL. *)
Record World := mkWorld {
  http_get : string -> Response;
  feedparser_parse : string -> ParsedFeed }.

Record Args := mkArgs {
  feed_rss_file : string;
  output_dir : string;
  only_stats : bool }.

Abbreviation State := (Exec.State (list Feed)).
Abbreviation M := (Exec.M (list Feed)).

(** ** [download_file] *)

(** The [try] block of [download_file]: request, status check, and the
    chunks written to the file as they arrive. *)
Definition fetch_to_file (w : World) (url output_path : string) : M (option bool) :=
  let* _ := print ("Downloading " +:+ url +:+ " → " +:+ output_path) in
  let* _ := log_request (DownloadRequest url output_path) in
  match http_get w url with
  | Resp content =>
      let* _ := write_file output_path content in
      let* _ := print " - Done." in
      ret (Some true)
  | BadStatus msg => raise (HTTPError msg)
  | Failed e => raise e
  | Broken partial msg =>
      let* _ := write_file output_path partial in
      raise (ConnectionError msg)
  end.

(** [download_file]: [None], [Some true], [Some false] are Python's
    [None], [True], [False]. *)
Definition download_file (w : World) (url output_path : string) : M (option bool) :=
  let* present := path_exists output_path in
  if present then
    let* _ := print ("Already downloaded: " +:+ output_path) in
    ret None
  else
    except_Exception (fetch_to_file w url output_path)
      (fun e =>
         let* _ := print (" - Error downloading " +:+ url +:+ ": " +:+ str_exn e) in
         ret (Some false)).

(** Truthiness of what [download_file] returns. *)
Definition is_true (r : option bool) : bool :=
  match r with Some true => true | _ => false end.

(** ** [process_feed] *)

(** [time.strftime("%Y-%m-%d", t)] *)
Definition two_digits (n : nat) : string :=
  (if (n <? 10)%nat then "0" else "") +:+ str_of_int (Z.of_nat n).

Definition strftime_ymd (t : struct_time) : string :=
  str_of_int (Z.of_nat (tm_year t)) +:+ "-" +:+ two_digits (tm_mon t) +:+ "-" +:+
  two_digits (tm_mday t).

(** [[audio["id"] for audio in audio_list] if audio_list else None] *)
Definition id_list_of (audio_list : option (list AudioFeed)) : option (list Z) :=
  match audio_list with
  | Some (a :: l) => Some (map id (a :: l))
  | _ => None
  end.

(** [if id_list: if _id in id_list: continue] *)
Definition id_known (id_list : option (list Z)) (_id : Z) : bool :=
  match id_list with
  | Some (i :: l) => bool_decide (_id ∈ i :: l)
  | _ => false
  end.

(** The file name of an episode, without directory and extension. *)
Definition filename_of (entry : Entry) (_id : Z) : string :=
  match itunes_season entry, itunes_episode entry with
  | Some season, Some episode => season +:+ "x" +:+ episode +:+ "_" +:+ str_of_int _id
  | _, _ => str_of_int _id
  end.

(** [int(os.path.split(full_id)[1])] on [entry.get("id")]. *)
Definition parse_id (entry : Entry) : M Z :=
  match entry_id entry with
  | None => raise (TypeError "expected str, bytes or os.PathLike object, not NoneType")
  | Some full_id =>
      match int (path_tail full_id) with
      | Some _id => ret _id
      | None =>
          (* the message quotes the text as [repr] does; here always with ' *)
          raise (ValueError ("invalid literal for int() with base 10: '" +:+
                             path_tail full_id +:+ "'"))
      end
  end.

(** The body of the loop [for entry in feed.entries]: [new_audio_list] is
    the list built so far. *)
Definition process_entry (w : World) (base_dir : string) (id_list : option (list Z))
    (entry : Entry) (new_audio_list : list AudioFeed) : M (list AudioFeed) :=
  match enclosures entry with
  | Some (enclosure :: _) =>
      match enclosure_url enclosure with
      | Some url =>
          if negb (truthy url) then ret new_audio_list
          else
            let* _id := parse_id entry in
            if id_known id_list _id then ret new_audio_list
            else
              let filename := filename_of entry _id in
              let audio_filepath := base_dir +:+ "/" +:+ filename +:+ ".mp3" in
              let* downloaded := download_file w url audio_filepath in
              if is_true downloaded then
                match published_parsed entry with
                | Some pub_date =>
                    ret (new_audio_list ++
                           [mkAudioFeed _id (strftime_ymd pub_date) (entry_title entry)
                              (itunes_duration entry) audio_filepath url])
                | None => raise (TypeError "Tuple or struct_time argument required")
                end
              else ret new_audio_list
      | None => ret new_audio_list
      end
  | _ => (* no enclosures *)
      ret new_audio_list
  end.

Fixpoint entries_loop (w : World) (base_dir : string) (id_list : option (list Z))
    (entries : list Entry) (new_audio_list : list AudioFeed) : M (list AudioFeed) :=
  match entries with
  | [] => ret new_audio_list
  | entry :: rest =>
      let* new_audio_list := process_entry w base_dir id_list entry new_audio_list in
      entries_loop w base_dir id_list rest new_audio_list
  end.

(** [process_feed].  (The [ValueError] for a missing field also prints the
    descriptor after the colon; the model stops at the colon.
    [os.makedirs] only creates directories, which the state does not
    track.) *)
Definition process_feed (w : World) (feed_info : Feed) (output_dir : string)
    : M (list AudioFeed) :=
  let id_list := id_list_of (audio_list feed_info) in
  match source feed_info, name feed_info, rss_url feed_info with
  | Some source, Some name, Some rss_url =>
      let* _ := print (nl +:+ "=== Processing " +:+ source +:+ "/" +:+ name +:+ " ===") in
      let* _ := log_request (FeedRequest rss_url) in
      let feed := feedparser_parse w rss_url in
      if bozo feed then raise (ValueError ("ERROR parsing feed: " +:+ bozo_exception feed))
      else
        let base_dir := path_join output_dir [source; name] in
        let* new_audio_list := entries_loop w base_dir id_list (entries feed) [] in
        let* _ := print (nl +:+ "==== End Processing " +:+ source +:+ "/" +:+ name +:+ " ====") in
        ret new_audio_list
  | _, _, _ => raise (ValueError "ERROR: Missing required field in feed_info: ")
  end.

(** ** The loop of [main] *)

(** The loop [for feed in feed_rss]: returns [new_feed_rss] and the feeds
    as updated in place. *)
Fixpoint feeds_loop (w : World) (output_dir : string) (feed_rss : list Feed)
    : M (list Feed * list Feed) :=
  match feed_rss with
  | [] => ret ([], [])
  | feed :: rest =>
      let* new_audio_list := process_feed w feed output_dir in
      let new_feed := mkFeed (source feed) (name feed) (rss_url feed) (Some new_audio_list) in
      let audio_list := default [] (audio_list feed) in
      let feed' :=
        mkFeed (source feed) (name feed) (rss_url feed) (Some (new_audio_list ++ audio_list)) in
      let* rs := feeds_loop w output_dir rest in
      ret (new_feed :: rs.1, feed' :: rs.2)
  end.

(** ** [print_summary] *)

(** [[int(p) for p in parts]]: the first part that is no number raises. *)
Fixpoint int_list (parts : list string) : result (list Z) :=
  match parts with
  | [] => Ok []
  | p :: rest =>
      match int p with
      | None => Raise (ValueError ("invalid literal for int() with base 10: '" +:+ p +:+ "'"))
      | Some n =>
          match int_list rest with
          | Ok t => Ok (n :: t)
          | Raise e => Raise e
          end
      end
  end.

(** [h * 3600 + m * 60 + s] with [s = t[-1]], [m = t[-2] if len(t) > 1
    else 0], [h = t[-3] if len(t) > 2 else 0].  ([t] comes from [split] and
    is never empty.) *)
Definition hms (t : list Z) : Z :=
  match rev t with
  | s :: m :: h :: _ => h * 3600 + m * 60 + s
  | [s; m] => m * 60 + s
  | [s] => s
  | [] => 0
  end.

(** The loop [for d in duration_list], from [seconds] on.  A duration that
    is [None] has no [split]. *)
Fixpoint duration_loop (duration_list : list (option string)) (seconds : Z) : result Z :=
  match duration_list with
  | [] => Ok seconds
  | None :: _ => Raise (AttributeError "'NoneType' object has no attribute 'split'")
  | Some d :: rest =>
      match int_list (split ":" d) with
      | Ok t => duration_loop rest (seconds + hms t)
      | Raise e => Raise e
      end
  end.

(** [f"{round(seconds / 3600, 2)}"] *)
Definition hours_text (seconds : Z) : result string :=
  match PyFloat.true_divide seconds 3600 with
  | None => Raise (OverflowError "integer division result too large for a float")
  | Some hours =>
      match PyFloat.round_ndigits hours 2 with
      | None => Raise (OverflowError "rounded value too large to represent")
      | Some rounded => Ok (PyFloat.repr rounded)
      end
  end.

(** The body of the loop of [print_summary]: the line of one feed.  The
    keys are read with [feed[...]], so a missing one is a [KeyError]. *)
Definition summary_line (feed : Feed) : result string :=
  match audio_list feed with
  | None => Raise (KeyError "audio_list")
  | Some audio_list =>
      let n_files := length audio_list in
      match duration_loop (map duration audio_list) 0 with
      | Raise e => Raise e
      | Ok seconds =>
          match hours_text seconds with
          | Raise e => Raise e
          | Ok hours =>
              match source feed, name feed with
              | None, _ => Raise (KeyError "source")
              | Some _, None => Raise (KeyError "name")
              | Some source, Some name =>
                  Ok ("    · " +:+ source +:+ "/" +:+ name +:+ ": " +:+ hours +:+
                      " hours | " +:+ str_of_int (Z.of_nat n_files) +:+ " programs")
              end
          end
      end
  end.

Fixpoint print_summary_loop (feed_rss : list Feed) : M unit :=
  match feed_rss with
  | [] => ret tt
  | feed :: rest =>
      match summary_line feed with
      | Raise e => raise e
      | Ok line =>
          let* _ := print line in
          print_summary_loop rest
      end
  end.

Definition print_summary (feed_rss : list Feed) (title : string) : M unit :=
  let* _ := print ("- " +:+ title +:+ ":") in
  print_summary_loop feed_rss.

(** ** [main] *)

(** [main]: with [only_stats] nothing is fetched and nothing is written;
    otherwise the feeds are processed and the store is written once all of
    them are done.  The summaries are printed last, after the store is
    written.  The result is the pair ([new_feed_rss], [feed_rss]) the
    summaries are printed from. *)
Definition main (w : World) (args : Args) : M (list Feed * list Feed) :=
  let* feed_rss := read_store in
  if only_stats args then
    let* _ := print_summary feed_rss "Total Data" in
    ret ([], feed_rss)
  else
    let* r := feeds_loop w (output_dir args) feed_rss in
    let* _ := write_store r.2 in
    let* _ := print (nl +:+ ":::::: SUMMARY ::::::") in
    let* _ := print_summary r.1 "New Data" in
    let* _ := print_summary r.2 "Total Data" in
    ret r.

(** A sequence of runs, each in its own world and with its own arguments,
    on the state the previous run left (whether it finished or raised). *)
Fixpoint runs (schedule : list (World * Args)) (s : State) : State :=
  match schedule with
  | [] => s
  | (w, args) :: rest => runs rest (main w args s).2
  end.

(** ** The claims' own notions *)

(** The descriptor lacks its source, its name or its feed URL. *)
Definition missing_field (feed : Feed) : bool :=
  negb (bool_decide (is_Some (source feed)) && bool_decide (is_Some (name feed)) &&
        bool_decide (is_Some (rss_url feed))).

(** The numeric id of the entry, parsed from the trailing path segment of
    its identifier, is among the ids of the known records. *)
Definition entry_known (known : list AudioFeed) (entry : Entry) : bool :=
  match entry_id entry with
  | Some full_id =>
      match int (path_tail full_id) with
      | Some _id => bool_decide (_id ∈ map id known)
      | None => false
      end
  | None => false
  end.

(** Every entry of the feed, as the network serves it, is known. *)
Definition feed_known (w : World) (feed : Feed) : bool :=
  match rss_url feed with
  | Some rss_url =>
      forallb (entry_known (default [] (audio_list feed))) (entries (feedparser_parse w rss_url))
  | None => true
  end.

(** The path the episode of an entry is saved at, for an entry that has
    an enclosure URL and a numeric id. *)
Definition target_of (base_dir : string) (entry : Entry) : option string :=
  match enclosures entry with
  | Some (enclosure :: _) =>
      match enclosure_url enclosure, entry_id entry with
      | Some url, Some full_id =>
          if truthy url then
            match int (path_tail full_id) with
            | Some _id => Some (base_dir +:+ "/" +:+ filename_of entry _id +:+ ".mp3")
            | None => None
            end
          else None
      | _, _ => None
      end
  | _ => None
  end.

(** The download requests in a log. *)
Definition downloads (log : list Request) : list Request := List.filter is_download log.

(** The records of a store, over all its feeds. *)
Definition records (feed_rss : list Feed) : list AudioFeed :=
  flat_map (fun feed => default [] (audio_list feed)) feed_rss.

(** The records [added] are new to the disk of [st]: none of their files
    was there. *)
Definition fresh_records (st : State) (added : list AudioFeed) : Prop :=
  forall a, a ∈ added -> files st !! audio_filepath a = None.

(** What a run prepends to a feed: the new feed [new] holds the records
    created in the run, and the updated feed [total] holds them in front of
    the records of [old], whose other fields it keeps. *)
Definition prepended (old new total : Feed) : Prop :=
  exists new_audio_list,
    audio_list new = Some new_audio_list /\
    audio_list total = Some (new_audio_list ++ default [] (audio_list old)) /\
    source total = source old /\ name total = name old /\ rss_url total = rss_url old.

(** ** Sample inputs *)

Definition feed_url : string := "https://www.ivoox.com/feed_fg_f1234_filtro_1.xml".

Definition mp3_body : list Byte.byte := [Byte.x49; Byte.x44; Byte.x33].

Definition old_body : list Byte.byte := [Byte.x49; Byte.x44].

(** The entry number [n] of the sample feed. *)
Definition entry_of (n : string) : Entry :=
  mkEntry (Some [mkEnclosure (Some ("https://www.ivoox.com/pleno" +:+ n +:+ ".mp3"))])
          (Some ("https://www.ivoox.com/" +:+ n))
          (Some (mkTime 2024 1 17)) (Some ("Pleno " +:+ n)) (Some "58:10") None None.

Definition episode10 : AudioFeed :=
  mkAudioFeed 10 "2024-01-10" (Some "Pleno 10") (Some "1:02:03")
              "audio/ivoox/pleno/10.mp3" "https://www.ivoox.com/pleno10.mp3".

Definition episode11 : AudioFeed :=
  mkAudioFeed 11 "2024-01-17" (Some "Pleno 11") (Some "58:10")
              "audio/ivoox/pleno/11.mp3" "https://www.ivoox.com/pleno11.mp3".

Definition sample_feed : Feed :=
  mkFeed (Some "ivoox") (Some "pleno") (Some feed_url) (Some [episode10]).

(** A descriptor without name. *)
Definition nameless_feed : Feed := mkFeed (Some "ivoox") None (Some feed_url) None.

(** The feed serves the entries 10 and 11; every file is delivered. *)
Definition two_entries_world : World :=
  mkWorld (fun _ => Resp mp3_body)
          (fun _ => mkParsedFeed false "" [entry_of "10"; entry_of "11"]).

(** The feed serves the entry 10 only. *)
Definition known_world : World :=
  mkWorld (fun _ => Resp mp3_body) (fun _ => mkParsedFeed false "" [entry_of "10"]).

Definition sample_args : Args := mkArgs "feeds.json" "audio" false.

Definition empty_state (feed_rss : list Feed) : State := mkState ∅ [] [] feed_rss.

(** The file of episode 11 is on disk, and the store has no record of it. *)
Definition disk_with_11 : State :=
  mkState {[ "audio/ivoox/pleno/11.mp3" := old_body ]} [] [] [sample_feed].

End Podcast.

(* ===================================================================== *)
(** * extract_videos.py: session information, [parse], the [--save] path  *)
(* ===================================================================== *)

Module ExtractVideosScript.
Import Py ExtractVideos.

(** [e.find(t)] for a plain tag [t]: the first child of [e] with that tag. *)
Definition find_child (t : string) (e : Element) : option Element :=
  List.find (fun c => bool_decide (tag c = t)) (children e).

(** [_get_text] *)
Definition _get_text (element : Element) (t : string) : option string :=
  match find_child t element with
  | Some elem => if truthy_opt (text elem) then strip <$> text elem else None
  | None => None
  end.

(** The keys of [session_info], each with the tag it is read from. *)
Definition session_fields : list (string * string) :=
  [("legislatura", "sesiones_pleno_legislatura");
   ("num_sesion", "sesiones_pleno_num_sesion");
   ("fecha_inicio", "sesiones_pleno_fecha_inicio");
   ("hora_inicio", "sesiones_pleno_hora_inicio");
   ("tipo_sesion", "sesiones_pleno_tipo_sesion")].

(** [_extract_session_info]: the dict it leaves in [self.session_info]; a
    value [None] is Python's [None]. *)
Definition _extract_session_info (root : Element) : gmap string (option string) :=
  match find_descendant "sesiones_pleno" root with
  | None => ∅
  | Some sesion =>
      list_to_map (map (fun kt => (kt.1, _get_text sesion kt.2)) session_fields)
  end.

(** The extractor after [parse]. *)
Record Extractor := mkExtractor {
  session_info : gmap string (option string);
  videos : list Video }.

(** [parse], on what [ET.parse] made of the file: [None] is its
    [ParseError], [Some root] the root of the tree.  The result is the
    value returned and the extractor's fields. *)
Definition parse (tree : option Element) : result (bool * Extractor) :=
  match tree with
  | None => Ok (false, mkExtractor ∅ [])
  | Some root =>
      let session_info := _extract_session_info root in
      match _extract_video_links root with
      | Ok videos => Ok (true, mkExtractor session_info videos)
      | Raise e => Raise e
      end
  end.

(** [s.replace(old, new)]: the occurrences of [old] are replaced from left
    to right, without overlap.  [skip] counts the characters of an
    occurrence just replaced that are still to be passed over. *)
Fixpoint replace_from (old new : string) (skip : nat) (s : string) : string :=
  match s with
  | "" => ""
  | String a s' =>
      match skip with
      | S k => replace_from old new k s'
      | O =>
          if startswith old s
          then new +:+ replace_from old new (String.length old - 1) s'
          else String a (replace_from old new 0 s')
      end
  end.

(** The file the [--save] option writes:
    [xml_file.replace('.xml', '_videos.json')]. *)
Definition output_file (xml_file : string) : string :=
  replace_from ".xml" "_videos.json" 0 xml_file.

(** The text of an element that becomes a segment. *)
Definition accepted_text (element : Element) : option string :=
  match candidate_text element with
  | Some text =>
      match _parse_video_url text with
      | Ok (Some _) => Some text
      | _ => None
      end
  | None => None
  end.

(** The text of the element makes [_parse_video_url] raise: it holds both
    markers and a guard word, and [urlparse] rejects it. *)
Definition raising_text (element : Element) : bool :=
  match candidate_text element with
  | Some text =>
      stream_guard text && bool_decide (urlsplit text = None)
  | None => false
  end.

(** ** Sample inputs *)

(** A document without stream URL, and one whose URL has a stray bracket. *)
Definition plain_doc : Element :=
  Elem "pleno" None [Elem "sesiones_pleno" None [Elem "sesiones_pleno_legislatura" (Some " 12 ") []]].

Definition stray_bracket_doc : Element :=
  Elem "pleno" None
    [Elem "enlace" (Some "https://[www.legebiltzarra.eus/videos?streamdbstart=00:01:00") []].

(** A document whose root is the session node itself. *)
Definition session_root_doc : Element :=
  Elem "sesiones_pleno" None [Elem "sesiones_pleno_legislatura" (Some "12") []].

(** A session node whose legislature field is blank and whose number is
    empty. *)
Definition blank_session : Element :=
  Elem "sesiones_pleno" None
    [Elem "sesiones_pleno_legislatura" (Some "   ") [];
     Elem "sesiones_pleno_num_sesion" (Some "") []].

(** A stream URL that gives the start twice and the end blank. *)
Definition twice_started : string :=
  "https://www.legebiltzarra.eus/videos?streamdbstart=00:01:00&streamdbend=&streamdbstart=00:09:00".

End ExtractVideosScript.

(* ===================================================================== *)
(** * parliament/download.py: what a run records                          *)
(* ===================================================================== *)

Module ParliamentRun.
Import Py Exec Parliament.

(** The index page of the group, as the network serves it, offers no name
    twice. *)
Definition distinct_page (w : World) (xml_metadata : XmlMetadata) : bool :=
  match http_get w (html_url xml_metadata) with
  | Resp content => bool_decide (NoDup (row_names (soup_rows w content)))
  | _ => true
  end.

(** [s'] comes after [s] by writing files and issuing requests: every
    path of [s] is still a file, and every request of [s] is still in the
    log. *)
Definition grows (s s' : State) : Prop :=
  (forall path, is_Some (files s !! path) -> is_Some (files s' !! path)) /\
  exists issued, requests s' = requests s ++ issued.

(** The record [r], created from a page whose files go to [output_dir]
    in a run that ends in the state [s'], is backed by the run: its name was
    not among the [known] ones, its URL is absolute, its path is
    [output_dir] followed by the last [=]-separated segment of the URL, the
    file is on disk, and the download of this URL to this path was
    requested. *)
Definition backed (output_dir : string) (known : list XmlInfo) (s' : State)
    (r : XmlInfo) : Prop :=
  (name r ∉ names known) /\
  startswith "http" (xml_url r) = true /\
  xml_filepath r = output_dir +:+ "/" +:+ last_item (split "=" (xml_url r)) /\
  is_Some (files s' !! xml_filepath r) /\
  DownloadRequest (xml_url r) (xml_filepath r) ∈ requests s'.

(** The same of every record that a run created for the group [old],
    listed in [new]. *)
Definition group_backed (dir : string) (s' : State) (old new : XmlMetadata) : Prop :=
  forall r, r ∈ default [] (xml_info_list new) ->
    backed (dir +:+ "/" +:+ group_name old) (default [] (xml_info_list old)) s' r.

(** ** Sample inputs *)

(** The fourth link of the sample page is one that [requests] rejects as
    a URL. *)
Definition invalid_url_world : World :=
  mkWorld (fun url =>
             if bool_decide (url = "https://www.legebiltzarra.eus/descarga?fichero=pleno3.xml")
             then Failed (ValueError "Invalid URL")
             else Resp sample_body)
          (fun _ => mixed_rows).

End ParliamentRun.

(* ===================================================================== *)
(** * podcast/download_ivoox_podcast.py: what a run records               *)
(* ===================================================================== *)

Module PodcastRun.
Import Py Exec Podcast.

(** The ids of a record list. *)
Definition ids (audio_list : list AudioFeed) : list Z := map id audio_list.

(** The invariant of a [FeedGroup]: no two records share an id. *)
Definition unique_ids (feed : Feed) : Prop := NoDup (ids (default [] (audio_list feed))).

(** The numeric ids a feed offers: those of its entries whose identifier
    ends in a number, in feed order. *)
Definition entry_ids (entries : list Entry) : list Z :=
  omap (fun entry =>
          match entry_id entry with
          | Some full_id => int (path_tail full_id)
          | None => None
          end) entries.

(** The feed, as the network serves it, offers no id twice. *)
Definition distinct_feed (w : World) (feed : Feed) : bool :=
  match rss_url feed with
  | Some rss_url => bool_decide (NoDup (entry_ids (entries (feedparser_parse w rss_url))))
  | None => true
  end.

(** The record [r], created in a run that ends in the state [s'], is
    served by the run: its id was not among the [known] ones, the network
    answered its URL with a body, the file at its path holds exactly this
    body, and the download of this URL to this path was requested. *)
Definition served (w : World) (known : list AudioFeed) (s' : State) (r : AudioFeed) : Prop :=
  (id r ∉ ids known) /\
  (exists content,
     http_get w (url r) = Resp content /\ files s' !! audio_filepath r = Some content) /\
  DownloadRequest (url r) (audio_filepath r) ∈ requests s'.

(** The same of every record that a run created for the feed [old],
    listed in [new]. *)
Definition feed_served (w : World) (s' : State) (old new : Feed) : Prop :=
  forall r, r ∈ default [] (audio_list new) -> served w (default [] (audio_list old)) s' r.

(** The enclosure URL the script reads of an entry. *)
Definition entry_url (entry : Entry) : option string :=
  match enclosures entry with
  | Some (enclosure :: _) => enclosure_url enclosure
  | _ => None
  end.

(** ** Sample inputs *)

(** A network on which every body stops short. *)
Definition breaking_world : World :=
  mkWorld (fun _ => Broken old_body "Connection broken")
          (fun _ => mkParsedFeed false "" [entry_of "11"]).

(** An entry without publication date. *)
Definition undated_entry : Entry :=
  mkEntry (Some [mkEnclosure (Some "https://www.ivoox.com/pleno12.mp3")])
          (Some "https://www.ivoox.com/12") None (Some "Pleno 12") (Some "1:00") None None.

End PodcastRun.

(* ===================================================================== *)
(** * podcast/download_ivoox_podcast.py: [print_summary]                  *)
(* ===================================================================== *)

Module PodcastSummary.
Import Py Exec Podcast.

(** The exceptions [print_summary] can meet: the [ValueError] of [int],
    the [KeyError] of a missing key, and the [AttributeError] of
    [None.split]. *)
Inductive summary_exn :=
| OfInt (e : exn)
| KeyError (key : string)
| AttributeError (msg : string).

Inductive outcome (A : Type) :=
| Done (a : A)
| Fails (e : summary_exn).
Arguments Done {A} a.
Arguments Fails {A} e.

(** [[int(p) for p in parts]]: the first part that is no number raises. *)
Fixpoint ints (parts : list string) : outcome (list Z) :=
  match parts with
  | [] => Done []
  | p :: rest =>
      match int p with
      | None => Fails (OfInt (ValueError ("invalid literal for int() with base 10: '" +:+ p +:+ "'")))
      | Some n =>
          match ints rest with
          | Done t => Done (n :: t)
          | Fails e => Fails e
          end
      end
  end.

(** [h * 3600 + m * 60 + s] with [s = t[-1]], [m = t[-2]] when there are
    two parts at least, [h = t[-3]] when there are three at least.  ([t]
    comes from [split] and is never empty.) *)
Definition seconds_of (t : list Z) : Z :=
  match rev t with
  | s :: m :: h :: _ => h * 3600 + m * 60 + s
  | [s; m] => m * 60 + s
  | [s] => s
  | [] => 0
  end.

(** What one duration adds to [seconds]. *)
Definition duration_seconds (d : option string) : outcome Z :=
  match d with
  | None => Fails (AttributeError "'NoneType' object has no attribute 'split'")
  | Some d =>
      match ints (split ":" d) with
      | Done t => Done (seconds_of t)
      | Fails e => Fails e
      end
  end.

(** The loop [for d in duration_list], from [seconds] on. *)
Fixpoint total_seconds (duration_list : list (option string)) (seconds : Z) : outcome Z :=
  match duration_list with
  | [] => Done seconds
  | d :: rest =>
      match duration_seconds d with
      | Done s => total_seconds rest (seconds + s)
      | Fails e => Fails e
      end
  end.

(** The body of the loop of [print_summary] for one feed: the numbers
    its line is printed from, [seconds] (printed as hours, a floating point
    number that is left out here) and [n_files]. *)
Definition feed_summary (feed : Feed) : outcome (Z * nat) :=
  match audio_list feed with
  | None => Fails (KeyError "audio_list")
  | Some audio_list =>
      let n_files := length audio_list in
      match total_seconds (map duration audio_list) 0 with
      | Fails e => Fails e
      | Done seconds =>
          match source feed, name feed with
          | None, _ => Fails (KeyError "source")
          | Some _, None => Fails (KeyError "name")
          | Some _, Some _ => Done (seconds, n_files)
          end
      end
  end.

(** [print_summary]: the numbers of each line, or the first exception. *)
Fixpoint print_summary (feed_rss : list Feed) : outcome (list (Z * nat)) :=
  match feed_rss with
  | [] => Done []
  | feed :: rest =>
      match feed_summary feed with
      | Fails e => Fails e
      | Done line =>
          match print_summary rest with
          | Done lines => Done (line :: lines)
          | Fails e => Fails e
          end
      end
  end.

(** ** Sample inputs *)

(** An entry without duration. *)
Definition untimed_entry : Entry :=
  mkEntry (Some [mkEnclosure (Some "https://www.ivoox.com/pleno12.mp3")])
          (Some "https://www.ivoox.com/12") (Some (mkTime 2024 1 24)) (Some "Pleno 12")
          None None None.

Definition episode12 : AudioFeed :=
  mkAudioFeed 12 "2024-01-24" (Some "Pleno 12") None
              "audio/ivoox/pleno/12.mp3" "https://www.ivoox.com/pleno12.mp3".

(** The feed serves the entry without duration; every file is delivered. *)
Definition untimed_world : World :=
  mkWorld (fun _ => Resp mp3_body) (fun _ => mkParsedFeed false "" [untimed_entry]).

End PodcastSummary.

(* ===================================================================== *)
(** * The store file: [read_json], [write_json], [read_feeds], [write_feeds] *)
(* ===================================================================== *)

Module StoreFile.
Import Py.

(** What text-mode reading does to line ends: ["\r\n"] and ["\r"] become
    ["\n"]. *)
Fixpoint universal_newlines (s : string) : string :=
  match s with
  | "" => ""
  | String a s' =>
      if bool_decide (a = "013"%char) then
        match s' with
        | String b s'' =>
            if bool_decide (b = "010"%char)
            then String "010" (universal_newlines s'')
            else String "010" (universal_newlines s')
        | "" => String "010" ""
        end
      else String a (universal_newlines s')
  end.

(** [for line in f]: the lines of the text, each with its line end (the
    last one may lack it). *)
Fixpoint file_lines (s : string) : list string :=
  match s with
  | "" => []
  | String a s' =>
      if bool_decide (a = "010"%char) then String a "" :: file_lines s'
      else match file_lines s' with
           | [] => [String a ""]
           | l :: ls => String a l :: ls
           end
  end.

Section Codec.
Context {J : Type} (dumps : J -> string) (loads : string -> option J).

(** [write_json] and [write_feeds]: one line per entry,
    [json.dumps(entry, ensure_ascii=False) + "\n"]; the result is the text
    of the file. *)
Fixpoint write_json (data : list J) : string :=
  match data with
  | [] => ""
  | entry :: rest => dumps entry +:+ nl +:+ write_json rest
  end.

Definition write_feeds (feed_rss : list J) : string := write_json feed_rss.

(** [read_json]: [[json.loads(line) for line in f]]; [None] is the
    exception of [json.loads]. *)
Definition read_json (content : string) : option (list J) :=
  mapM loads (file_lines (universal_newlines content)).

(** [read_feeds]: each line is stripped, an empty one is passed over. *)
Definition read_feeds (content : string) : option (list J) :=
  mapM loads (List.filter truthy (map strip (file_lines (universal_newlines content)))).

(** What the round trip needs of the JSON codec at [x]: the dump has no
    line end in it, the dump followed by a line end strips back to the
    dump, which is not empty, and [loads] reads [x] from the dump, with or
    without the line end. *)
Definition line_codec (x : J) : Prop :=
  has_char "010" (dumps x) = false /\
  has_char "013" (dumps x) = false /\
  strip (dumps x +:+ nl) = dumps x /\
  truthy (dumps x) = true /\
  loads (dumps x) = Some x /\
  loads (dumps x +:+ nl) = Some x.

End Codec.

End StoreFile.

(* ===================================================================== *)
(** * parliament/download_audio.py                                        *)
(* ===================================================================== *)

Module DownloadAudio.
Import Py.

(** [s.endswith(suffix)] *)
Fixpoint endswith (suffix s : string) : bool :=
  bool_decide (s = suffix) ||
  match s with
  | "" => false
  | String _ s' => endswith suffix s'
  end.

Definition site : string := "https://www.irekia.euskadi.eus".

(** The loop over [soup.find_all(["video", "source"])], given the [src]
    attribute of each tag found ([None] where the tag has none): the set
    [video_urls]. *)
Definition add_src (video_urls : gset string) (src : option string) : gset string :=
  match src with
  | Some src =>
      if truthy src && endswith ".mp4" src
      then video_urls ∪ {[ if startswith "/" src then site +:+ src else src ]}
      else video_urls
  | None => video_urls
  end.

Definition video_urls (srcs : list (option string)) : gset string :=
  foldl add_src ∅ srcs.

End DownloadAudio.

(* ===================================================================== *)
(** * Sample inputs for the store file                                    *)
(* ===================================================================== *)

Module StoreFileSamples.
Import Py.

(** A codec for numbers, which reads past surrounding whitespace as
    [json.loads] does. *)
Definition dump_number (n : Z) : string := str_of_int n.
Definition load_number (s : string) : option Z := int s.

End StoreFileSamples.

(* ===================================================================== *)
(** * Facts about the library operations                                  *)
(* ===================================================================== *)

Module PyFacts.
Import Py.

Lemma truthy_true (s : string) : truthy s = true <-> s <> "".
Proof. destruct s; simpl; split; congruence. Qed.

Lemma replace_truthy (a b : ascii) (s : string) : truthy (replace a b s) = truthy s.
Proof. destruct s; reflexivity. Qed.

Lemma unquote_truthy (s : string) : truthy (unquote s) = truthy s.
Proof.
  destruct s as [|a [|h [|l s]]]; simpl; try reflexivity.
  destruct (if bool_decide (a = "%"%char) then hex_byte h l else None); reflexivity.
Qed.

(** A field kept by [parse_qsl] has a non-empty value. *)
Lemma parse_field_truthy (f n v : string) :
  parse_field f = Some (n, v) -> truthy v = true.
Proof.
  unfold parse_field. destruct (split1 "=" f) as [[n0 v0]|]; [|discriminate].
  destruct (truthy v0) eqn:Hv; [|discriminate].
  intros [= <- <-]. by rewrite unquote_truthy, replace_truthy.
Qed.

Lemma parse_qsl_truthy (qs n v : string) :
  (n, v) ∈ parse_qsl qs -> truthy v = true.
Proof.
  unfold parse_qsl. intros (f & _ & Hf)%list_elem_of_omap.
  eauto using parse_field_truthy.
Qed.

Lemma parse_qs_add_lookup (d : gmap string (list string)) (nv : string * string) (k : string) :
  parse_qs_add d nv !! k =
    if decide (nv.1 = k) then Some (default [] (d !! k) ++ [nv.2]) else d !! k.
Proof.
  unfold parse_qs_add. destruct (decide (nv.1 = k)) as [<-|Hne].
  - destruct (d !! nv.1) eqn:Hd; simpl; by rewrite lookup_insert_eq.
  - destruct (d !! nv.1); by rewrite lookup_insert_ne.
Qed.

Lemma foldl_parse_qs_add_lookup (pairs : list (string * string)) :
  forall (d : gmap string (list string)) (k : string),
    foldl parse_qs_add d pairs !! k =
      match values_of k pairs with
      | [] => d !! k
      | vs => Some (default [] (d !! k) ++ vs)
      end.
Proof.
  induction pairs as [|nv pairs IH]; intros d k; simpl; [reflexivity|].
  rewrite IH, parse_qs_add_lookup. unfold values_of; simpl.
  destruct (decide (nv.1 = k)); simpl.
  - destruct (omap _ pairs); simpl; [reflexivity|]. by rewrite <- app_assoc.
  - reflexivity.
Qed.

Lemma parse_qs_lookup (qs k : string) :
  parse_qs qs !! k =
    match values_of k (parse_qsl qs) with
    | [] => None
    | vs => Some vs
    end.
Proof.
  unfold parse_qs. rewrite foldl_parse_qs_add_lookup, lookup_empty. reflexivity.
Qed.

Lemma elem_of_values_of (k v : string) (pairs : list (string * string)) :
  v ∈ values_of k pairs <-> (k, v) ∈ pairs.
Proof.
  unfold values_of. rewrite list_elem_of_omap. split.
  - intros ([n v'] & Hin & Hd). simpl in Hd.
    destruct (decide (n = k)); [|discriminate]. by simplify_eq.
  - intros Hin. exists (k, v). split; [done|]. simpl. by rewrite decide_True.
Qed.

(** The operations on the inputs CPython was observed on. *)

Example unquote_examples :
  unquote "a%41%zz%4" = "aA%zz%4" /\ unquote "%%41" = "%A" /\ unquote "%4%41" = "%4A".
Proof. repeat split. Qed.

Example split_examples :
  split "=" "a=b=" = ["a"; "b"; ""] /\ split "=" "" = [""] /\
  split1 "=" "a=b=c" = Some ("a", "b=c") /\ split1 "=" "abc" = None.
Proof. repeat split. Qed.

Example strip_examples : strip "  a b  " = "a b" /\ strip "   " = "".
Proof. repeat split. Qed.

Example int_examples :
  int " -1_000 " = Some (-1000) /\ int "+7" = Some 7 /\ int "007" = Some 7 /\
  int "1__0" = None /\ int "_1" = None /\ int "1_" = None /\ int "" = None /\ int "-" = None.
Proof. repeat split. Qed.

Example path_examples :
  path_join "out" ["src"; "/abs"; "n"] = "/abs/n" /\ path_join "" ["a"] = "a" /\
  path_join "a/" ["b"] = "a/b" /\ path_join "a" [""] = "a/" /\
  path_tail "http://x/12" = "12" /\ path_tail "abc" = "abc" /\ path_tail "a/" = "".
Proof. repeat split. Qed.

Example urlsplit_examples :
  urlsplit "https://www.legebiltzarra.eus/videos?a=1&b=2#f?x"
    = Some (mkSplitResult "https" "www.legebiltzarra.eus" "/videos" "a=1&b=2" "f?x") /\
  urlsplit "http://[x/videos?a=1" = None /\
  urlsplit "a:b?c=1" = Some (mkSplitResult "a" "" "b" "c=1" "") /\
  urlsplit "1a:b?c=1" = Some (mkSplitResult "" "" "1a:b" "c=1" "") /\
  urlsplit "//h?q=1" = Some (mkSplitResult "" "h" "" "q=1" "") /\
  urlsplit "HTTP://h/?q=3" = Some (mkSplitResult "http" "h" "/" "q=3" "").
Proof. repeat split. Qed.

Example parse_qsl_examples :
  parse_qsl "a=1&&b&c=&d=x+y%21&a=2" = [("a", "1"); ("d", "x y!"); ("a", "2")] /\
  parse_qsl "" = [] /\ parse_qsl "=5" = [("", "5")] /\ parse_qsl "a==" = [("a", "=")] /\
  parse_qsl "streamdb%73tart=5" = [("streamdbstart", "5")] /\
  parse_qsl "x=1;y=2" = [("x", "1;y=2")].
Proof. repeat split. Qed.

End PyFacts.

(* ===================================================================== *)
(** * extract_videos.py: theorems                                         *)
(* ===================================================================== *)

Module ExtractVideosFacts.
Import Py PyFacts ExtractVideos.

(** [get_param] reads the first value the query gives to the key. *)
Lemma get_param_parse_qs (qs k : string) :
  get_param (parse_qs qs) k = head (values_of k (parse_qsl qs)).
Proof.
  unfold get_param. rewrite parse_qs_lookup.
  destruct (values_of k (parse_qsl qs)); reflexivity.
Qed.

(** The value read for a key is truthy exactly when the query string
    contains the parameter. *)
Lemma get_param_truthy (qs k : string) :
  truthy_opt (get_param (parse_qs qs) k) = true <-> has_param k qs.
Proof.
  rewrite get_param_parse_qs. split.
  - destruct (values_of k (parse_qsl qs)) as [|v vs] eqn:Hvs; simpl; [discriminate|].
    intros _.
    assert (Hin : (k, v) ∈ parse_qsl qs).
    { apply elem_of_values_of. rewrite Hvs. left. }
    unfold parse_qsl in Hin. apply list_elem_of_omap in Hin as (f & Hf & Hp).
    unfold parse_field in Hp.
    destruct (split1 "=" f) as [[n0 v0]|] eqn:Hs; [|discriminate].
    destruct (truthy v0) eqn:Hv0; [|discriminate].
    injection Hp as Hn _.
    exists f, n0, v0. repeat split; try done. by apply truthy_true.
  - intros (f & n & v & Hf & Hs & Hv & Hk).
    assert (Hin : (k, unquote (replace "+" " " v)) ∈ parse_qsl qs).
    { unfold parse_qsl. apply list_elem_of_omap. exists f. split; [done|].
      unfold parse_field. rewrite Hs.
      apply truthy_true in Hv. rewrite Hv, Hk. reflexivity. }
    apply elem_of_values_of in Hin.
    destruct (values_of k (parse_qsl qs)) as [|v1 vs] eqn:Hvs.
    { by apply elem_of_nil in Hin. }
    simpl. apply (parse_qsl_truthy qs k). apply elem_of_values_of.
    rewrite Hvs. left.
Qed.

Lemma stream_guard_negb (url : string) :
  negb (contains "streamlegealdia" url) && negb (contains "streamdbstart" url)
  = negb (stream_guard url).
Proof. unfold stream_guard. by rewrite negb_orb. Qed.

(** What [_parse_video_url] returns, case by case. *)
Lemma parse_video_url_accepted (url : string) :
  accepted url <-> stream_guard url = true /\ has_timestamp url.
Proof.
  unfold accepted, has_timestamp, _parse_video_url.
  rewrite stream_guard_negb.
  destruct (stream_guard url); simpl.
  2:{ split; [intros [? [=]] | intros [[=] _]]. }
  destruct (urlsplit url) as [parsed|].
  2:{ split; [intros [? [=]] | intros [_ (? & [=] & _)]]. }
  destruct (truthy_opt (get_param (parse_qs (query parsed)) "streamdbstart")) eqn:Hs;
    [|destruct (truthy_opt (get_param (parse_qs (query parsed)) "streamdbend")) eqn:He];
    simpl.
  - split; [|eauto]. intros _. split; [done|]. exists parsed. split; [done|].
    left. by apply get_param_truthy.
  - split; [|eauto]. intros _. split; [done|]. exists parsed. split; [done|].
    right. by apply get_param_truthy.
  - split; [intros [? [=]]|].
    intros [_ (p & [= <-] & [H|H])]; apply get_param_truthy in H; congruence.
Qed.

Lemma parse_video_url_no_guard (url : string) :
  stream_guard url = false -> discarded url.
Proof.
  unfold discarded, _parse_video_url. rewrite stream_guard_negb. by intros ->.
Qed.

Lemma parse_video_url_no_timestamp (url : string) (parsed : SplitResult) :
  urlsplit url = Some parsed ->
  ~ has_param "streamdbstart" (query parsed) ->
  ~ has_param "streamdbend" (query parsed) ->
  discarded url.
Proof.
  intros Hp Hs He. unfold discarded, _parse_video_url. rewrite Hp.
  destruct (negb _ && negb _); [reflexivity|]. simpl.
  destruct (truthy_opt (get_param _ "streamdbstart")) eqn:E1.
  { apply get_param_truthy in E1. contradiction. }
  destruct (truthy_opt (get_param _ "streamdbend")) eqn:E2.
  { apply get_param_truthy in E2. contradiction. }
  reflexivity.
Qed.

(** C1 (amended).  For an element text that holds the hostname marker
    and ["videos"], the candidate URL is accepted as a video segment if and
    only if the text contains ['streamlegealdia'] or ['streamdbstart'] AND
    its query string carries a non-empty start ([streamdbstart]) or end
    ([streamdbend]) timestamp.  A candidate whose text contains neither of
    the two guard words (so one with an end timestamp only) is discarded,
    and a candidate whose query string has neither timestamp is
    discarded. *)
Theorem C1_accepted_iff_guard_and_timestamp (element : Element) (url : string) :
  candidate_text element = Some url ->
  (accepted url <-> stream_guard url = true /\ has_timestamp url) /\
  (stream_guard url = false -> discarded url) /\
  (forall parsed, urlsplit url = Some parsed ->
     ~ has_param "streamdbstart" (query parsed) ->
     ~ has_param "streamdbend" (query parsed) -> discarded url).
Proof.
  intros _. split; [apply parse_video_url_accepted|].
  split; [apply parse_video_url_no_guard|].
  intros parsed. apply parse_video_url_no_timestamp.
Qed.

(** An end timestamp together with the legislature code is accepted. *)
Lemma C1_witness :
  candidate_text (Elem "enlace" (Some end_with_legislature) []) = Some end_with_legislature /\
  (accepted end_with_legislature <->
     stream_guard end_with_legislature = true /\ has_timestamp end_with_legislature).
Proof.
  split; [vm_compute; reflexivity|].
  apply (C1_accepted_iff_guard_and_timestamp
           (Elem "enlace" (Some end_with_legislature) []) end_with_legislature).
  vm_compute; reflexivity.
Defined.

(** As first stated the claim fails: this text holds both markers and its
    query string contains an end timestamp (and nothing else), yet it is not
    accepted. *)
Lemma C1_end_only_not_accepted :
  candidate_text (Elem "enlace" (Some end_only) []) = Some end_only /\
  has_timestamp end_only /\
  ~ accepted end_only.
Proof.
  split; [vm_compute; reflexivity|]. split.
  - exists (mkSplitResult "https" "www.legebiltzarra.eus" "/videos"
                          "streamdbend=00:10:00" "").
    split; [vm_compute; reflexivity|]. right.
    exists "streamdbend=00:10:00", "streamdbend", "00:10:00".
    split; [vm_compute; left|].
    split; [vm_compute; reflexivity|].
    split; [discriminate|vm_compute; reflexivity].
  - intros [v Hv]. vm_compute in Hv. discriminate.
Qed.

(** ** [_get_description] *)

Lemma foldl_insert_lookup_None (l : list (list nat * list nat)) :
  forall (m : gmap (list nat) (list nat)) (k : list nat),
    m !! k = None -> (forall kv, kv ∈ l -> kv.1 <> k) ->
    foldl (fun m kv => <[kv.1 := kv.2]> m) m l !! k = None.
Proof.
  induction l as [|kv l IH]; intros m k Hm Hl; simpl; [done|].
  apply IH.
  - rewrite lookup_insert_ne; [done|]. apply Hl. left.
  - intros kv' Hin. apply Hl. by right.
Qed.

Lemma child_entries_key (root : Element) (p : list nat) (kv : list nat * list nat) :
  In kv (child_entries root p) -> kv.1 <> [].
Proof.
  unfold child_entries. destruct (element_at root p); [|intros []].
  intros (i & <- & _)%in_map_iff. simpl. by destruct p.
Qed.

(** The context root is no key of its own parent map. *)
Lemma get_parent_map_root (e : Element) : get_parent_map e !! [] = None.
Proof.
  unfold get_parent_map. apply foldl_insert_lookup_None; [apply lookup_empty|].
  intros kv Hin%list_elem_of_In.
  apply in_flat_map in Hin as (p & _ & Hin).
  eauto using child_entries_key.
Qed.

(** [e.find('..')] finds nothing, whatever the element. *)
Lemma find_parent_None (e : Element) : find_parent e = None.
Proof. unfold find_parent. by rewrite get_parent_map_root. Qed.

(** So [_get_description] returns [None] on every element. *)
Lemma _get_description_None (element : Element) : _get_description element = None.
Proof. unfold _get_description. simpl. by rewrite find_parent_None. Qed.

(** C2 (the code departs from the claim).  In [session_doc] the video
    element at position [[0; 1]] is accepted as a segment and its parent
    holds a description node with the text [" Presupuestos "]: one
    ancestor level up the claim's search finds ["Presupuestos"].  The code
    extracts the segment with no description. *)
Theorem C2_description_not_found :
  exists element video_info,
    element_at session_doc [0; 1]%nat = Some element /\
    spec_description session_doc [0; 1]%nat = Some "Presupuestos" /\
    _get_description element = None /\
    _extract_video_links session_doc = Ok [mkVideo video_info None].
Proof.
  eexists. eexists. split; [reflexivity|].
  split; [vm_compute; reflexivity|].
  split; [apply _get_description_None|].
  vm_compute. reflexivity.
Qed.

End ExtractVideosFacts.
(* ===================================================================== *)
(** * Facts about computations                                            *)
(* ===================================================================== *)

Module ExecFacts.
Import Exec.

Section WithStore.
Context {Store : Type}.
Implicit Types s : State Store.

Lemma bind_Ok_inv {A B} (m : M Store A) (k : A -> M Store B) s b s' :
bind m k s = (Ok b, s') ->
exists a s1, m s = (Ok a, s1) /\ k a s1 = (Ok b, s').
Proof.
unfold bind. destruct (m s) as [[a|e] s1]; [eauto|discriminate].
Qed.

Lemma bind_Raise_inv {A B} (m : M Store A) (k : A -> M Store B) s e s' :
bind m k s = (Raise e, s') ->
m s = (Raise e, s') \/ exists a s1, m s = (Ok a, s1) /\ k a s1 = (Raise e, s').
Proof.
unfold bind. destruct (m s) as [[a|e1] s1]; [eauto|]. intros [= <- <-]. by left.
Qed.

Lemma bind_Ok {A B} (m : M Store A) (k : A -> M Store B) s a s1 :
m s = (Ok a, s1) -> bind m k s = k a s1.
Proof. unfold bind. by intros ->. Qed.

Lemma bind_Raise {A B} (m : M Store A) (k : A -> M Store B) s e s1 :
m s = (Raise e, s1) -> bind m k s = (Raise e, s1).
Proof. unfold bind. by intros ->. Qed.

Lemma bind_assoc {A B C} (m : M Store A) (k : A -> M Store B) (k' : B -> M Store C) s :
  bind (bind m k) k' s = bind m (fun a => bind (k a) k') s.
Proof. unfold bind. by destruct (m s) as [[a|e] s1]. Qed.

Lemma bind_ext {A B} (m : M Store A) (k k' : A -> M Store B) s :
  (forall a s1, k a s1 = k' a s1) -> bind m k s = bind m k' s.
Proof. intros H. unfold bind. destruct (m s) as [[a|e] s1]; [apply H|reflexivity]. Qed.

Lemma quiet_refl s : quiet s s.
Proof. by repeat split. Qed.

Lemma quiet_trans s1 s2 s3 : quiet s1 s2 -> quiet s2 s3 -> quiet s1 s3.
Proof. intros (?&?&?) (?&?&?). repeat split; congruence. Qed.

Lemma quiet_printed s line : quiet s (printed s line).
Proof. by repeat split. Qed.

Lemma quiet_logged s r : is_download r = false -> quiet s (logged s r).
Proof.
intros Hr. repeat split; simpl.
rewrite List.filter_app. simpl. rewrite Hr. by rewrite app_nil_r.
Qed.

End WithStore.


End ExecFacts.

(* ===================================================================== *)
(** * parliament/download.py: theorems                                    *)
(* ===================================================================== *)

Module ParliamentFacts.
Import Py Exec ExecFacts Parliament.

Implicit Types (w : World) (st : State) (row : Row) (rows : list Row).

(** ** Rows that are rejected *)

Lemma download_xml_rejected w row base_url output_dir known msg st :
  rejection known row = Some msg ->
  download_xml w row base_url output_dir known st = (Raise (ValueError msg), st).
Proof.
  unfold rejection, download_xml.
  destruct (cells row) as [|cell0 [|cell1 tl]]; try (by intros [= <-]).
  destruct (name_known (cell_text cell0) known); [by intros [= <-]|].
  destruct (cell_href cell1); [discriminate|by intros [= <-]].
Qed.

Lemma rows_loop_rejected w row rows base_url output_dir known new msg st :
  rejection known row = Some msg ->
  rows_loop w (row :: rows) base_url output_dir known new st =
  rows_loop w rows base_url output_dir known new (printed st ("Caught exception: " +:+ msg)).
Proof.
  intros Hrej. simpl. unfold bind at 1, except_ValueError, bind at 1.
  by rewrite (download_xml_rejected _ _ _ _ _ _ _ Hrej).
Qed.

(** A row whose first cell names a known record is rejected, whatever
    else it holds. *)
Lemma row_known_rejection known row :
  row_known known row = true -> exists msg, rejection known row = Some msg.
Proof.
  unfold row_known, rejection.
  destruct (cells row) as [|cell0 [|cell1 tl]]; eauto.
  intros ->. eauto.
Qed.

(** ** Rows that are fetched *)

Lemma download_xml_fetch w row base_url output_dir known href st :
  rejection known row = None ->
  row_link base_url row = Some href ->
  download_xml w row base_url output_dir known st =
  (let filepath := output_dir +:+ "/" +:+ last_item (split "=" href) in
   let* _ := print ("Downloading " +:+ href +:+ " ...") in
   let* content := get_checked w (DownloadRequest href filepath) href in
   let* _ := write_file filepath content in
   match cells row with
   | cell0 :: _ => ret (mkXmlInfo (cell_text cell0) filepath href)
   | [] => raise (ValueError "Skipping Malformed rows")
   end) st.
Proof.
  unfold rejection, row_link, download_xml.
  destruct (cells row) as [|cell0 [|cell1 tl]]; try discriminate.
  destruct (name_known (cell_text cell0) known); [discriminate|].
  destruct (cell_href cell1) as [h|]; [|discriminate].
  by intros _ [= <-].
Qed.

Lemma rows_loop_bad_status w row rows base_url output_dir known new href msg st :
  rejection known row = None ->
  row_link base_url row = Some href ->
  http_get w href = BadStatus msg ->
  rows_loop w (row :: rows) base_url output_dir known new st =
  (Raise (HTTPError msg),
   logged (printed st ("Downloading " +:+ href +:+ " ..."))
          (DownloadRequest href (output_dir +:+ "/" +:+ last_item (split "=" href)))).
Proof.
  intros Hrej Hlink Hget. simpl. unfold bind at 1, except_ValueError, bind at 1.
  rewrite (download_xml_fetch _ _ _ _ _ _ _ Hrej Hlink). simpl.
  unfold bind, print, get_checked, bind, log_request. simpl. by rewrite Hget.
Qed.

(** ** Exceptions leave the loops and the run *)

Lemma metadata_loop_app_raise w dir gs1 g gs2 r1 st st1 e st2 :
  metadata_loop w dir gs1 st = (Ok r1, st1) ->
  process_metadata w dir g st1 = (Raise e, st2) ->
  metadata_loop w dir (gs1 ++ g :: gs2) st = (Raise e, st2).
Proof.
  revert r1 st. induction gs1 as [|g1 gs1 IH]; intros r1 st; simpl.
  - intros [= <- <-] Hg. by rewrite (bind_Raise _ _ _ _ _ Hg).
  - intros H Hg.
    apply bind_Ok_inv in H as (r & sa & Hr & H).
    apply bind_Ok_inv in H as (rs & sb & Hrs & H).
    unfold ret in H. injection H as _ ->.
    rewrite (bind_Ok _ _ _ _ _ Hr).
    by rewrite (bind_Raise _ _ _ _ _ (IH _ _ Hrs Hg)).
Qed.

Lemma process_metadata_rows_raise w dir g content host e st st2 :
  http_get w (html_url g) = Resp content ->
  split "/" (html_url g) !! 2%nat = Some host ->
  rows_loop w (soup_rows w content) ("https://" +:+ host) (dir +:+ "/" +:+ group_name g)
            (default [] (xml_info_list g)) [] (logged st (PageRequest (html_url g)))
    = (Raise e, st2) ->
  process_metadata w dir g st = (Raise e, st2).
Proof.
  intros Hget Hhost Hrows. unfold process_metadata, get_checked, base_url_of.
  unfold bind at 1, bind at 1, log_request. simpl. rewrite Hget. simpl.
  rewrite Hhost. unfold bind at 1. simpl. by rewrite (bind_Raise _ _ _ _ _ Hrows).
Qed.

(** No component of a run but [write_store] touches the store. *)
Lemma download_xml_store w row base_url output_dir known st r st' :
  download_xml w row base_url output_dir known st = (r, st') -> store st' = store st.
Proof.
  unfold download_xml.
  destruct (cells row) as [|cell0 [|cell1 tl]]; try (by intros [= _ <-]).
  destruct (name_known _ _); [by intros [= _ <-]|].
  destruct (cell_href cell1) as [h|]; [|by intros [= _ <-]].
  unfold bind, print, get_checked, bind, log_request, write_file, ret, raise. simpl.
  destruct (http_get w _); by intros [= _ <-].
Qed.

Lemma rows_loop_store w rows base_url output_dir known :
  forall new st r st',
    rows_loop w rows base_url output_dir known new st = (r, st') -> store st' = store st.
Proof.
  induction rows as [|row rows IH]; intros new st r st'; simpl.
  - by intros [= _ <-].
  - unfold bind at 1, except_ValueError, bind at 1.
    destruct (download_xml w row base_url output_dir known st) as [[xi|e] s1] eqn:Hd;
      apply download_xml_store in Hd.
    + simpl. intros H%IH. congruence.
    + destruct e; simpl; try (intros [= _ <-]; congruence).
      intros H%IH. simpl in H. congruence.
Qed.

Lemma process_metadata_store w dir g st r st' :
  process_metadata w dir g st = (r, st') -> store st' = store st.
Proof.
  unfold process_metadata, get_checked, base_url_of.
  unfold bind at 1, bind at 1, log_request. simpl.
  destruct (http_get w (html_url g)); simpl; try (by intros [= _ <-]).
  destruct (split "/" (html_url g) !! 2%nat); simpl; [|by intros [= _ <-]].
  unfold bind at 1. simpl. unfold bind.
  destruct (rows_loop _ _ _ _ _ _ _) as [[new|e] s1] eqn:Hrows;
    apply rows_loop_store in Hrows; simpl in Hrows; intros [= _ <-]; congruence.
Qed.

Lemma metadata_loop_store w dir gs :
  forall st r st', metadata_loop w dir gs st = (r, st') -> store st' = store st.
Proof.
  induction gs as [|g gs IH]; intros st r st'; simpl.
  - by intros [= _ <-].
  - unfold bind at 1.
    destruct (process_metadata w dir g st) as [[p|e] s1] eqn:Hp;
      apply process_metadata_store in Hp; [|intros [= _ <-]; congruence].
    unfold bind.
    destruct (metadata_loop w dir gs s1) as [[rs|e] s2] eqn:Hl;
      apply IH in Hl; intros [= _ <-]; congruence.
Qed.

(** A run that raises leaves the store file as it was. *)
Lemma groups_kept_on_raise w args st e st' :
  main w args st = (Raise e, st') -> store st' = store st.
Proof.
  unfold main. unfold bind at 1, read_store.
  unfold bind at 1.
  destruct (metadata_loop _ _ _ _) as [[r|e1] s1] eqn:Hl.
  - (* after the loop nothing raises *)
    intros H. exfalso. revert H.
    unfold bind, write_store, print, print_xml_summary, bind, print. simpl.
    assert (Hlines : forall l (s : State), exists s2, print_xml_summary_lines l s = (Ok tt, s2)).
    { induction l as [|x l IHl]; intros s; simpl; [by eexists|].
      unfold bind, print. apply IHl. }
    edestruct Hlines as [s2 ->]. edestruct Hlines as [s3 ->]. discriminate.
  - intros [= <- <-]. by apply metadata_loop_store in Hl.
Qed.

Lemma main_loop_raise w args st e st' :
  metadata_loop w (xml_output_dir args) (store st) st = (Raise e, st') ->
  main w args st = (Raise e, st').
Proof.
  intros H. unfold main. unfold bind at 1, read_store. by rewrite (bind_Raise _ _ _ _ _ H).
Qed.

Lemma rows_loop_app w pre rows base_url output_dir known :
  forall new st,
    rows_loop w (pre ++ rows) base_url output_dir known new st =
    (let* new' := rows_loop w pre base_url output_dir known new in
     rows_loop w rows base_url output_dir known new') st.
Proof.
  induction pre as [|row pre IH]; intros new st; simpl; [reflexivity|].
  rewrite bind_assoc. apply bind_ext. intros new1 s1. apply IH.
Qed.

(** C8.  In the row loop of the XML downloader, a row that is rejected
    (fewer than two cells, a name already known, no hyperlink in the second
    cell) is reported on standard output and skipped, and the loop goes on
    with the remaining rows of the page.  A non-success response for the
    file a row links to is not caught in the loop: the remaining rows are
    not processed, the exception leaves [main], and the store file is not
    written. *)
Theorem C8_rejected_rows_skipped_bad_status_aborts :
  (forall w row rows base_url output_dir known new msg st,
     rejection known row = Some msg ->
     rows_loop w (row :: rows) base_url output_dir known new st =
     rows_loop w rows base_url output_dir known new
               (printed st ("Caught exception: " +:+ msg))) /\
  (forall w row rows base_url output_dir known new href msg st,
     rejection known row = None ->
     row_link base_url row = Some href ->
     http_get w href = BadStatus msg ->
     rows_loop w (row :: rows) base_url output_dir known new st =
     (Raise (HTTPError msg),
      logged (printed st ("Downloading " +:+ href +:+ " ..."))
             (DownloadRequest href (output_dir +:+ "/" +:+ last_item (split "=" href))))) /\
  (forall w args st gs1 g gs2 r1 st1 content host pre row rows new href msg st2,
     store st = gs1 ++ g :: gs2 ->
     metadata_loop w (xml_output_dir args) gs1 st = (Ok r1, st1) ->
     http_get w (html_url g) = Resp content ->
     split "/" (html_url g) !! 2%nat = Some host ->
     soup_rows w content = pre ++ row :: rows ->
     rows_loop w pre ("https://" +:+ host) (xml_output_dir args +:+ "/" +:+ group_name g)
               (default [] (xml_info_list g)) [] (logged st1 (PageRequest (html_url g)))
       = (Ok new, st2) ->
     rejection (default [] (xml_info_list g)) row = None ->
     row_link ("https://" +:+ host) row = Some href ->
     http_get w href = BadStatus msg ->
     exists st', main w args st = (Raise (HTTPError msg), st') /\ store st' = store st).
Proof.
  split; [|split].
  - intros. by apply rows_loop_rejected.
  - intros. by apply rows_loop_bad_status.
  - intros w args st gs1 g gs2 r1 st1 content host pre row rows new href msg st2
           Hstore Hgs1 Hpage Hhost Hrows Hpre Hrej Hlink Hget.
    eexists. split.
    + apply main_loop_raise. rewrite Hstore.
      eapply metadata_loop_app_raise; [exact Hgs1|].
      eapply process_metadata_rows_raise; [exact Hpage|exact Hhost|].
      rewrite Hrows, rows_loop_app. rewrite (bind_Ok _ _ _ _ _ Hpre).
      by apply rows_loop_bad_status.
    + simpl. apply rows_loop_store in Hpre. apply metadata_loop_store in Hgs1.
      simpl in Hpre. congruence.
Qed.

(** On the sample page the three rejected rows are passed over, and the
    refused file of the fourth row ends the run with the store as it was. *)
Lemma C8_witness :
  (rows_loop refusing_world mixed_rows "https://www.legebiltzarra.eus" "xml/XII" [pleno1] []
             (empty_state one_store) =
   rows_loop refusing_world (tail mixed_rows) "https://www.legebiltzarra.eus" "xml/XII"
             [pleno1] []
             (printed (empty_state one_store) "Caught exception: Skipping Malformed rows")) /\
  (exists st', main refusing_world sample_args (empty_state one_store)
               = (Raise (HTTPError "404 Client Error"), st') /\
               store st' = one_store).
Proof.
  destruct C8_rejected_rows_skipped_bad_status_aborts as (Hskip & _ & Habort).
  split.
  - apply Hskip. reflexivity.
  - apply (Habort refusing_world sample_args (empty_state one_store) [] one_group []
             ([], []) (empty_state one_store) sample_body "www.legebiltzarra.eus"
             [row_malformed; row_duplicate; row_no_link] row_refused [row_new] []
             "https://www.legebiltzarra.eus/descarga?fichero=pleno3.xml" "404 Client Error"
             (rows_loop refusing_world [row_malformed; row_duplicate; row_no_link]
                "https://www.legebiltzarra.eus" "xml/XII" [pleno1] []
                (logged (empty_state one_store) (PageRequest sample_url))).2);
      vm_compute; reflexivity.
Defined.

(** ** Pages on which every row is known *)

Lemma rows_loop_known w rows base_url output_dir known :
  forallb (row_known known) rows = true ->
  forall new st, exists st',
    rows_loop w rows base_url output_dir known new st = (Ok new, st') /\ quiet st st'.
Proof.
  induction rows as [|row rows IH]; intros Hall new st.
  - exists st. split; [reflexivity|apply quiet_refl].
  - simpl in Hall. apply andb_true_iff in Hall as [Hrow Hall].
    destruct (row_known_rejection _ _ Hrow) as [msg Hmsg].
    rewrite (rows_loop_rejected _ _ _ _ _ _ _ _ _ Hmsg).
    destruct (IH Hall new (printed st ("Caught exception: " +:+ msg))) as (st' & -> & Hq).
    exists st'. split; [reflexivity|].
    eapply quiet_trans; [apply quiet_printed|exact Hq].
Qed.

Lemma process_metadata_known w dir g st r st' :
  page_known w g = true ->
  process_metadata w dir g st = (r, st') ->
  quiet st st' /\
  forall p, r = Ok p ->
    p = (mkXmlMetadata (html_url g) (group_name g) (Some []),
         mkXmlMetadata (html_url g) (group_name g) (Some (default [] (xml_info_list g)))).
Proof.
  unfold page_known, process_metadata, get_checked, base_url_of.
  unfold bind at 1, bind at 1, log_request. simpl.
  assert (Hlog : quiet st (logged st (PageRequest (html_url g)))) by by apply quiet_logged.
  destruct (http_get w (html_url g)) as [content|msg|e|partial msg]; simpl;
    try (intros _ [= <- <-]; split; [exact Hlog|discriminate]).
  intros Hall.
  destruct (split "/" (html_url g) !! 2%nat) as [host|]; simpl;
    [|intros [= <- <-]; split; [exact Hlog|discriminate]].
  unfold bind at 1. simpl.
  destruct (rows_loop_known w _ ("https://" +:+ host) (dir +:+ "/" +:+ group_name g) _ Hall []
              (logged st (PageRequest (html_url g)))) as (s1 & Hrows & Hq).
  rewrite (bind_Ok _ _ _ _ _ Hrows). intros [= <- <-].
  split; [by eapply quiet_trans|]. by intros p [= <-].
Qed.

Lemma metadata_loop_known w dir gs :
  forallb (page_known w) gs = true ->
  forall st r st',
    metadata_loop w dir gs st = (r, st') ->
    quiet st st' /\
    forall news totals, r = Ok (news, totals) ->
      Forall (fun new => xml_info_list new = Some []) news /\
      Forall2 (fun old total =>
                 xml_info_list total = Some (default [] (xml_info_list old))) gs totals.
Proof.
  induction gs as [|g gs IH]; intros Hall st r st'; simpl.
  - intros [= <- <-]. split; [apply quiet_refl|]. intros news totals [= <- <-]. by split.
  - simpl in Hall. apply andb_true_iff in Hall as [Hg Hall].
    unfold bind at 1.
    destruct (process_metadata w dir g st) as [[p|e] s1] eqn:Hp;
      apply (process_metadata_known _ _ _ _ _ _ Hg) in Hp as [Hq1 Hp].
    2:{ intros [= <- <-]. split; [done|discriminate]. }
    specialize (Hp p eq_refl). subst p.
    unfold bind at 1.
    destruct (metadata_loop w dir gs s1) as [[rs|e] s2] eqn:Hl;
      apply (IH Hall) in Hl as [Hq2 Hl].
    2:{ intros [= <- <-]. split; [by eapply quiet_trans|discriminate]. }
    intros [= <- <-]. split; [by eapply quiet_trans|].
    destruct rs as [news0 totals0]. destruct (Hl news0 totals0 eq_refl) as [Hn Ht].
    intros news totals [= <- <-]. simpl. split; constructor; done.
Qed.

Lemma print_xml_summary_lines_quiet l :
  forall st, exists st', print_xml_summary_lines l st = (Ok tt, st') /\
    files st' = files st /\ requests st' = requests st /\ store st' = store st.
Proof.
  induction l as [|g l IH]; intros st; simpl; [by exists st|].
  unfold bind, print. simpl.
  edestruct IH as (st' & -> & ? & ? & ?). eexists. split; [reflexivity|].
  simpl in *. done.
Qed.

Lemma print_xml_summary_quiet l title st :
  exists st', print_xml_summary l title st = (Ok tt, st') /\
    files st' = files st /\ requests st' = requests st /\ store st' = store st.
Proof.
  unfold print_xml_summary, bind, print. simpl.
  edestruct print_xml_summary_lines_quiet as (st' & -> & ? & ? & ?).
  eexists. split; [reflexivity|]. simpl in *. done.
Qed.

(** What [main] does once its loop has returned. *)
Lemma main_loop_Ok w args st r s1 :
  metadata_loop w (xml_output_dir args) (store st) st = (Ok r, s1) ->
  exists st', main w args st = (Ok r, st') /\
    files st' = files s1 /\ requests st' = requests s1 /\ store st' = r.2.
Proof.
  intros Hl. unfold main. unfold bind at 1, read_store.
  rewrite (bind_Ok _ _ _ _ _ Hl).
  unfold bind at 1, write_store. unfold bind at 1, print. simpl.
  unfold bind at 1.
  edestruct (print_xml_summary_quiet r.1 "New Data") as (s2 & -> & Hf2 & Hr2 & Hs2).
  unfold bind at 1.
  edestruct (print_xml_summary_quiet r.2 "Total Data") as (s3 & -> & Hf3 & Hr3 & Hs3).
  eexists. split; [reflexivity|]. simpl in *. repeat split; congruence.
Qed.

(** C4.  When, for every group of the store, every row of the fetched
    index page carries in its first cell a name that is already in the
    group's [xml_info_list], a run of the XML downloader issues no download
    request and writes no file, and the run that completes creates no record:
    every new list is empty and every group keeps its list. *)
Theorem C4_known_rows_no_download w args st r st' :
  forallb (page_known w) (store st) = true ->
  main w args st = (r, st') ->
  downloads (requests st') = downloads (requests st) /\
  files st' = files st /\
  forall news totals, r = Ok (news, totals) ->
    Forall (fun new => xml_info_list new = Some []) news /\
    Forall2 (fun old total => xml_info_list total = Some (default [] (xml_info_list old)))
            (store st) totals /\
    store st' = totals.
Proof.
  intros Hall Hmain.
  destruct (metadata_loop w (xml_output_dir args) (store st) st) as [[p|e] s1] eqn:Hl.
  - destruct (metadata_loop_known _ _ _ Hall _ _ _ Hl) as [(Hf & Hd & _) Hres].
    destruct (main_loop_Ok _ _ _ _ _ Hl) as (s2 & Hm & Hf2 & Hr2 & Hs2).
    rewrite Hm in Hmain. injection Hmain as <- <-.
    unfold downloads. rewrite Hr2, Hf2. split; [done|]. split; [done|].
    intros news totals [= ->]. destruct (Hres news totals eq_refl). done.
  - destruct (metadata_loop_known _ _ _ Hall _ _ _ Hl) as [(Hf & Hd & _) _].
    rewrite (main_loop_raise _ _ _ _ _ Hl) in Hmain. injection Hmain as <- <-.
    split; [done|]. split; [done|]. discriminate.
Qed.

(** A run on a store that knows every row of its page. *)
Lemma C4_witness :
  downloads (requests (main known_world sample_args (empty_state one_store)).2) = [] /\
  files (main known_world sample_args (empty_state one_store)).2 = ∅ /\
  forall news totals,
    (main known_world sample_args (empty_state one_store)).1 = Ok (news, totals) ->
    Forall (fun new => xml_info_list new = Some []) news /\
    Forall2 (fun old total => xml_info_list total = Some (default [] (xml_info_list old)))
            one_store totals /\
    store (main known_world sample_args (empty_state one_store)).2 = totals.
Proof.
  apply (C4_known_rows_no_download known_world sample_args (empty_state one_store)).
  - vm_compute; reflexivity.
  - apply surjective_pairing.
Defined.

(** ** What a run prepends *)

Lemma process_metadata_prepended w dir g st new total st' :
  process_metadata w dir g st = (Ok (new, total), st') -> prepended g new total.
Proof.
  unfold process_metadata. intros H.
  apply bind_Ok_inv in H as (content & s1 & _ & H).
  apply bind_Ok_inv in H as (base_url & s2 & _ & H).
  apply bind_Ok_inv in H as (l & s3 & _ & H).
  injection H as <- <- _. exists l. by repeat split.
Qed.

Lemma metadata_loop_prepended w dir gs :
  forall st news totals st',
    metadata_loop w dir gs st = (Ok (news, totals), st') ->
    Forall3 prepended gs news totals.
Proof.
  induction gs as [|g gs IH]; intros st news totals st'; simpl.
  - intros [= <- <- _]. constructor.
  - intros H.
    apply bind_Ok_inv in H as ([new total] & s1 & Hp & H).
    apply bind_Ok_inv in H as ([news0 totals0] & s2 & Hl & H).
    injection H as <- <- _. simpl. constructor; eauto using process_metadata_prepended.
Qed.

Lemma groups_prepended_by_main w args st news totals st' :
  main w args st = (Ok (news, totals), st') ->
  store st' = totals /\ Forall3 prepended (store st) news totals.
Proof.
  intros Hmain.
  destruct (metadata_loop w (xml_output_dir args) (store st) st) as [[p|e] s1] eqn:Hl.
  - destruct (main_loop_Ok _ _ _ _ _ Hl) as (s2 & Hm & _ & _ & Hs2).
    rewrite Hm in Hmain. injection Hmain as -> <-.
    split; [done|]. eauto using metadata_loop_prepended.
  - rewrite (main_loop_raise _ _ _ _ _ Hl) in Hmain. discriminate.
Qed.

(** What a run persists, however it ends. *)
Lemma groups_prepended_or_kept w args st r st' :
  main w args st = (r, st') ->
  store st' = store st \/ exists news, Forall3 prepended (store st) news (store st').
Proof.
  destruct r as [[news totals]|e]; intros Hmain.
  - right. apply groups_prepended_by_main in Hmain as [<- H3]. by exists news.
  - left. by eapply groups_kept_on_raise.
Qed.

(** ** Names *)

Lemma name_known_false (n : string) (known : list XmlInfo) :
  name_known n known = false <-> n ∉ names known.
Proof.
  unfold name_known, names. induction known as [|xi known IH]; simpl.
  - split; [intros _ H; by apply elem_of_nil in H|done].
  - rewrite orb_false_iff, IH, not_elem_of_cons, bool_decide_eq_false.
    split; intros [H1 H2]; split; congruence.
Qed.

Lemma row_names_cons row rows : row_names (row :: rows) = row_names [row] ++ row_names rows.
Proof.
  unfold row_names. simpl. by destruct (cells row) as [|cell0 [|cell1 tl]].
Qed.

Lemma download_xml_Ok w row base_url output_dir known st xml_info st' :
  download_xml w row base_url output_dir known st = (Ok xml_info, st') ->
  row_names [row] = [name xml_info] /\ name xml_info ∉ names known.
Proof.
  unfold download_xml, row_names. simpl.
  destruct (cells row) as [|cell0 [|cell1 tl]]; try discriminate.
  destruct (name_known (cell_text cell0) known) eqn:Hk; [discriminate|].
  destruct (cell_href cell1) as [h|]; [|discriminate].
  intros H.
  apply bind_Ok_inv in H as (? & s1 & _ & H).
  apply bind_Ok_inv in H as (content & s2 & _ & H).
  apply bind_Ok_inv in H as (? & s3 & _ & H).
  injection H as <- _. simpl. split; [done|]. by apply name_known_false.
Qed.

(** The records a page adds carry names the page offers, in page order,
    none of them known before. *)
Lemma rows_loop_names w rows base_url output_dir known :
  forall new st new' st',
    rows_loop w rows base_url output_dir known new st = (Ok new', st') ->
    exists added,
      new' = new ++ added /\
      names added `sublist_of` row_names rows /\
      forall n, n ∈ names added -> n ∉ names known.
Proof.
  induction rows as [|row rows IH]; intros new st new' st' H; simpl in H.
  - injection H as <- _. exists []. split; [by rewrite app_nil_r|]. split; [done|].
    intros n H. by apply elem_of_nil in H.
  - apply bind_Ok_inv in H as (new1 & s1 & Hrow & Hrest).
    apply IH in Hrest as (added & -> & Hsub & Hfresh).
    rewrite row_names_cons.
    unfold except_ValueError, bind in Hrow.
    destruct (download_xml w row base_url output_dir known st) as [[xml_info|e] s0] eqn:Hd.
    + injection Hrow as <- _. apply download_xml_Ok in Hd as [Hn Hnew].
      exists (xml_info :: added). split; [by rewrite <- app_assoc|]. split.
      * rewrite Hn. simpl. by constructor.
      * intros n [->|H]%elem_of_cons; [done|by apply Hfresh].
    + destruct e; try discriminate. injection Hrow as <- _.
      exists added. split; [done|]. split; [by apply sublist_inserts_l|done].
Qed.

(** A page that offers no name twice keeps the names of the group
    distinct. *)
Lemma unique_names_kept_on_distinct_page w dir g st new total st' content :
  http_get w (html_url g) = Resp content ->
  NoDup (row_names (soup_rows w content)) ->
  unique_names g ->
  process_metadata w dir g st = (Ok (new, total), st') ->
  unique_names total.
Proof.
  unfold process_metadata, unique_names. intros Hget Hpage Hold H.
  apply bind_Ok_inv in H as (content' & s1 & Hc & H).
  unfold get_checked, bind, log_request in Hc. rewrite Hget in Hc. injection Hc as <- _.
  apply bind_Ok_inv in H as (base_url & s2 & _ & H).
  apply bind_Ok_inv in H as (l & s3 & Hrows & H).
  injection H as _ <- _. simpl.
  apply rows_loop_names in Hrows as (added & -> & Hsub & Hfresh). simpl.
  unfold names. rewrite map_app. apply NoDup_app. split; [|split; [|done]].
  - exact (sublist_NoDup _ _ Hpage Hsub).
  - exact Hfresh.
Qed.

(** ** Two rows of one new name *)

(** C3 (the code departs from the claim).  The store [fresh_store] holds
    one group with an empty record list, so no name occurs twice.  Its
    index page has two rows named ["Pleno 1"].  The run completes, both rows
    are downloaded, and the persisted group holds two records of that
    name. *)
Theorem C3_same_name_twice_on_page :
  Forall unique_names fresh_store /\
  exists news st',
    main twin_world sample_args (empty_state fresh_store) = (Ok (news, store st'), st') /\
    map (fun g => names (default [] (xml_info_list g))) (store st')
      = [["Pleno 1"; "Pleno 1"]] /\
    ~ Forall unique_names (store st').
Proof.
  split.
  - repeat constructor.
  - eexists _, (main twin_world sample_args (empty_state fresh_store)).2.
    split; [vm_compute; reflexivity|].
    split; [vm_compute; reflexivity|].
    intros H. apply Forall_inv in H. vm_compute in H.
    apply NoDup_cons in H as [H _]. apply H. left.
Qed.

End ParliamentFacts.
(* ===================================================================== *)
(** * podcast/download_ivoox_podcast.py: theorems                         *)
(* ===================================================================== *)

Module PodcastFacts.
Import Py Exec ExecFacts Podcast.

Implicit Types (w : World) (st : State) (entry : Entry) (feed : Feed).

(** ** States that extend one another *)

Lemma extends_refl st : extends st st.
Proof.
  split; [done|]. split; [done|]. exists []. split; [by rewrite app_nil_r|].
  intros ?? H. by apply elem_of_nil in H.
Qed.

Lemma extends_trans st1 st2 st3 : extends st1 st2 -> extends st2 st3 -> extends st1 st3.
Proof.
  intros (Hs1 & Hf1 & i1 & Hr1 & Hi1) (Hs2 & Hf2 & i2 & Hr2 & Hi2).
  split; [congruence|]. split; [by etrans|].
  exists (i1 ++ i2). split; [by rewrite Hr2, Hr1, app_assoc|].
  intros url target [H|H]%elem_of_app; [eauto|].
  apply Hi2 in H. by eapply lookup_weaken_None.
Qed.

Lemma extends_printed st line : extends st (printed st line).
Proof.
  split; [done|]. split; [done|]. exists []. split; [by simpl; rewrite app_nil_r|].
  intros ?? H. by apply elem_of_nil in H.
Qed.

Lemma extends_feed_request st url : extends st (logged st (FeedRequest url)).
Proof.
  split; [done|]. split; [done|]. exists [FeedRequest url]. split; [done|].
  intros ?? H. apply list_elem_of_singleton in H. discriminate.
Qed.

Lemma extends_files_None st st' target :
  extends st st' -> files st' !! target = None -> files st !! target = None.
Proof. intros (_ & Hf & _) H. by eapply lookup_weaken_None. Qed.

(** ** [download_file] *)

(** A file that is there: nothing is requested, nothing is written, and
    the result is [None]. *)
Lemma download_file_exists w url output_path st :
  is_Some (files st !! output_path) ->
  download_file w url output_path st
  = (Ok None, printed st ("Already downloaded: " +:+ output_path)).
Proof.
  intros H. unfold download_file, bind at 1, path_exists.
  by rewrite bool_decide_true.
Qed.

(** [download_file] never raises; it extends the state; and it returns
    [True] only for a file that was not there. *)
Lemma download_file_spec w url output_path st :
  exists r st',
    download_file w url output_path st = (Ok r, st') /\
    extends st st' /\
    (is_true r = true -> files st !! output_path = None).
Proof.
  destruct (files st !! output_path) as [c|] eqn:Hf.
  - rewrite download_file_exists by (by rewrite Hf).
    eexists _, _. split; [reflexivity|]. split; [apply extends_printed|discriminate].
  - unfold download_file, bind at 1, path_exists.
    rewrite bool_decide_false by (rewrite Hf; by intros [? [=]]).
    unfold except_Exception, fetch_to_file, bind, print, log_request, write_file, ret, raise.
    simpl.
    assert (Hreq : forall (fs : gmap string (list Byte.byte)) out,
               files st ⊆ fs ->
               extends st
                 (mkState fs (requests st ++ [DownloadRequest url output_path]) out (store st))).
    { intros fs out Hsub. split; [done|]. split; [done|]. eexists. split; [reflexivity|].
      intros u t Hin. apply list_elem_of_singleton in Hin. by injection Hin as _ ->. }
    destruct (http_get w url) as [content|msg|e|partial msg]; simpl;
      eexists _, _; (split; [reflexivity|]); (split; [|done]); apply Hreq;
      try done; by apply insert_subseteq.
Qed.

(** ** The loops *)

Lemma parse_id_state entry st r st' : parse_id entry st = (r, st') -> st' = st.
Proof.
  unfold parse_id. destruct (entry_id entry) as [full_id|]; [|by intros [= _ <-]].
  destruct (int (path_tail full_id)); by intros [= _ <-].
Qed.

Lemma process_entry_spec w base_dir id_list entry new st r st' :
  process_entry w base_dir id_list entry new st = (r, st') ->
  extends st st' /\
  forall new', r = Ok new' ->
    exists added, new' = new ++ added /\ fresh_records st added.
Proof.
  assert (Hskip : forall r0 s0, ret new st = (r0, s0) ->
            extends st s0 /\
            forall new', r0 = Ok new' ->
              exists added, new' = new ++ added /\ fresh_records st added).
  { intros r0 s0 [= <- <-]. split; [apply extends_refl|]. intros new' [= <-].
    exists []. split; [by rewrite app_nil_r|]. intros a H. by apply elem_of_nil in H. }
  unfold process_entry.
  destruct (enclosures entry) as [[|enclosure tl]|]; try apply Hskip.
  destruct (enclosure_url enclosure) as [url|]; [|apply Hskip].
  destruct (truthy url); simpl; [|apply Hskip].
  unfold bind at 1.
  destruct (parse_id entry st) as [[_id|e] s1] eqn:Hid; apply parse_id_state in Hid as ->.
  2:{ intros [= <- <-]. split; [apply extends_refl|discriminate]. }
  destruct (id_known id_list _id); [apply Hskip|].
  unfold bind at 1.
  destruct (download_file_spec w url (base_dir +:+ "/" +:+ filename_of entry _id +:+ ".mp3") st)
    as (d & s1 & -> & Hext & Hnew).
  destruct (is_true d) eqn:Hd.
  - destruct (published_parsed entry) as [pub_date|].
    + intros [= <- <-]. split; [done|]. intros new' [= <-].
      eexists [_]. split; [reflexivity|].
      intros a ->%list_elem_of_singleton. simpl. by apply Hnew.
    + intros [= <- <-]. split; [done|discriminate].
  - intros [= <- <-]. split; [done|]. intros new' [= <-].
    exists []. split; [by rewrite app_nil_r|]. intros a H. by apply elem_of_nil in H.
Qed.

Lemma entries_loop_spec w base_dir id_list entries :
  forall new st r st',
    entries_loop w base_dir id_list entries new st = (r, st') ->
    extends st st' /\
    forall new', r = Ok new' ->
      exists added, new' = new ++ added /\ fresh_records st added.
Proof.
  induction entries as [|entry entries IH]; intros new st r st'; simpl.
  - intros [= <- <-]. split; [apply extends_refl|]. intros new' [= <-].
    exists []. split; [by rewrite app_nil_r|]. intros a H. by apply elem_of_nil in H.
  - unfold bind at 1.
    destruct (process_entry w base_dir id_list entry new st) as [[new1|e] s1] eqn:He;
      apply process_entry_spec in He as [Hext1 Hnew1].
    2:{ intros [= <- <-]. split; [done|discriminate]. }
    destruct (Hnew1 new1 eq_refl) as (added1 & -> & Hfresh1).
    intros [Hext2 Hnew2]%IH. split; [by eapply extends_trans|].
    intros new' ->. destruct (Hnew2 new' eq_refl) as (added2 & -> & Hfresh2).
    exists (added1 ++ added2). split; [by rewrite app_assoc|].
    intros a [H|H]%elem_of_app; [by apply Hfresh1|].
    eapply extends_files_None; [exact Hext1|]. by apply Hfresh2.
Qed.

Lemma process_feed_spec w feed output_dir st r st' :
  process_feed w feed output_dir st = (r, st') ->
  extends st st' /\ forall new, r = Ok new -> fresh_records st new.
Proof.
  unfold process_feed.
  destruct (source feed) as [source|]; [|intros [= <- <-]; split; [apply extends_refl|done]].
  destruct (name feed) as [name|]; [|intros [= <- <-]; split; [apply extends_refl|done]].
  destruct (rss_url feed) as [rss_url|];
    [|intros [= <- <-]; split; [apply extends_refl|done]].
  unfold bind at 1, print. unfold bind at 1, log_request. simpl.
  match goal with |- context [mkState ?f ?rq ?o ?sto] =>
    assert (Hext0 : extends st (mkState f rq o sto)) end.
  { eapply extends_trans; [apply extends_printed|]. apply (extends_feed_request (printed st _)). }
  destruct (bozo (feedparser_parse w rss_url)).
  { intros [= <- <-]. split; [done|discriminate]. }
  unfold bind at 1.
  destruct (entries_loop _ _ _ _ _ _) as [[new|e] s1] eqn:Hl;
    apply entries_loop_spec in Hl as [Hext1 Hnew1].
  2:{ intros [= <- <-]. split; [by eapply extends_trans|discriminate]. }
  unfold bind, print, ret. simpl. intros [= <- <-].
  split.
  - eapply extends_trans; [exact Hext0|]. eapply extends_trans; [exact Hext1|].
    apply extends_printed.
  - intros new0 [= <-]. destruct (Hnew1 new eq_refl) as (added & -> & Hfresh).
    intros a Ha. eapply extends_files_None; [exact Hext0|]. by apply Hfresh.
Qed.

Lemma feeds_loop_spec w output_dir feed_rss :
  forall st r st',
    feeds_loop w output_dir feed_rss st = (r, st') ->
    extends st st' /\
    forall news totals, r = Ok (news, totals) ->
      Forall3 prepended feed_rss news totals /\
      Forall (fun new => fresh_records st (default [] (audio_list new))) news.
Proof.
  induction feed_rss as [|feed feed_rss IH]; intros st r st'; simpl.
  - intros [= <- <-]. split; [apply extends_refl|].
    intros news totals [= <- <-]. split; constructor.
  - unfold bind at 1.
    destruct (process_feed w feed output_dir st) as [[new|e] s1] eqn:Hp;
      apply process_feed_spec in Hp as [Hext1 Hnew1].
    2:{ intros [= <- <-]. split; [done|discriminate]. }
    unfold bind at 1.
    destruct (feeds_loop w output_dir feed_rss s1) as [[[news0 totals0]|e] s2] eqn:Hl;
      apply IH in Hl as [Hext2 Hrest].
    2:{ intros [= <- <-]. split; [by eapply extends_trans|discriminate]. }
    intros [= <- <-]. split; [by eapply extends_trans|].
    intros news totals [= <- <-]. destruct (Hrest news0 totals0 eq_refl) as [H3 Hfr].
    split.
    + constructor; [|done]. exists new. by repeat split.
    + constructor; [by apply Hnew1|].
      eapply Forall_impl; [exact Hfr|]. intros n Hn a Ha.
      eapply extends_files_None; [exact Hext1|]. by apply Hn.
Qed.

(** ** [print_summary] *)

(** The summaries print and do nothing else. *)
Lemma print_summary_loop_prints feed_rss st r st' :
  print_summary_loop feed_rss st = (r, st') ->
  files st' = files st /\ requests st' = requests st /\ store st' = store st.
Proof.
  revert st. induction feed_rss as [|feed feed_rss IH]; intros st; simpl.
  - by intros [= <- <-].
  - destruct (summary_line feed) as [line|e]; [|by intros [= <- <-]].
    unfold bind, print. intros H. by apply IH in H.
Qed.

Lemma print_summary_prints feed_rss title st r st' :
  print_summary feed_rss title st = (r, st') ->
  files st' = files st /\ requests st' = requests st /\ store st' = store st.
Proof.
  unfold print_summary, bind, print. intros H. by apply print_summary_loop_prints in H.
Qed.

(** The hours of a line are a binary floating point number, rounded to
    two decimals and printed as [repr] prints it. *)
Example hours_text_examples :
  hours_text 0 = Ok "0.0" /\
  hours_text 4500 = Ok "1.25" /\
  hours_text 18 = Ok "0.01" /\
  hours_text 54 = Ok "0.01" /\
  hours_text (-1) = Ok "-0.0" /\
  hours_text 123456789 = Ok "34293.55" /\
  hours_text (3600 * 10 ^ 16) = Ok "1e+16" /\
  hours_text (10 ^ 400) = Raise (OverflowError "integer division result too large for a float").
Proof. vm_compute. repeat split. Qed.

Example summary_line_example :
  summary_line (mkFeed (Some "ivoox") (Some "pleno") (Some feed_url)
                  (Some [episode11; episode10]))
  = Ok "    · ivoox/pleno: 2.0 hours | 2 programs".
Proof. vm_compute. reflexivity. Qed.

(** ** [main] *)

(** A fetching run whose loop over the feeds completes: the store is
    written, and then the summaries decide how the run ends. *)
Lemma main_after_loop w args st news totals s1 :
  only_stats args = false ->
  feeds_loop w (output_dir args) (store st) st = (Ok (news, totals), s1) ->
  exists r st',
    main w args st = (r, st') /\
    files st' = files s1 /\ requests st' = requests s1 /\ store st' = totals /\
    (r = Ok (news, totals) \/ exists e, r = Raise e).
Proof.
  intros Hstats Hl. unfold main, bind at 1, read_store. rewrite Hstats.
  unfold bind at 1. rewrite Hl. cbn [fst snd].
  unfold bind at 1, write_store. unfold bind at 1, print.
  set (s2 := mkState _ _ _ _). unfold bind at 1.
  destruct (print_summary news "New Data" s2) as [[[]|e] s3] eqn:Hnew;
    apply print_summary_prints in Hnew as (Hf3 & Hr3 & Hs3).
  2:{ exists (Raise e), s3. split; [done|]. rewrite Hf3, Hr3, Hs3. subst s2. simpl. eauto 10. }
  unfold bind at 1.
  destruct (print_summary totals "Total Data" s3) as [[[]|e] s4] eqn:Htotal;
    apply print_summary_prints in Htotal as (Hf4 & Hr4 & Hs4).
  2:{ exists (Raise e), s4. split; [done|]. rewrite Hf4, Hr4, Hs4, Hf3, Hr3, Hs3. subst s2. simpl. eauto 10. }
  exists (Ok (news, totals)), s4. split; [done|].
  rewrite Hf4, Hr4, Hs4, Hf3, Hr3, Hs3. subst s2. simpl. eauto 10.
Qed.

(** A fetching run whose loop over the feeds raises ends there, with the
    store as it was. *)
Lemma main_feeds_loop_raise w args st e s1 :
  only_stats args = false ->
  feeds_loop w (output_dir args) (store st) st = (Raise e, s1) ->
  main w args st = (Raise e, s1).
Proof.
  intros Hstats Hl. unfold main, bind at 1, read_store. rewrite Hstats.
  by rewrite (bind_Raise _ _ _ _ _ Hl).
Qed.

(** A fetching run that completes went through the loop over the feeds,
    wrote the store and printed. *)
Lemma main_Ok_loop w args st news totals st' :
  only_stats args = false ->
  main w args st = (Ok (news, totals), st') ->
  exists s1,
    feeds_loop w (output_dir args) (store st) st = (Ok (news, totals), s1) /\
    files st' = files s1 /\ requests st' = requests s1 /\ store st' = totals.
Proof.
  intros Hstats Hmain.
  destruct (feeds_loop w (output_dir args) (store st) st) as [[[n t]|e] s1] eqn:Hl.
  - destruct (main_after_loop _ _ _ _ _ _ Hstats Hl) as (r0 & st0 & Hm & Hf & Hr & Hs & Hres).
    rewrite Hmain in Hm. injection Hm as <- <-.
    destruct Hres as [[= <- <-]|[e [=]]]. by exists s1.
  - rewrite (main_feeds_loop_raise _ _ _ _ _ Hstats Hl) in Hmain. discriminate.
Qed.

(** What a run of [main] leaves: either the store is as it was, or the
    loop over the feeds completed and the store holds what it built,
    whether or not a summary raised afterwards. *)
Lemma main_spec w args st r st' :
  main w args st = (r, st') ->
  files st ⊆ files st' /\
  (exists issued,
     requests st' = requests st ++ issued /\
     forall url target, DownloadRequest url target ∈ issued -> files st !! target = None) /\
  ((store st' = store st /\ (only_stats args = false -> exists e, r = Raise e)) \/
   (exists news totals,
      only_stats args = false /\
      (r = Ok (news, totals) \/ exists e, r = Raise e) /\ store st' = totals /\
      Forall3 prepended (store st) news totals /\
      Forall (fun new => fresh_records st (default [] (audio_list new))) news)).
Proof.
  destruct (only_stats args) eqn:Hstats.
  { unfold main, bind at 1, read_store. rewrite Hstats. unfold bind.
    destruct (print_summary (store st) "Total Data" st) as [[[]|e] s1] eqn:Hp;
      apply print_summary_prints in Hp as (Hf & Hr & Hs); intros [= <- <-];
      (split; [by rewrite Hf|]); (split; [|left; split; [done|discriminate]]);
      exists []; rewrite Hr, app_nil_r; (split; [done|]);
      intros ?? H; by apply elem_of_nil in H. }
  destruct (feeds_loop w (output_dir args) (store st) st) as [[[news totals]|e] s1] eqn:Hl.
  - destruct (main_after_loop _ _ _ _ _ _ Hstats Hl) as (r0 & st0 & Hmain & Hf & Hr & Hs & Hres).
    apply feeds_loop_spec in Hl as [(_ & Hsub & Hissued) Hloop].
    destruct (Hloop news totals eq_refl) as [H3 Hfresh].
    rewrite Hmain. intros [= <- <-]. rewrite Hf, Hr.
    split; [done|]. split; [done|]. right. exists news, totals. done.
  - rewrite (main_feeds_loop_raise _ _ _ _ _ Hstats Hl). intros [= <- <-].
    apply feeds_loop_spec in Hl as [(Hs & Hsub & Hissued) _].
    split; [done|]. split; [done|]. left. split; [done|]. eauto.
Qed.

(** ** Feeds whose entries are all known *)

Lemma id_known_of (audio_list : option (list AudioFeed)) (_id : Z) :
  _id ∈ map id (default [] audio_list) -> id_known (id_list_of audio_list) _id = true.
Proof.
  destruct audio_list as [[|a l]|]; simpl; try (by intros ?%elem_of_nil).
  intros H. by apply bool_decide_eq_true.
Qed.

Lemma process_entry_known w base_dir audio_list entry new st :
  entry_known (default [] audio_list) entry = true ->
  process_entry w base_dir (id_list_of audio_list) entry new st = (Ok new, st).
Proof.
  unfold entry_known, process_entry. intros Hk.
  destruct (enclosures entry) as [[|enclosure tl]|]; try reflexivity.
  destruct (enclosure_url enclosure) as [url|]; [|reflexivity].
  destruct (truthy url); [|reflexivity]. simpl.
  unfold bind at 1, parse_id.
  destruct (entry_id entry) as [full_id|]; [|discriminate].
  destruct (int (path_tail full_id)) as [_id|]; [|discriminate]. simpl.
  apply bool_decide_eq_true in Hk. by rewrite (id_known_of _ _ Hk).
Qed.

Lemma entries_loop_known w base_dir audio_list entries :
  forallb (entry_known (default [] audio_list)) entries = true ->
  forall new st,
    entries_loop w base_dir (id_list_of audio_list) entries new st = (Ok new, st).
Proof.
  induction entries as [|entry entries IH]; intros Hall new st; [reflexivity|].
  simpl in Hall. apply andb_true_iff in Hall as [He Hall]. simpl.
  rewrite (bind_Ok _ _ _ _ _ (process_entry_known _ _ _ _ _ _ He)). by apply IH.
Qed.

(** C5.  When every entry of the feed has a numeric id (parsed from the
    trailing path segment of its identifier) that is already among the ids
    of the feed's known records, [process_feed] issues no download request,
    writes no file and returns no new record; with a complete descriptor and
    a well-formed feed it returns the empty list. *)
Theorem C5_known_ids_no_download w feed output_dir st r st' :
  feed_known w feed = true ->
  process_feed w feed output_dir st = (r, st') ->
  downloads (requests st') = downloads (requests st) /\
  files st' = files st /\
  (forall new_audio_list, r = Ok new_audio_list -> new_audio_list = []) /\
  (missing_field feed = false ->
   (forall u, rss_url feed = Some u -> bozo (feedparser_parse w u) = false) ->
   r = Ok []).
Proof.
  unfold feed_known, process_feed, missing_field.
  destruct (source feed) as [source|];
    [|intros _ [= <- <-]; repeat split; discriminate].
  destruct (name feed) as [name|];
    [|intros _ [= <- <-]; repeat split; discriminate].
  destruct (rss_url feed) as [rss_url|];
    [|intros _ [= <- <-]; repeat split; discriminate].
  intros Hall. unfold bind at 1, print. unfold bind at 1, log_request. simpl.
  assert (Hd : forall (l : list Request), downloads (l ++ [FeedRequest rss_url]) = downloads l).
  { intros l. unfold downloads. rewrite List.filter_app. simpl. by rewrite app_nil_r. }
  destruct (bozo (feedparser_parse w rss_url)) eqn:Hb.
  { intros [= <- <-]. simpl. rewrite Hd. repeat split; try discriminate.
    intros _ H. specialize (H rss_url eq_refl). congruence. }
  rewrite (bind_Ok _ _ _ _ _ (entries_loop_known _ _ _ _ Hall _ _)).
  unfold bind, print, ret. simpl. intros [= <- <-]. simpl. rewrite Hd.
  repeat split; try done. by intros l [= <-].
Qed.

(** The sample feed serves the one entry it already knows. *)
Lemma C5_witness :
  downloads (requests (process_feed known_world sample_feed "audio"
                         (empty_state [sample_feed])).2) = downloads [] /\
  files (process_feed known_world sample_feed "audio" (empty_state [sample_feed])).2 = ∅ /\
  (forall new_audio_list,
     (process_feed known_world sample_feed "audio" (empty_state [sample_feed])).1
       = Ok new_audio_list -> new_audio_list = []) /\
  (missing_field sample_feed = false ->
   (forall u, rss_url sample_feed = Some u -> bozo (feedparser_parse known_world u) = false) ->
   (process_feed known_world sample_feed "audio" (empty_state [sample_feed])).1 = Ok []).
Proof.
  apply (C5_known_ids_no_download known_world sample_feed "audio" (empty_state [sample_feed])).
  - vm_compute; reflexivity.
  - apply surjective_pairing.
Defined.

(** ** Files that are there before the run *)

(** An entry whose file is there is passed over: no request, no write, no
    record. *)
Lemma process_entry_exists w base_dir id_list entry new st output_path :
  target_of base_dir entry = Some output_path ->
  is_Some (files st !! output_path) ->
  exists st',
    process_entry w base_dir id_list entry new st = (Ok new, st') /\
    requests st' = requests st /\ files st' = files st.
Proof.
  unfold target_of, process_entry. intros Ht Hfile.
  destruct (enclosures entry) as [[|enclosure tl]|]; try discriminate.
  destruct (enclosure_url enclosure) as [url|]; [|discriminate].
  destruct (entry_id entry) as [full_id|] eqn:Hid; [|discriminate].
  destruct (truthy url); [|discriminate]. simpl.
  unfold bind at 1, parse_id. rewrite Hid.
  destruct (int (path_tail full_id)) as [_id|]; [|discriminate]. simpl.
  injection Ht as Ht.
  destruct (id_known id_list _id); [by exists st|].
  rewrite Ht. unfold bind. rewrite (download_file_exists _ _ _ _ Hfile). simpl.
  by eexists.
Qed.

(** C6.  A media file that is on disk before the run has the same bytes
    after it, and the run issues no download request aimed at it; a feed
    entry whose computed target is that file is passed over without a
    request. *)
Theorem C6_existing_file_untouched w args st r st' output_path content :
  files st !! output_path = Some content ->
  main w args st = (r, st') ->
  files st' !! output_path = Some content /\
  (exists issued,
     requests st' = requests st ++ issued /\
     forall url, DownloadRequest url output_path ∉ issued) /\
  (forall base_dir id_list entry new,
     target_of base_dir entry = Some output_path ->
     exists st1,
       process_entry w base_dir id_list entry new st = (Ok new, st1) /\
       requests st1 = requests st /\ files st1 = files st).
Proof.
  intros Hfile Hmain.
  destruct (main_spec _ _ _ _ _ Hmain) as (Hsub & (issued & Hreq & Hissued) & _).
  split; [by eapply lookup_weaken|]. split.
  - exists issued. split; [done|]. intros url Hin. apply Hissued in Hin. congruence.
  - intros base_dir id_list entry new Ht. eapply process_entry_exists; eauto.
Qed.

(** The feed offers episode 11 while its file is on disk. *)
Lemma C6_witness :
  files (main two_entries_world sample_args disk_with_11).2 !! "audio/ivoox/pleno/11.mp3"
    = Some old_body /\
  (exists issued,
     requests (main two_entries_world sample_args disk_with_11).2
       = requests disk_with_11 ++ issued /\
     forall url, DownloadRequest url "audio/ivoox/pleno/11.mp3" ∉ issued) /\
  (forall base_dir id_list entry new,
     target_of base_dir entry = Some "audio/ivoox/pleno/11.mp3" ->
     exists st1,
       process_entry two_entries_world base_dir id_list entry new disk_with_11 = (Ok new, st1) /\
       requests st1 = requests disk_with_11 /\ files st1 = files disk_with_11).
Proof.
  apply (C6_existing_file_untouched two_entries_world sample_args disk_with_11
           (main two_entries_world sample_args disk_with_11).1).
  - vm_compute; reflexivity.
  - apply surjective_pairing.
Defined.

(** ** Descriptors that lack a field *)

Lemma process_feed_missing w feed output_dir st :
  missing_field feed = true ->
  process_feed w feed output_dir st
  = (Raise (ValueError "ERROR: Missing required field in feed_info: "), st).
Proof.
  unfold missing_field, process_feed.
  destruct (source feed); [|reflexivity].
  destruct (name feed); [|reflexivity].
  destruct (rss_url feed); [|reflexivity].
  rewrite !bool_decide_true by eauto. discriminate.
Qed.

Lemma feeds_loop_missing w output_dir feed feed_rss :
  feed ∈ feed_rss -> missing_field feed = true ->
  forall st, exists e st', feeds_loop w output_dir feed_rss st = (Raise e, st').
Proof.
  intros Hin Hmiss. induction Hin as [feed rest|feed other rest Hin IH]; intros st; simpl.
  - rewrite (bind_Raise _ _ _ _ _ (process_feed_missing _ _ _ _ Hmiss)). eauto.
  - unfold bind at 1.
    destruct (process_feed w other output_dir st) as [[new|e] s1]; [|eauto].
    destruct (IH Hmiss s1) as (e & st' & Hl).
    rewrite (bind_Raise _ _ _ _ _ Hl). eauto.
Qed.

(** C9.  For a feed descriptor that lacks its source, its name or its feed
    URL, [process_feed] raises a [ValueError] before it prints, requests or
    writes anything; a run over a store that holds such a descriptor ends in
    an exception, and the metadata store file is not rewritten. *)
Theorem C9_missing_field_aborts_run w args st feed :
  feed ∈ store st ->
  missing_field feed = true ->
  only_stats args = false ->
  (forall output_dir s, exists msg,
     process_feed w feed output_dir s = (Raise (ValueError msg), s)) /\
  exists e st', main w args st = (Raise e, st') /\ store st' = store st.
Proof.
  intros Hin Hmiss Hstats. split.
  - intros output_dir s. eexists. by apply process_feed_missing.
  - destruct (feeds_loop_missing w (output_dir args) _ _ Hin Hmiss st) as (e & st' & Hl).
    exists e, st'. split; [by apply main_feeds_loop_raise|].
    by apply feeds_loop_spec in Hl as [(Hs & _) _].
Qed.

(** A store whose second descriptor has no name. *)
Lemma C9_witness :
  (forall output_dir s, exists msg,
     process_feed two_entries_world nameless_feed output_dir s = (Raise (ValueError msg), s)) /\
  exists e st',
    main two_entries_world sample_args (empty_state [sample_feed; nameless_feed])
      = (Raise e, st') /\
    store st' = [sample_feed; nameless_feed].
Proof.
  apply (C9_missing_field_aborts_run two_entries_world sample_args
           (empty_state [sample_feed; nameless_feed]) nameless_feed).
  - right. left.
  - reflexivity.
  - reflexivity.
Defined.

(** ** Run after run *)

Lemma prepended_records feed_rss news totals :
  Forall3 prepended feed_rss news totals ->
  forall a, a ∈ records totals ->
    a ∈ records feed_rss \/
    exists new, new ∈ news /\ a ∈ default [] (audio_list new).
Proof.
  unfold records. induction 1 as [|old new total olds news totals Hp H3 IH]; intros a; simpl.
  - by intros ?%elem_of_nil.
  - destruct Hp as (l & Hnew & Htotal & _). rewrite Htotal. simpl.
    rewrite !elem_of_app. intros [[Ha|Ha]|Ha].
    + right. exists new. split; [left|]. by rewrite Hnew.
    + by left; left.
    + destruct (IH a Ha) as [?|(n & ? & ?)]; [by left; right|].
      right. exists n. split; [by right|done].
Qed.

(** A record in the store after a run was in the store before it, or its
    file was not on disk before the run. *)
Lemma main_records w args st :
  files st ⊆ files (main w args st).2 /\
  forall a, a ∈ records (store (main w args st).2) ->
    a ∈ records (store st) \/ files st !! audio_filepath a = None.
Proof.
  destruct (main w args st) as [r st'] eqn:Hmain. simpl.
  destruct (main_spec _ _ _ _ _ Hmain)
    as (Hsub & _ & [[Hs _]|(news & totals & _ & _ & Hs & H3 & Hfresh)]).
  - split; [done|]. intros a Ha. left. by rewrite <- Hs.
  - split; [done|]. intros a Ha. rewrite Hs in Ha.
    destruct (prepended_records _ _ _ H3 a Ha) as [?|(new & Hnew & Hin)]; [by left|].
    right. rewrite Forall_forall in Hfresh. by apply (Hfresh new Hnew).
Qed.

(** C10.  When the target audio file is on disk, [download_file] returns a
    value that is not [True], and an entry whose computed target it is adds
    no record; and through any sequence of runs, whatever the feeds then
    hold, every record in the store that points at a file which was on disk
    before the first run was in the store before the first run: no record is
    ever added for it. *)
Theorem C10_existing_file_never_recorded (st : State) (audio_filepath0 : string) :
  is_Some (files st !! audio_filepath0) ->
  (forall w url, exists r st',
     download_file w url audio_filepath0 st = (Ok r, st') /\ is_true r = false) /\
  (forall w base_dir id_list entry new,
     target_of base_dir entry = Some audio_filepath0 ->
     exists st', process_entry w base_dir id_list entry new st = (Ok new, st')) /\
  forall schedule a,
    a ∈ records (store (runs schedule st)) ->
    audio_filepath a = audio_filepath0 ->
    a ∈ records (store st).
Proof.
  intros Hfile. split; [|split].
  - intros w url. eexists None, _. split; [by apply download_file_exists|reflexivity].
  - intros w base_dir id_list entry new Ht.
    destruct (process_entry_exists w base_dir id_list entry new st _ Ht Hfile)
      as (st' & H & _).
    eauto.
  - intros schedule. revert st Hfile.
    induction schedule as [|[w args] schedule IH]; intros st Hfile a Ha Hpath; [done|].
    simpl in Ha. destruct (main_records w args st) as [Hsub Hrec].
    assert (Hfile1 : is_Some (files (main w args st).2 !! audio_filepath0)).
    { destruct Hfile as [c Hc]. exists c. by eapply lookup_weaken. }
    destruct (Hrec a (IH _ Hfile1 a Ha Hpath)) as [?|Hnone]; [done|].
    rewrite Hpath in Hnone. rewrite Hnone in Hfile. by destruct Hfile.
Qed.

(** Two runs over the feed that offers episode 11, with its file on disk. *)
Lemma C10_witness :
  (forall w url, exists r st',
     download_file w url "audio/ivoox/pleno/11.mp3" disk_with_11 = (Ok r, st') /\
     is_true r = false) /\
  (forall w base_dir id_list entry new,
     target_of base_dir entry = Some "audio/ivoox/pleno/11.mp3" ->
     exists st', process_entry w base_dir id_list entry new disk_with_11 = (Ok new, st')) /\
  forall schedule a,
    a ∈ records (store (runs schedule disk_with_11)) ->
    audio_filepath a = "audio/ivoox/pleno/11.mp3" ->
    a ∈ records [sample_feed].
Proof.
  apply (C10_existing_file_never_recorded disk_with_11 "audio/ivoox/pleno/11.mp3").
  exists old_body. vm_compute; reflexivity.
Defined.

(** What a completed run persists. *)
Lemma feeds_prepended_by_main w args st news totals st' :
  only_stats args = false ->
  main w args st = (Ok (news, totals), st') ->
  store st' = totals /\ Forall3 prepended (store st) news totals.
Proof.
  intros Hstats Hmain.
  destruct (main_spec _ _ _ _ _ Hmain)
    as (_ & _ & [[_ Hr]|(news0 & totals0 & _ & [[= <- <-]|[e [=]]] & Hs & H3 & _)]); [|done].
  destruct (Hr Hstats) as [e [=]].
Qed.

(** What a run persists, however it ends. *)
Lemma feeds_prepended_or_kept w args st r st' :
  main w args st = (r, st') ->
  store st' = store st \/ exists news, Forall3 prepended (store st) news (store st').
Proof.
  intros Hmain.
  destruct (main_spec _ _ _ _ _ Hmain)
    as (_ & _ & [[Hs _]|(news & totals & _ & _ & Hs & H3 & _)]); [by left|].
  right. exists news. by rewrite Hs.
Qed.

End PodcastFacts.

(* ===================================================================== *)
(** * The store after a run, for both downloaders                         *)
(* ===================================================================== *)

Module StoreFacts.
Import Exec.

(** C7.  After a run of the XML downloader, and after a run of the podcast
    downloader that fetches, the persisted list of every group or feed is
    the list of the records created in the run followed by the list it had
    before, in its old order and with its old contents; the other fields of
    the group or feed are kept.  And however a run ends, the store file is
    either as it was before the run (nothing was persisted) or holds, for
    every group or feed, new records in front of the list it had before. *)
Theorem C7_new_records_before_old :
  (forall w args st news totals st',
     Parliament.main w args st = (Ok (news, totals), st') ->
     store st' = totals /\ Forall3 Parliament.prepended (store st) news totals) /\
  (forall w args st news totals st',
     Podcast.only_stats args = false ->
     Podcast.main w args st = (Ok (news, totals), st') ->
     store st' = totals /\ Forall3 Podcast.prepended (store st) news totals) /\
  (forall w args st r st',
     Parliament.main w args st = (r, st') ->
     store st' = store st \/
     exists news, Forall3 Parliament.prepended (store st) news (store st')) /\
  (forall w args st r st',
     Podcast.main w args st = (r, st') ->
     store st' = store st \/
     exists news, Forall3 Podcast.prepended (store st) news (store st')).
Proof.
  split; [|split; [|split]].
  - apply ParliamentFacts.groups_prepended_by_main.
  - apply PodcastFacts.feeds_prepended_by_main.
  - apply ParliamentFacts.groups_prepended_or_kept.
  - apply PodcastFacts.feeds_prepended_or_kept.
Qed.

(** A run of each downloader that creates records: two XML files in front
    of the one known, one episode in front of the one known. *)
Lemma C7_witness :
  (store (Parliament.main Parliament.serving_world Parliament.sample_args
            (Parliament.empty_state Parliament.one_store)).2
   = [Parliament.mkXmlMetadata Parliament.sample_url "XII"
        (Some [Parliament.pleno3; Parliament.pleno4; Parliament.pleno1])] /\
   Forall3 Parliament.prepended Parliament.one_store
     [Parliament.mkXmlMetadata Parliament.sample_url "XII"
        (Some [Parliament.pleno3; Parliament.pleno4])]
     [Parliament.mkXmlMetadata Parliament.sample_url "XII"
        (Some [Parliament.pleno3; Parliament.pleno4; Parliament.pleno1])]) /\
  (store (Podcast.main Podcast.two_entries_world Podcast.sample_args
            (Podcast.empty_state [Podcast.sample_feed])).2
   = [Podcast.mkFeed (Some "ivoox") (Some "pleno") (Some Podcast.feed_url)
        (Some [Podcast.episode11; Podcast.episode10])] /\
   Forall3 Podcast.prepended [Podcast.sample_feed]
     [Podcast.mkFeed (Some "ivoox") (Some "pleno") (Some Podcast.feed_url)
        (Some [Podcast.episode11])]
     [Podcast.mkFeed (Some "ivoox") (Some "pleno") (Some Podcast.feed_url)
        (Some [Podcast.episode11; Podcast.episode10])]).
Proof.
  destruct C7_new_records_before_old as (Hxml & Hpodcast & _ & _).
  split.
  - apply (Hxml Parliament.serving_world Parliament.sample_args
             (Parliament.empty_state Parliament.one_store)).
    vm_compute; reflexivity.
  - apply (Hpodcast Podcast.two_entries_world Podcast.sample_args
             (Podcast.empty_state [Podcast.sample_feed])).
    + reflexivity.
    + vm_compute; reflexivity.
Defined.

End StoreFacts.
Module ExtractVideosScriptFacts.
Import Py PyFacts ExtractVideos ExtractVideosFacts ExtractVideosScript.

Example replace_examples :
  output_file "experiments/pleno_12.xml" = "experiments/pleno_12_videos.json" /\
  output_file "a.xml.d/b.xml" = "a_videos.json.d/b_videos.json" /\
  output_file "pleno.XML" = "pleno.XML".
Proof. repeat split. Qed.

(** ** The segments of a document *)

Lemma parse_video_url_url (text : string) (video_info : VideoInfo) :
  _parse_video_url text = Ok (Some video_info) -> url video_info = text.
Proof.
  unfold _parse_video_url.
  destruct (negb _ && negb _); [discriminate|].
  destruct (urlsplit text) as [parsed|]; [|discriminate].
  destruct (truthy_opt _ || truthy_opt _); [|discriminate].
  by intros [= <-].
Qed.

Lemma parse_video_url_raise (text : string) (e : exn) :
  _parse_video_url text = Raise e ->
  e = ValueError "Invalid IPv6 URL" /\ stream_guard text = true /\ urlsplit text = None.
Proof.
  unfold _parse_video_url. rewrite stream_guard_negb.
  destruct (stream_guard text); [|discriminate]. simpl.
  destruct (urlsplit text) as [parsed|].
  - destruct (truthy_opt _ || truthy_opt _); discriminate.
  - by intros [= <-].
Qed.

Lemma links_loop_urls (elements : list Element) :
  forall acc videos,
    links_loop elements acc = Ok videos ->
    map (fun v => url (info v)) videos
    = map (fun v => url (info v)) acc ++ omap accepted_text elements.
Proof.
  induction elements as [|element rest IH]; intros acc videos H; simpl in H.
  - injection H as <-. by rewrite app_nil_r.
  - destruct (candidate_text element) as [text|] eqn:Hc.
    2:{ assert (Ha : accepted_text element = None) by (unfold accepted_text; by rewrite Hc).
        simpl. rewrite Ha. by apply IH. }
    destruct (_parse_video_url text) as [[video_info|]|e] eqn:Hp; [| |discriminate].
    + assert (Ha : accepted_text element = Some text)
        by (unfold accepted_text; by rewrite Hc, Hp).
      simpl. rewrite Ha. apply IH in H. rewrite H, map_app. simpl.
      rewrite (parse_video_url_url _ _ Hp). by rewrite <- app_assoc.
    + assert (Ha : accepted_text element = None)
        by (unfold accepted_text; by rewrite Hc, Hp).
      simpl. rewrite Ha. by apply IH.
Qed.

(** X1.  When [_extract_video_links] returns, the segments it has
    collected are, in document order, exactly the element texts that hold
    both markers and that [_parse_video_url] accepts: the [url] fields of
    the segments are these texts, one segment for each. *)
Theorem X1_segments_in_document_order (root : Element) (videos : list Video) :
  _extract_video_links root = Ok videos ->
  map (fun v => url (info v)) videos = omap accepted_text (iter root).
Proof.
  unfold _extract_video_links. intros H. by apply links_loop_urls in H.
Qed.

Lemma X1_witness :
  map (fun v => url (info v))
      [mkVideo (mkVideoInfo "https://www.legebiltzarra.eus/videos?streamdbstart=00:01:00"
                  None None None None (Some "00:01:00") None) None]
  = omap accepted_text (iter session_doc).
Proof.
  apply (X1_segments_in_document_order session_doc). vm_compute; reflexivity.
Defined.

Lemma links_loop_no_candidate (elements : list Element) :
  Forall (fun element => candidate_text element = None) elements ->
  forall acc, links_loop elements acc = Ok acc.
Proof.
  induction 1 as [|element rest He _ IH]; intros acc; simpl; [done|].
  rewrite He. apply IH.
Qed.

(** X2.  For a document none of whose elements has a text holding both
    the hostname marker and ["videos"], [parse] returns [True] with an empty
    list of segments. *)
Theorem X2_no_marker_no_segment (root : Element) :
  Forall (fun element => candidate_text element = None) (iter root) ->
  parse (Some root) = Ok (true, mkExtractor (_extract_session_info root) []).
Proof.
  intros H. unfold parse, _extract_video_links.
  by rewrite (links_loop_no_candidate _ H).
Qed.

Lemma X2_witness :
  parse (Some plain_doc) = Ok (true, mkExtractor (_extract_session_info plain_doc) []).
Proof.
  apply (X2_no_marker_no_segment plain_doc). repeat constructor.
Defined.

Lemma links_loop_raise (elements : list Element) (element : Element) :
  element ∈ elements -> raising_text element = true ->
  forall acc, links_loop elements acc = Raise (ValueError "Invalid IPv6 URL").
Proof.
  intros Hin Hr. induction Hin as [element rest|element other rest Hin IH]; intros acc; simpl.
  - unfold raising_text in Hr. destruct (candidate_text element) as [text|]; [|discriminate].
    apply andb_true_iff in Hr as [Hg Hu]. apply bool_decide_eq_true in Hu.
    unfold _parse_video_url. rewrite stream_guard_negb, Hg, Hu. reflexivity.
  - destruct (candidate_text other) as [text|]; [|by apply IH].
    destruct (_parse_video_url text) as [[video_info|]|e] eqn:Hp; try by apply IH.
    apply parse_video_url_raise in Hp as [-> _]. reflexivity.
Qed.

Lemma links_loop_returns (elements : list Element) :
  Forall (fun element => raising_text element = false) elements ->
  forall acc, exists videos, links_loop elements acc = Ok videos.
Proof.
  induction 1 as [|element rest He _ IH]; intros acc; simpl; [by eexists|].
  unfold raising_text in He.
  destruct (candidate_text element) as [text|]; [|apply IH].
  destruct (_parse_video_url text) as [[video_info|]|e] eqn:Hp; try apply IH.
  apply parse_video_url_raise in Hp as (_ & Hg & Hu).
  rewrite Hg, Hu in He. discriminate.
Qed.

Lemma raising_or_not (elements : list Element) :
  Forall (fun element => raising_text element = false) elements \/
  Exists (fun element => raising_text element = true) elements.
Proof.
  induction elements as [|element rest [IH|IH]]; [by left| |by right; right].
  destruct (raising_text element) eqn:Hr; [right; by left|left; by constructor].
Qed.

(** X3.  [parse] catches the parser's error only.  On a file that is not
    well-formed it returns [False].  On a well-formed document it raises
    the [ValueError] of [urlparse] exactly when [urlparse] rejects the text
    of some element that holds both markers and a guard word (as it does
    for a host with one square bracket without the other); otherwise it
    returns [True]. *)
Theorem X3_parse_lets_value_error_through (root : Element) :
  (Exists (fun element => raising_text element = true) (iter root) <->
   exists msg, parse (Some root) = Raise (ValueError msg)) /\
  (Forall (fun element => raising_text element = false) (iter root) <->
   exists videos, parse (Some root) = Ok (true, mkExtractor (_extract_session_info root) videos)) /\
  parse None = Ok (false, mkExtractor ∅ []).
Proof.
  assert (Hraise : Exists (fun element => raising_text element = true) (iter root) ->
                   parse (Some root) = Raise (ValueError "Invalid IPv6 URL")).
  { intros (element & Hin & Hr)%Exists_exists.
    unfold parse, _extract_video_links. by rewrite (links_loop_raise _ _ Hin Hr). }
  assert (Hret : Forall (fun element => raising_text element = false) (iter root) ->
                 exists videos,
                   parse (Some root) = Ok (true, mkExtractor (_extract_session_info root) videos)).
  { intros H. destruct (links_loop_returns _ H []) as [videos Hv].
    exists videos. unfold parse, _extract_video_links. by rewrite Hv. }
  split; [|split; [|reflexivity]].
  - split; [by eexists; apply Hraise|]. intros [msg Hp].
    destruct (raising_or_not (iter root)) as [H|H]; [|done].
    destruct (Hret H) as [videos Hv]. congruence.
  - split; [exact Hret|]. intros [videos Hv].
    destruct (raising_or_not (iter root)) as [H|H]; [done|].
    rewrite (Hraise H) in Hv. discriminate.
Qed.

(** ** Session information *)

(** X4.  [_extract_session_info] looks for the session node strictly below
    the root.  When no element below the root is tagged [sesiones_pleno]
    (whatever the root's own tag), [session_info] stays empty; when one is,
    [session_info] has exactly the five keys, each present even where the
    field is missing. *)
Theorem X4_session_info_keys (root : Element) :
  (Forall (fun d => tag d <> "sesiones_pleno") (flat_map iter (children root)) <->
   _extract_session_info root = ∅) /\
  (Exists (fun d => tag d = "sesiones_pleno") (flat_map iter (children root)) <->
   dom (_extract_session_info root)
   = ({["legislatura"; "num_sesion"; "fecha_inicio"; "hora_inicio"; "tipo_sesion"]}
        : gset string)).
Proof.
  unfold _extract_session_info, find_descendant.
  destruct (List.find _ _) as [sesion|] eqn:Hf.
  - apply find_some in Hf as [Hin Htag]. apply bool_decide_eq_true in Htag.
    assert (Hex : Exists (fun d => tag d = "sesiones_pleno") (flat_map iter (children root))).
    { apply Exists_exists. exists sesion. split; [by apply list_elem_of_In|done]. }
    split; split.
    + intros Hall. rewrite Forall_forall in Hall.
      exfalso. apply (Hall sesion); [by apply list_elem_of_In|done].
    + intros Hempty. exfalso.
      apply (f_equal (fun m => m !! "legislatura")) in Hempty.
      vm_compute in Hempty. discriminate.
    + intros _. simpl. rewrite !dom_insert_L, dom_empty_L. set_solver.
    + done.
  - assert (Hall : Forall (fun d => tag d <> "sesiones_pleno") (flat_map iter (children root))).
    { apply Forall_forall. intros d Hd%list_elem_of_In Htag.
      apply (find_none _ _ Hf) in Hd. apply bool_decide_eq_false in Hd. done. }
    split; split; try done.
    + intros (d & Hd & Htag)%Exists_exists. rewrite Forall_forall in Hall.
      exfalso. by apply (Hall d).
Qed.

(** ** The file written by [--save] *)

Lemma replace_xml_fixed (s : string) :
  replace_from ".xml" "_videos.json" 0 s = s <-> contains ".xml" s = false.
Proof.
  induction s as [|a s IH]; [done|].
  cbn [replace_from contains].
  destruct (startswith ".xml" (String a s)) eqn:Hs.
  - simpl in Hs. apply andb_true_iff in Hs as [Ha%bool_decide_eq_true _]. subst a.
    split; [|done]. intros H. cbn in H. discriminate.
  - rewrite orb_false_l, <- IH.
    split; [by intros [= ->]|by intros ->].
Qed.

(** X5.  The file that [--save] writes is the input file itself exactly
    when the input path does not contain [".xml"]: then the JSON dump
    replaces the XML file it was extracted from. *)
Theorem X5_save_overwrites_input (xml_file : string) :
  output_file xml_file = xml_file <-> contains ".xml" xml_file = false.
Proof. apply replace_xml_fixed. Qed.

(** ** Blank fields *)

Lemma lstrip_all (f : ascii -> bool) (s : string) :
  all_chars f s = true -> lstrip_by f s = "".
Proof.
  induction s as [|a s IH]; [done|]. simpl.
  intros [Ha Hs]%andb_true_iff. rewrite Ha. by apply IH.
Qed.

(** X18.  [_get_text] tells a blank field from an empty one.  For a field
    that is present it returns [None] exactly when the field has no text or
    the empty text; for a text that is not empty but made of whitespace only
    it returns the empty string. *)
Theorem X18_blank_field_is_empty_string (element elem : Element) (t : string) :
  find_child t element = Some elem ->
  (_get_text element t = None <-> text elem = None \/ text elem = Some "") /\
  (forall s, text elem = Some s -> s <> "" -> all_chars is_space s = true ->
     _get_text element t = Some "").
Proof.
  intros Hf. unfold _get_text. rewrite Hf. split.
  - destruct (text elem) as [[|a s]|]; simpl; split; try done; try (by right); try (by left).
    intros [[=]|[=]].
  - intros s -> Hne Hall. simpl.
    destruct s as [|a s]; [done|]. simpl. unfold strip.
    by rewrite (lstrip_all _ _ Hall).
Qed.

Lemma X18_witness :
  _get_text blank_session "sesiones_pleno_legislatura" = Some "" /\
  _get_text blank_session "sesiones_pleno_num_sesion" = None.
Proof.
  split.
  - apply (X18_blank_field_is_empty_string blank_session
             (Elem "sesiones_pleno_legislatura" (Some "   ") [])
             "sesiones_pleno_legislatura" eq_refl) with (s := "   "); by vm_compute.
  - apply (X18_blank_field_is_empty_string blank_session
             (Elem "sesiones_pleno_num_sesion" (Some "") [])
             "sesiones_pleno_num_sesion" eq_refl). by right.
Defined.

(** ** The fields of a segment *)

(** X19.  The fields of an accepted segment are read off the query string
    of the URL: [url] is the text as given, and each stream field is the
    first non-blank value that the query string gives to its parameter,
    [None] where it gives none.  A repeated parameter keeps its first
    value. *)
Theorem X19_fields_are_first_values (text : string) (video_info : VideoInfo) :
  _parse_video_url text = Ok (Some video_info) ->
  exists parsed,
    urlsplit text = Some parsed /\
    url video_info = text /\
    stream_legealdia video_info = head (values_of "streamlegealdia" (parse_qsl (query parsed))) /\
    stream_organoa video_info = head (values_of "streamorganoa" (parse_qsl (query parsed))) /\
    stream_data video_info = head (values_of "streamdata" (parse_qsl (query parsed))) /\
    stream_name video_info = head (values_of "streamname" (parse_qsl (query parsed))) /\
    start_time video_info = head (values_of "streamdbstart" (parse_qsl (query parsed))) /\
    end_time video_info = head (values_of "streamdbend" (parse_qsl (query parsed))).
Proof.
  unfold _parse_video_url.
  destruct (negb _ && negb _); [discriminate|].
  destruct (urlsplit text) as [parsed|]; [|discriminate].
  destruct (truthy_opt _ || truthy_opt _); [|discriminate].
  intros [= <-]. exists parsed. cbn [url stream_legealdia stream_organoa stream_data
    stream_name start_time end_time].
  by rewrite !get_param_parse_qs.
Qed.

Lemma X19_witness :
  exists parsed,
    urlsplit twice_started = Some parsed /\
    url (mkVideoInfo twice_started None None None None (Some "00:01:00") None) = twice_started /\
    None = head (values_of "streamlegealdia" (parse_qsl (query parsed))) /\
    None = head (values_of "streamorganoa" (parse_qsl (query parsed))) /\
    None = head (values_of "streamdata" (parse_qsl (query parsed))) /\
    None = head (values_of "streamname" (parse_qsl (query parsed))) /\
    Some "00:01:00" = head (values_of "streamdbstart" (parse_qsl (query parsed))) /\
    None = head (values_of "streamdbend" (parse_qsl (query parsed))).
Proof.
  apply (X19_fields_are_first_values twice_started
           (mkVideoInfo twice_started None None None None (Some "00:01:00") None)).
  vm_compute; reflexivity.
Defined.

End ExtractVideosScriptFacts.

Module ParliamentRunFacts.
Import Py Exec ExecFacts Parliament ParliamentFacts ParliamentRun.

Implicit Types (w : World) (st : State) (row : Row) (rows : list Row).

(** ** States that grow *)

Lemma grows_refl st : grows st st.
Proof. split; [done|]. exists []. by rewrite app_nil_r. Qed.

Lemma grows_trans st1 st2 st3 : grows st1 st2 -> grows st2 st3 -> grows st1 st3.
Proof.
  intros [Hf1 [i1 Hr1]] [Hf2 [i2 Hr2]]. split; [eauto|].
  exists (i1 ++ i2). by rewrite Hr2, Hr1, app_assoc.
Qed.

Lemma grows_requests st st' r : grows st st' -> r ∈ requests st -> r ∈ requests st'.
Proof. intros [_ [issued ->]] H. apply elem_of_app. by left. Qed.

Lemma backed_grows output_dir known st st' r :
  grows st st' -> backed output_dir known st r -> backed output_dir known st' r.
Proof.
  intros Hg (Hn & Hu & Hp & Hf & Hr). repeat split; try done.
  - by apply Hg.
  - by eapply grows_requests.
Qed.

Lemma startswith_app (p a b : string) :
  startswith p a = true -> startswith p (a +:+ b) = true.
Proof.
  revert a. induction p as [|c p IH]; intros [|d a]; simpl; try done.
  intros [-> Hp]%andb_true_iff. simpl. by rewrite IH.
Qed.

(** ** One row *)

Lemma download_xml_grows w row base_url output_dir known st r st' :
  download_xml w row base_url output_dir known st = (r, st') -> grows st st'.
Proof.
  unfold download_xml.
  destruct (cells row) as [|cell0 [|cell1 tl]]; try (intros [= _ <-]; apply grows_refl).
  destruct (name_known _ _); [intros [= _ <-]; apply grows_refl|].
  destruct (cell_href cell1) as [h|]; [|intros [= _ <-]; apply grows_refl].
  unfold bind, print, get_checked, bind, log_request, write_file, ret, raise. simpl.
  destruct (http_get w _); intros [= _ <-]; (split; simpl; [|eexists; reflexivity]);
    try done.
  intros path Hp. destruct (decide (path = output_dir +:+ "/" +:+
    last_item (split "=" (if startswith "http" h then h else base_url +:+ h)))) as [->|Hne].
  - rewrite lookup_insert_eq. by eexists.
  - by rewrite lookup_insert_ne.
Qed.

Lemma download_xml_backed w row base_url output_dir known st xml_info st' :
  startswith "http" base_url = true ->
  download_xml w row base_url output_dir known st = (Ok xml_info, st') ->
  backed output_dir known st' xml_info.
Proof.
  intros Hbase. unfold download_xml.
  destruct (cells row) as [|cell0 [|cell1 tl]]; try discriminate.
  destruct (name_known (cell_text cell0) known) eqn:Hk; [discriminate|].
  destruct (cell_href cell1) as [h|]; [|discriminate].
  set (href := if startswith "http" h then h else base_url +:+ h).
  assert (Hhref : startswith "http" href = true).
  { subst href. destruct (startswith "http" h) eqn:Hh; [exact Hh|]. by apply startswith_app. }
  clearbody href.
  unfold bind, print, get_checked, bind, log_request, write_file, ret, raise.
  cbn [files requests stdout store].
  destruct (http_get w href) as [content|msg|e|partial msg]; try discriminate.
  intros [= <- <-]. repeat split; cbn [name xml_url xml_filepath files requests].
  - by apply name_known_false.
  - exact Hhref.
  - rewrite lookup_insert_eq. by eexists.
  - apply elem_of_app. right. by left.
Qed.

Lemma rows_loop_grows w rows base_url output_dir known :
  forall new st r st',
    rows_loop w rows base_url output_dir known new st = (r, st') -> grows st st'.
Proof.
  induction rows as [|row rows IH]; intros new st r st'; simpl.
  - intros [= _ <-]. apply grows_refl.
  - unfold bind at 1, except_ValueError, bind at 1.
    destruct (download_xml w row base_url output_dir known st) as [[xi|e] s1] eqn:Hd;
      apply download_xml_grows in Hd.
    + simpl. intros H%IH. by eapply grows_trans.
    + assert (Hp : forall line, grows st (printed s1 line)).
      { intros line. eapply grows_trans; [exact Hd|]. split; [done|]. exists [].
        by rewrite app_nil_r. }
      destruct e; simpl; try (intros [= _ <-]; exact Hd).
      intros H%IH. eapply grows_trans; [apply Hp|exact H].
Qed.

Lemma rows_loop_backed w rows base_url output_dir known :
  startswith "http" base_url = true ->
  forall new st new' st',
    rows_loop w rows base_url output_dir known new st = (Ok new', st') ->
    Forall (backed output_dir known st) new ->
    Forall (backed output_dir known st') new'.
Proof.
  intros Hbase. induction rows as [|row rows IH]; intros new st new' st' H Hnew; simpl in H.
  - by injection H as <- <-.
  - apply bind_Ok_inv in H as (new1 & s1 & Hrow & Hrest).
    apply (IH _ _ _ _ Hrest). clear IH Hrest.
    unfold except_ValueError, bind in Hrow.
    destruct (download_xml w row base_url output_dir known st) as [[xml_info|e] s0] eqn:Hd.
    + injection Hrow as <- <-. apply Forall_app. split.
      * eapply Forall_impl; [exact Hnew|]. intros r. apply backed_grows.
        by eapply download_xml_grows.
      * constructor; [|done]. by eapply download_xml_backed.
    + destruct e; try discriminate. injection Hrow as <- <-.
      eapply Forall_impl; [exact Hnew|]. intros r. apply backed_grows.
      eapply grows_trans; [by eapply download_xml_grows|].
      split; [done|]. exists []. by rewrite app_nil_r.
Qed.

Lemma process_metadata_grows w dir g st r st' :
  process_metadata w dir g st = (r, st') -> grows st st'.
Proof.
  unfold process_metadata, get_checked, base_url_of.
  unfold bind at 1, bind at 1, log_request. cbn [files requests stdout store].
  assert (Hlog : grows st (logged st (PageRequest (html_url g)))).
  { split; [done|]. by eexists. }
  destruct (http_get w (html_url g)); simpl; try (by intros [= _ <-]).
  destruct (split "/" (html_url g) !! 2%nat); simpl; [|by intros [= _ <-]].
  unfold bind at 1. simpl. unfold bind.
  destruct (rows_loop _ _ _ _ _ _ _) as [[new|e] s1] eqn:Hrows;
    apply rows_loop_grows in Hrows; intros [= _ <-]; by eapply grows_trans.
Qed.

Lemma process_metadata_backed w dir g st new total st' :
  process_metadata w dir g st = (Ok (new, total), st') -> group_backed dir st' g new.
Proof.
  unfold process_metadata. intros H.
  apply bind_Ok_inv in H as (content & s1 & _ & H).
  apply bind_Ok_inv in H as (base_url & s2 & Hbase & H).
  apply bind_Ok_inv in H as (l & s3 & Hrows & H).
  injection H as <- _ <-. unfold group_backed. simpl. apply Forall_forall.
  eapply rows_loop_backed; [|exact Hrows|done].
  unfold base_url_of in Hbase.
  destruct (split "/" (html_url g) !! 2%nat); [|discriminate].
  by injection Hbase as <- _.
Qed.

Lemma metadata_loop_grows w dir gs :
  forall st r st', metadata_loop w dir gs st = (r, st') -> grows st st'.
Proof.
  induction gs as [|g gs IH]; intros st r st'; simpl.
  - intros [= _ <-]. apply grows_refl.
  - unfold bind at 1.
    destruct (process_metadata w dir g st) as [[p|e] s1] eqn:Hp;
      apply process_metadata_grows in Hp; [|by intros [= _ <-]].
    unfold bind.
    destruct (metadata_loop w dir gs s1) as [[rs|e] s2] eqn:Hl;
      apply IH in Hl; intros [= _ <-]; by eapply grows_trans.
Qed.

Lemma metadata_loop_backed w dir gs :
  forall st news totals st',
    metadata_loop w dir gs st = (Ok (news, totals), st') ->
    Forall2 (group_backed dir st') gs news.
Proof.
  induction gs as [|g gs IH]; intros st news totals st'; simpl.
  - intros [= <- _ _]. constructor.
  - intros H.
    apply bind_Ok_inv in H as ([new total] & s1 & Hp & H).
    apply bind_Ok_inv in H as ([news0 totals0] & s2 & Hl & H).
    injection H as <- _ <-. simpl. constructor; [|by eapply IH].
    intros r Hr. eapply backed_grows; [by eapply metadata_loop_grows|].
    by eapply process_metadata_backed.
Qed.

(** X7.  After a run of the XML downloader that completes, every record
    created in the run is backed by it: its name was not in the group's list
    before, its URL is absolute (it starts with ["http"]), its path is the
    group's directory followed by the last [=]-separated segment of the URL,
    there is a file at this path, and the download of this URL to this path
    is in the request log. *)
Theorem X7_new_records_backed w args st news totals st' :
  main w args st = (Ok (news, totals), st') ->
  Forall2 (group_backed (xml_output_dir args) st') (store st) news.
Proof.
  intros Hmain.
  destruct (metadata_loop w (xml_output_dir args) (store st) st) as [[p|e] s1] eqn:Hl.
  - destruct (main_loop_Ok _ _ _ _ _ Hl) as (s2 & Hm & Hf & Hr & _).
    rewrite Hm in Hmain. injection Hmain as -> <-.
    apply metadata_loop_backed in Hl.
    eapply Forall2_impl; [exact Hl|]. intros old new Hb r Hin.
    destruct (Hb r Hin) as (? & ? & ? & ? & ?). repeat split; try done; congruence.
  - rewrite (main_loop_raise _ _ _ _ _ Hl) in Hmain. discriminate.
Qed.

Lemma X7_witness :
  Forall2 (group_backed "xml"
             (main serving_world sample_args (empty_state one_store)).2)
          one_store
          [mkXmlMetadata sample_url "XII" (Some [pleno3; pleno4])].
Proof.
  apply (X7_new_records_backed serving_world sample_args (empty_state one_store)
           [mkXmlMetadata sample_url "XII" (Some [pleno3; pleno4])]
           [mkXmlMetadata sample_url "XII" (Some [pleno3; pleno4; pleno1])]).
  vm_compute; reflexivity.
Defined.

(** ** Names stay distinct on pages that repeat none *)

Lemma metadata_loop_unique w dir gs :
  Forall unique_names gs ->
  forallb (distinct_page w) gs = true ->
  forall st news totals st',
    metadata_loop w dir gs st = (Ok (news, totals), st') ->
    Forall unique_names totals.
Proof.
  induction gs as [|g gs IH]; intros Hu Hd st news totals st'; simpl.
  - intros [= _ <- _]. constructor.
  - intros H. apply Forall_cons in Hu as [Hg Hu].
    simpl in Hd. apply andb_true_iff in Hd as [Hdg Hd].
    apply bind_Ok_inv in H as ([new total] & s1 & Hp & H).
    apply bind_Ok_inv in H as ([news0 totals0] & s2 & Hl & H).
    injection H as _ <- _. simpl. constructor; [|by eapply IH].
    unfold distinct_page in Hdg.
    destruct (http_get w (html_url g)) as [content|msg|e|partial msg] eqn:Hget.
    + apply bool_decide_eq_true in Hdg.
      by eapply unique_names_kept_on_distinct_page.
    + unfold process_metadata, get_checked, bind, log_request in Hp.
      rewrite Hget in Hp. discriminate.
    + unfold process_metadata, get_checked, bind, log_request in Hp.
      rewrite Hget in Hp. discriminate.
    + unfold process_metadata, get_checked, bind, log_request in Hp.
      rewrite Hget in Hp. discriminate.
Qed.

(** X6.  When no group of the store holds two records of one name and no
    index page offers one name in two rows (of two cells or more), the store
    that a completed run of the XML downloader persists again holds no two
    records of one name in any group. *)
Theorem X6_unique_names_kept w args st news totals st' :
  Forall unique_names (store st) ->
  forallb (distinct_page w) (store st) = true ->
  main w args st = (Ok (news, totals), st') ->
  Forall unique_names (store st').
Proof.
  intros Hu Hd Hmain.
  destruct (metadata_loop w (xml_output_dir args) (store st) st) as [[[n t]|e] s1] eqn:Hl.
  - destruct (main_loop_Ok _ _ _ _ _ Hl) as (s2 & Hm & _ & _ & Hs).
    rewrite Hm in Hmain. injection Hmain as _ _ <-. rewrite Hs.
    by eapply metadata_loop_unique.
  - rewrite (main_loop_raise _ _ _ _ _ Hl) in Hmain. discriminate.
Qed.

Lemma X6_witness :
  Forall unique_names (store (main serving_world sample_args (empty_state one_store)).2).
Proof.
  apply (X6_unique_names_kept serving_world sample_args (empty_state one_store)
           [mkXmlMetadata sample_url "XII" (Some [pleno3; pleno4])]
           [mkXmlMetadata sample_url "XII" (Some [pleno3; pleno4; pleno1])]).
  - repeat constructor. by intros ?%elem_of_nil.
  - vm_compute; reflexivity.
  - vm_compute; reflexivity.
Defined.

(** ** Exceptions of the request itself *)

(** X8.  When [requests.get] itself raises for the file of a row that
    passed the three checks, the row loop looks at the class of the
    exception only: a [ValueError] (the URL errors of [requests] are of this
    class) is reported like a rejected row and the loop goes on, with the
    request counted but no record made; any other exception ends the loop. *)
Theorem X8_request_exception_by_class w row rows base_url output_dir known new href e st :
  rejection known row = None ->
  row_link base_url row = Some href ->
  http_get w href = Failed e ->
  rows_loop w (row :: rows) base_url output_dir known new st =
  let st1 := logged (printed st ("Downloading " +:+ href +:+ " ..."))
                    (DownloadRequest href (output_dir +:+ "/" +:+ last_item (split "=" href))) in
  match e with
  | ValueError msg =>
      rows_loop w rows base_url output_dir known new (printed st1 ("Caught exception: " +:+ msg))
  | _ => (Raise e, st1)
  end.
Proof.
  intros Hrej Hlink Hget. simpl. unfold bind at 1, except_ValueError, bind at 1.
  rewrite (download_xml_fetch _ _ _ _ _ _ _ Hrej Hlink). simpl.
  unfold bind, print, get_checked, bind, log_request. simpl. rewrite Hget.
  by destruct e.
Qed.

Lemma X8_witness :
  rows_loop invalid_url_world [row_refused; row_new] "https://www.legebiltzarra.eus"
            "xml/XII" [pleno1] [] (empty_state one_store) =
  rows_loop invalid_url_world [row_new] "https://www.legebiltzarra.eus" "xml/XII" [pleno1] []
    (printed
       (logged (printed (empty_state one_store)
                  "Downloading https://www.legebiltzarra.eus/descarga?fichero=pleno3.xml ...")
               (DownloadRequest "https://www.legebiltzarra.eus/descarga?fichero=pleno3.xml"
                                "xml/XII/pleno3.xml"))
       "Caught exception: Invalid URL").
Proof.
  apply (X8_request_exception_by_class invalid_url_world row_refused [row_new]
           "https://www.legebiltzarra.eus" "xml/XII" [pleno1] []
           "https://www.legebiltzarra.eus/descarga?fichero=pleno3.xml"
           (ValueError "Invalid URL") (empty_state one_store));
    vm_compute; reflexivity.
Defined.

End ParliamentRunFacts.

Module PodcastRunFacts.
Import Py Exec ExecFacts Podcast PodcastFacts PodcastRun.

Implicit Types (w : World) (st : State) (entry : Entry) (feed : Feed).

Lemma served_extends w known st st' r :
  extends st st' -> served w known st r -> served w known st' r.
Proof.
  intros (_ & Hsub & issued & Hreq & _) (Hid & (content & Hget & Hfile) & Hr).
  split; [done|]. split.
  - exists content. split; [done|]. by eapply lookup_weaken.
  - rewrite Hreq. apply elem_of_app. by left.
Qed.

Lemma id_known_false (audio_list : option (list AudioFeed)) (_id : Z) :
  id_known (id_list_of audio_list) _id = false -> _id ∉ ids (default [] audio_list).
Proof.
  destruct audio_list as [[|a l]|]; simpl; try (intros _ H; by apply elem_of_nil in H).
  by intros H%bool_decide_eq_false.
Qed.

(** [download_file] returns [True] only after a request that was answered
    with a body, which is then the content of the file. *)
Lemma download_file_true w url output_path st d st' :
  download_file w url output_path st = (Ok d, st') ->
  is_true d = true ->
  exists content,
    http_get w url = Resp content /\
    files st' !! output_path = Some content /\
    DownloadRequest url output_path ∈ requests st'.
Proof.
  unfold download_file, bind at 1, path_exists.
  destruct (bool_decide (is_Some (files st !! output_path))).
  { intros [= <- _]. discriminate. }
  unfold except_Exception, fetch_to_file, bind, print, log_request, write_file, ret, raise.
  cbn [files requests stdout store].
  destruct (http_get w url) as [content|msg|e|partial msg]; intros [= <- <-]; try discriminate.
  intros _. exists content. split; [done|]. cbn [files requests]. split.
  - by rewrite lookup_insert_eq.
  - apply elem_of_app. right. by left.
Qed.

(** What one entry adds. *)
Lemma process_entry_Ok w base_dir audio_list entry new st new' st' :
  process_entry w base_dir (id_list_of audio_list) entry new st = (Ok new', st') ->
  new' = new \/
  exists r,
    new' = new ++ [r] /\ entry_ids [entry] = [id r] /\
    entry_url entry = Some (url r) /\
    target_of base_dir entry = Some (audio_filepath r) /\
    served w (default [] audio_list) st' r.
Proof.
  unfold process_entry, entry_ids, entry_url, target_of. simpl.
  destruct (enclosures entry) as [[|enclosure tl]|]; try (intros [= <- _]; by left).
  destruct (enclosure_url enclosure) as [u|]; [|intros [= <- _]; by left].
  destruct (truthy u) eqn:Hu; simpl; [|intros [= <- _]; by left].
  intros H. apply bind_Ok_inv in H as (_id & s1 & Hid & H).
  unfold parse_id in Hid.
  destruct (entry_id entry) as [full_id|]; [|discriminate].
  destruct (int (path_tail full_id)) as [i|]; [|discriminate].
  injection Hid as -> ->.
  destruct (id_known (id_list_of audio_list) _id) eqn:Hk; [injection H as <- _; by left|].
  apply bind_Ok_inv in H as (d & s2 & Hd & H).
  destruct (is_true d) eqn:Ht; [|injection H as <- _; by left].
  destruct (published_parsed entry) as [pub_date|]; [|discriminate].
  injection H as <- <-. right. eexists. split; [reflexivity|]. simpl.
  repeat split; try done.
  - by apply id_known_false.
  - destruct (download_file_true _ _ _ _ _ _ Hd Ht) as (content & ? & ? & ?). eauto.
  - by destruct (download_file_true _ _ _ _ _ _ Hd Ht) as (content & ? & ? & ?).
Qed.

Lemma entry_ids_cons entry entries :
  entry_ids (entry :: entries) = entry_ids [entry] ++ entry_ids entries.
Proof. unfold entry_ids. simpl. by destruct (entry_id entry) as [f|]; [destruct (int _)|]. Qed.

Lemma entries_loop_added w base_dir audio_list entries :
  forall new st new' st',
    entries_loop w base_dir (id_list_of audio_list) entries new st = (Ok new', st') ->
    exists added,
      new' = new ++ added /\
      ids added `sublist_of` entry_ids entries /\
      Forall (served w (default [] audio_list) st') added.
Proof.
  induction entries as [|entry entries IH]; intros new st new' st' H; simpl in H.
  - injection H as <- _. exists []. split; [by rewrite app_nil_r|]. by split.
  - apply bind_Ok_inv in H as (new1 & s1 & He & Hrest).
    pose proof (entries_loop_spec _ _ _ _ _ _ _ _ Hrest) as [Hext _].
    apply IH in Hrest as (added & -> & Hsub & Hserved).
    rewrite entry_ids_cons.
    apply process_entry_Ok in He as [->|(r & -> & Hid & _ & _ & Hr)].
    + exists added. split; [done|]. split; [by apply sublist_inserts_l|done].
    + exists (r :: added). split; [by rewrite <- app_assoc|]. split.
      * rewrite Hid. simpl. by constructor.
      * constructor; [|done]. by eapply served_extends.
Qed.

Lemma process_feed_added w feed output_dir st new st' :
  process_feed w feed output_dir st = (Ok new, st') ->
  Forall (served w (default [] (audio_list feed)) st') new /\
  (distinct_feed w feed = true -> NoDup (ids new)).
Proof.
  unfold process_feed, distinct_feed.
  destruct (source feed) as [source|]; [|discriminate].
  destruct (name feed) as [name|]; [|discriminate].
  destruct (rss_url feed) as [rss_url|]; [|discriminate].
  intros H. apply bind_Ok_inv in H as (? & s1 & _ & H).
  apply bind_Ok_inv in H as (? & s2 & _ & H).
  destruct (bozo (feedparser_parse w rss_url)); [discriminate|].
  apply bind_Ok_inv in H as (l & s3 & Hl & H).
  apply bind_Ok_inv in H as (? & s4 & Hp & H).
  injection H as <- <-.
  apply entries_loop_added in Hl as (added & -> & Hsub & Hserved). simpl. split.
  - eapply Forall_impl; [exact Hserved|]. intros r. apply served_extends.
    unfold print in Hp. injection Hp as _ <-. apply extends_printed.
  - intros Hd%bool_decide_eq_true. exact (sublist_NoDup _ _ Hd Hsub).
Qed.

Lemma feeds_loop_served w output_dir feed_rss :
  forall st news totals st',
    feeds_loop w output_dir feed_rss st = (Ok (news, totals), st') ->
    Forall2 (feed_served w st') feed_rss news /\
    (Forall unique_ids feed_rss -> forallb (distinct_feed w) feed_rss = true ->
     Forall unique_ids totals).
Proof.
  induction feed_rss as [|feed feed_rss IH]; intros st news totals st' H; simpl in H.
  - injection H as <- <- _. split; [constructor|]. intros _ _. constructor.
  - apply bind_Ok_inv in H as (new & s1 & Hp & H).
    apply bind_Ok_inv in H as ([news0 totals0] & s2 & Hl & H).
    injection H as <- <- <-.
    pose proof (feeds_loop_spec _ _ _ _ _ _ Hl) as [Hext _].
    apply process_feed_added in Hp as [Hserved Hnodup].
    apply IH in Hl as [Hrest Hu]. split.
    + constructor; [|done]. intros r Hr. simpl in Hr.
      eapply served_extends; [exact Hext|]. rewrite Forall_forall in Hserved. by apply Hserved.
    + intros [Hf Hfs]%Forall_cons Hd. simpl in Hd. apply andb_true_iff in Hd as [Hdf Hds].
      constructor; [|by apply Hu].
      unfold unique_ids, ids. simpl. rewrite map_app. apply NoDup_app.
      split; [by apply Hnodup|]. split; [|exact Hf].
      intros i (r & -> & Hr)%list_elem_of_fmap.
      rewrite Forall_forall in Hserved. by destruct (Hserved r Hr) as [? _].
Qed.

(** X9.  After a run of the podcast downloader that fetches and completes,
    every record created in the run is served by it: its id was not in the
    feed's list before, the network answered its URL with a body, the file
    at its path holds exactly this body, and the download of this URL to
    this path is in the request log. *)
Theorem X9_new_episodes_served w args st news totals st' :
  only_stats args = false ->
  main w args st = (Ok (news, totals), st') ->
  Forall2 (feed_served w st') (store st) news.
Proof.
  intros Hstats Hmain.
  destruct (main_Ok_loop _ _ _ _ _ _ Hstats Hmain) as (s1 & Hl & Hf & Hr & _).
  destruct (feeds_loop_served _ _ _ _ _ _ _ Hl) as [H2 _].
  eapply Forall2_impl; [exact H2|]. intros old new Hs r Hin.
  destruct (Hs r Hin) as (? & ? & ?). unfold served. by rewrite Hf, Hr.
Qed.

Lemma X9_witness :
  Forall2 (feed_served two_entries_world
             (main two_entries_world sample_args (empty_state [sample_feed])).2)
          [sample_feed]
          [mkFeed (Some "ivoox") (Some "pleno") (Some feed_url) (Some [episode11])].
Proof.
  apply (X9_new_episodes_served two_entries_world sample_args (empty_state [sample_feed])
           [mkFeed (Some "ivoox") (Some "pleno") (Some feed_url) (Some [episode11])]
           [mkFeed (Some "ivoox") (Some "pleno") (Some feed_url) (Some [episode11; episode10])]).
  - reflexivity.
  - vm_compute; reflexivity.
Defined.

(** X10.  When no feed of the store holds two records of one id and no
    feed offers one id in two entries, the store that a completed run of the
    podcast downloader persists again holds no two records of one id in any
    feed. *)
Theorem X10_unique_ids_kept w args st news totals st' :
  only_stats args = false ->
  Forall unique_ids (store st) ->
  forallb (distinct_feed w) (store st) = true ->
  main w args st = (Ok (news, totals), st') ->
  Forall unique_ids (store st').
Proof.
  intros Hstats Hu Hd Hmain.
  destruct (main_Ok_loop _ _ _ _ _ _ Hstats Hmain) as (s1 & Hl & _ & _ & ->).
  destruct (feeds_loop_served _ _ _ _ _ _ _ Hl) as [_ H2]. by apply H2.
Qed.

Lemma X10_witness :
  Forall unique_ids (store (main two_entries_world sample_args (empty_state [sample_feed])).2).
Proof.
  apply (X10_unique_ids_kept two_entries_world sample_args (empty_state [sample_feed])
           [mkFeed (Some "ivoox") (Some "pleno") (Some feed_url) (Some [episode11])]
           [mkFeed (Some "ivoox") (Some "pleno") (Some feed_url) (Some [episode11; episode10])]).
  - reflexivity.
  - repeat constructor. by intros ?%elem_of_nil.
  - vm_compute; reflexivity.
  - vm_compute; reflexivity.
Defined.

(** ** Downloads that stop short *)

Lemma runs_files (schedule : list (World * Args)) :
  forall st, files st ⊆ files (runs schedule st).
Proof.
  induction schedule as [|[w args] schedule IH]; intros st; simpl; [done|].
  etrans; [|apply IH]. apply main_records.
Qed.

(** X11.  When the body of a download stops short, [download_file]
    catches the failure and returns [False], and the bytes received so far
    stay in the target file.  Through any sequence of later runs the file
    keeps these bytes, and [download_file] for this target answers
    "already downloaded" without a request: the download is never
    resumed. *)
Theorem X11_truncated_download_never_resumed w url output_path partial msg st :
  files st !! output_path = None ->
  http_get w url = Broken partial msg ->
  exists st1,
    download_file w url output_path st = (Ok (Some false), st1) /\
    files st1 !! output_path = Some partial /\
    forall schedule w' url',
      files (runs schedule st1) !! output_path = Some partial /\
      download_file w' url' output_path (runs schedule st1)
      = (Ok None, printed (runs schedule st1) ("Already downloaded: " +:+ output_path)).
Proof.
  intros Hfile Hget. unfold download_file at 1, bind at 1, path_exists.
  rewrite bool_decide_false by (rewrite Hfile; by intros [? [=]]).
  unfold except_Exception, fetch_to_file, bind, print, log_request, write_file, ret, raise.
  cbn [files requests stdout store]. rewrite Hget.
  eexists. split; [reflexivity|]. cbn [files].
  split; [by rewrite lookup_insert_eq|].
  intros schedule w' url'.
  match goal with |- files (runs schedule ?s) !! _ = _ /\ _ =>
    assert (Hkept : files (runs schedule s) !! output_path = Some partial) end.
  { eapply lookup_weaken; [|apply runs_files]. cbn [files]. by rewrite lookup_insert_eq. }
  split; [exact Hkept|]. apply download_file_exists. by rewrite Hkept.
Qed.

Lemma X11_witness :
  exists st1,
    download_file breaking_world "https://www.ivoox.com/pleno11.mp3" "audio/ivoox/pleno/11.mp3"
                  (empty_state [sample_feed]) = (Ok (Some false), st1) /\
    files st1 !! "audio/ivoox/pleno/11.mp3" = Some old_body /\
    forall schedule w' url',
      files (runs schedule st1) !! "audio/ivoox/pleno/11.mp3" = Some old_body /\
      download_file w' url' "audio/ivoox/pleno/11.mp3" (runs schedule st1)
      = (Ok None, printed (runs schedule st1) "Already downloaded: audio/ivoox/pleno/11.mp3").
Proof.
  apply (X11_truncated_download_never_resumed breaking_world
           "https://www.ivoox.com/pleno11.mp3" "audio/ivoox/pleno/11.mp3" old_body
           "Connection broken" (empty_state [sample_feed])); reflexivity.
Defined.

(** ** Entries without publication date *)

(** X12.  For an entry with an enclosure URL and a numeric id that is not
    known, whose file is not on disk and whose download succeeds, but which
    has no publication date: [process_entry] writes the file and then raises
    [TypeError], so no record is made.  Through any sequence of later runs
    the entry is passed over, because its file is there. *)
Theorem X12_undated_entry_downloaded_never_recorded
    w base_dir id_list entry new st u output_path _id content :
  entry_url entry = Some u ->
  target_of base_dir entry = Some output_path ->
  entry_ids [entry] = [_id] ->
  id_known id_list _id = false ->
  published_parsed entry = None ->
  files st !! output_path = None ->
  http_get w u = Resp content ->
  exists st1,
    process_entry w base_dir id_list entry new st
    = (Raise (TypeError "Tuple or struct_time argument required"), st1) /\
    files st1 !! output_path = Some content /\
    forall schedule w' id_list' new', exists st2,
      process_entry w' base_dir id_list' entry new' (runs schedule st1) = (Ok new', st2).
Proof.
  intros Hu Htarget Hid Hk Hdate Hfile Hget.
  set (st1 := mkState (<[output_path := content]> (files st))
                      (requests st ++ [DownloadRequest u output_path])
                      ((stdout st ++ ["Downloading " +:+ u +:+ " → " +:+ output_path])
                         ++ [" - Done."])
                      (store st)).
  assert (Hstep : process_entry w base_dir id_list entry new st
                  = (Raise (TypeError "Tuple or struct_time argument required"), st1)).
  { pose proof Htarget as Ht. revert Hu Ht Hid.
    unfold entry_url, target_of, entry_ids, process_entry. simpl.
    destruct (enclosures entry) as [[|enclosure tl]|]; try discriminate.
    intros ->.
    destruct (entry_id entry) as [full_id|] eqn:Hfull; [|discriminate].
    destruct (truthy u); [|discriminate].
    destruct (int (path_tail full_id)) as [i|] eqn:Hint; [|discriminate].
    intros [= Ht] [= ->]. simpl.
    unfold bind at 1, parse_id. rewrite Hfull, Hint. simpl. rewrite Hk, Ht.
    unfold bind at 1, download_file, bind at 1, path_exists.
    rewrite bool_decide_false by (rewrite Hfile; by intros [? [=]]).
    unfold except_Exception, fetch_to_file, bind, print, log_request, write_file, ret, raise.
    cbn [files requests stdout store]. rewrite Hget. simpl. by rewrite Hdate. }
  exists st1. split; [exact Hstep|].
  split; [subst st1; cbn [files]; by rewrite lookup_insert_eq|].
  intros schedule w' id_list' new'.
  assert (Hkept : is_Some (files (runs schedule st1) !! output_path)).
  { exists content. eapply lookup_weaken; [|apply runs_files].
    subst st1. cbn [files]. by rewrite lookup_insert_eq. }
  destruct (process_entry_exists w' base_dir id_list' entry new' _ _ Htarget Hkept)
    as (st2 & H & _).
  exists st2. exact H.
Qed.

Lemma X12_witness :
  exists st1,
    process_entry two_entries_world "audio/ivoox/pleno" (Some [10]) undated_entry []
                  (empty_state [sample_feed])
    = (Raise (TypeError "Tuple or struct_time argument required"), st1) /\
    files st1 !! "audio/ivoox/pleno/12.mp3" = Some mp3_body /\
    forall schedule w' id_list' new', exists st2,
      process_entry w' "audio/ivoox/pleno" id_list' undated_entry new' (runs schedule st1)
      = (Ok new', st2).
Proof.
  apply (X12_undated_entry_downloaded_never_recorded two_entries_world "audio/ivoox/pleno"
           (Some [10]) undated_entry [] (empty_state [sample_feed])
           "https://www.ivoox.com/pleno12.mp3" "audio/ivoox/pleno/12.mp3" 12 mp3_body);
    vm_compute; reflexivity.
Defined.

End PodcastRunFacts.

Module PodcastSummaryFacts.
Import Py Exec ExecFacts Podcast PodcastFacts PodcastSummary.

Example duration_examples :
  duration_seconds (Some "1:02:03") = Done 3723 /\
  duration_seconds (Some "02:03") = Done 123 /\
  duration_seconds (Some "45") = Done 45 /\
  duration_seconds (Some "1:00:00:00") = Done 0.
Proof. repeat split. Qed.

(** ** Records without duration *)

Lemma total_seconds_None (duration_list : list (option string)) :
  None ∈ duration_list -> forall seconds, exists e, total_seconds duration_list seconds = Fails e.
Proof.
  induction duration_list as [|d rest IH]; intros Hin seconds.
  - by apply elem_of_nil in Hin.
  - apply elem_of_cons in Hin as [<-|Hin]; simpl; [by eexists|].
    destruct (duration_seconds d) as [s|e]; [by apply IH|by eexists].
Qed.

Lemma print_summary_None (feed_rss : list Feed) (feed : Feed) (r : AudioFeed) :
  feed ∈ feed_rss -> r ∈ default [] (audio_list feed) -> duration r = None ->
  exists e, print_summary feed_rss = Fails e.
Proof.
  intros Hin Hr Hd. induction Hin as [feed rest|feed other rest Hin IH]; simpl.
  - unfold feed_summary. destruct (audio_list feed) as [l|]; [|by eexists].
    simpl in Hr.
    destruct (total_seconds_None (map duration l)) with (seconds := 0) as [e ->];
      [|by eexists].
    rewrite <- Hd. by apply list_elem_of_fmap_2.
  - destruct (feed_summary other) as [line|e]; [|by eexists].
    destruct (IH Hr) as [e ->]. by eexists.
Qed.

Lemma process_entry_duration w base_dir id_list entry new st st' r :
  process_entry w base_dir id_list entry new st = (Ok (new ++ [r]), st') ->
  duration r = itunes_duration entry.
Proof.
  unfold process_entry.
  assert (Hsame : forall s s0 : State, ret new s = (Ok (new ++ [r]), s0) ->
                                       duration r = itunes_duration entry).
  { intros s s0 [= H _]. apply (f_equal length) in H. rewrite length_app in H. simpl in H. lia. }
  destruct (enclosures entry) as [[|enclosure tl]|]; try apply Hsame.
  destruct (enclosure_url enclosure) as [u|]; [|apply Hsame].
  destruct (truthy u); simpl; [|apply Hsame].
  intros H. apply bind_Ok_inv in H as (_id & s1 & Hid & H).
  apply parse_id_state in Hid as ->.
  destruct (id_known id_list _id); [by apply Hsame in H|].
  apply bind_Ok_inv in H as (d & s2 & Hd & H).
  destruct (is_true d).
  - destruct (published_parsed entry) as [pub_date|]; [|discriminate].
    injection H as H _. by apply app_inj_tail in H as [_ <-].
  - by apply Hsame in H.
Qed.

(** X13.  A record is given the duration of its feed entry as it is, also
    when the entry has none; and [print_summary] raises on every list of
    feeds in which some record has no duration.  So once an entry without
    duration has been downloaded and recorded, the summary that follows the
    writing of the store raises, and so does the summary of every later run
    over a store that still holds the record. *)
Theorem X13_record_without_duration_breaks_summary
    w base_dir id_list entry new st st' r feed_rss feed :
  process_entry w base_dir id_list entry new st = (Ok (new ++ [r]), st') ->
  itunes_duration entry = None ->
  feed ∈ feed_rss ->
  r ∈ default [] (audio_list feed) ->
  duration r = None /\ exists e, print_summary feed_rss = Fails e.
Proof.
  intros Hp Hd Hfeed Hr.
  assert (Hnone : duration r = None).
  { apply process_entry_duration in Hp. congruence. }
  split; [done|]. by eapply print_summary_None.
Qed.

Lemma X13_witness :
  duration episode12 = None /\
  exists e,
    print_summary [mkFeed (Some "ivoox") (Some "pleno") (Some feed_url)
                          (Some [episode12; episode10])] = Fails e.
Proof.
  apply (X13_record_without_duration_breaks_summary two_entries_world "audio/ivoox/pleno"
           (Some [10]) untimed_entry [] (empty_state [sample_feed])
           (process_entry two_entries_world "audio/ivoox/pleno" (Some [10]) untimed_entry []
              (empty_state [sample_feed])).2
           episode12 _
           (mkFeed (Some "ivoox") (Some "pleno") (Some feed_url) (Some [episode12; episode10]))).
  - vm_compute; reflexivity.
  - reflexivity.
  - left.
  - left.
Defined.

(** ** Durations of more than three parts *)

Lemma split_line (sep : ascii) (x d : string) :
  has_char sep x = false -> split sep (x +:+ String sep d) = x :: split sep d.
Proof.
  induction x as [|a x IH]; cbn [has_char].
  - intros _. change ("" +:+ String sep d) with (String sep d). cbn [split].
    by rewrite bool_decide_true.
  - intros [Ha Hx]%orb_false_iff.
    change (String a x +:+ String sep d) with (String a (x +:+ String sep d)).
    cbn [split]. rewrite Ha, (IH Hx). reflexivity.
Qed.

Lemma ints_length (parts : list string) (t : list Z) :
  ints parts = Done t -> length t = length parts.
Proof.
  revert t. induction parts as [|p parts IH]; intros t; simpl.
  - by intros [= <-].
  - destruct (int p); [|discriminate]. destruct (ints parts) as [t0|]; [|discriminate].
    intros [= <-]. simpl. by rewrite (IH t0).
Qed.

Lemma seconds_of_cons (n : Z) (t : list Z) :
  (3 <= length t)%nat -> seconds_of (n :: t) = seconds_of t.
Proof.
  intros Hlen. unfold seconds_of. simpl.
  assert (Hrev : (3 <= length (rev t))%nat) by by rewrite length_rev.
  destruct (rev t) as [|s [|m [|h r]]]; simpl in *; lia.
Qed.

(** X14.  Only the last three parts of a duration count.  A further
    leading part, when it is a number, changes nothing: the duration
    ["D:H:M:S"] adds what ["H:M:S"] adds (so whole days are lost), and where
    one raises the other raises the same. *)
Theorem X14_leading_duration_part_ignored (x d : string) (n : Z) :
  has_char ":" x = false ->
  int x = Some n ->
  (3 <= length (split ":" d))%nat ->
  duration_seconds (Some (x +:+ ":" +:+ d)) = duration_seconds (Some d).
Proof.
  intros Hx Hn Hlen. unfold duration_seconds.
  change (x +:+ ":" +:+ d) with (x +:+ String ":" d).
  rewrite (split_line _ _ _ Hx). cbn [ints]. rewrite Hn.
  destruct (ints (split ":" d)) as [t|e] eqn:Ht; [|reflexivity].
  apply ints_length in Ht. rewrite seconds_of_cons by lia. reflexivity.
Qed.

Lemma X14_witness :
  duration_seconds (Some ("2" +:+ ":" +:+ "01:02:03")) = duration_seconds (Some "01:02:03").
Proof.
  apply (X14_leading_duration_part_ignored "2" "01:02:03" 2); [reflexivity|reflexivity|].
  vm_compute. lia.
Defined.

(** ** The summaries at the end of a run *)

(** The numbers of [print_summary] and the lines that [main] prints come
    from the same steps: where the first fails, the second raises. *)
Lemma int_list_ints (parts : list string) :
  match ints parts with
  | Done t => int_list parts = Ok t
  | Fails _ => exists e, int_list parts = Raise e
  end.
Proof.
  induction parts as [|p parts IH]; simpl; [done|].
  destruct (int p); [|by eexists].
  destruct (ints parts) as [t|e0]; [by rewrite IH|].
  destruct IH as [e ->]. by eexists.
Qed.

Lemma duration_loop_total_seconds (duration_list : list (option string)) :
  forall seconds,
    match total_seconds duration_list seconds with
    | Done total => duration_loop duration_list seconds = Ok total
    | Fails _ => exists e, duration_loop duration_list seconds = Raise e
    end.
Proof.
  induction duration_list as [|[d|] rest IH]; intros seconds; simpl; [done| |by eexists].
  pose proof (int_list_ints (split ":" d)) as Hi.
  destruct (ints (split ":" d)) as [t|e0]; [|destruct Hi as [e ->]; by eexists].
  rewrite Hi. apply IH.
Qed.

Lemma summary_line_fails (feed : Feed) (e0 : summary_exn) :
  feed_summary feed = Fails e0 -> exists e, summary_line feed = Raise e.
Proof.
  unfold feed_summary, summary_line.
  destruct (audio_list feed) as [l|]; [|by eexists].
  pose proof (duration_loop_total_seconds (map duration l) 0) as Hd.
  destruct (total_seconds (map duration l) 0) as [seconds|e1]; [|destruct Hd as [e ->]; by eexists].
  rewrite Hd. destruct (hours_text seconds) as [hours|e]; [|by eexists].
  destruct (source feed); [|by eexists]. destruct (name feed); [discriminate|by eexists].
Qed.

Lemma print_summary_fails (feed_rss : list Feed) (e0 : summary_exn) (title : string) (st : State) :
  print_summary feed_rss = Fails e0 ->
  exists e st', Podcast.print_summary feed_rss title st = (Raise e, st').
Proof.
  unfold Podcast.print_summary, bind at 1, print.
  generalize (mkState (files st) (requests st) (stdout st ++ ["- " +:+ title +:+ ":"]) (store st)).
  clear st. revert e0.
  induction feed_rss as [|feed rest IH]; intros e0 s; simpl; [discriminate|].
  destruct (feed_summary feed) as [line|e1] eqn:Hf.
  - destruct (print_summary rest) as [lines|e2]; [discriminate|]. intros _.
    destruct (summary_line feed) as [text|e]; [|by eexists _, _].
    unfold bind at 1, print. by apply (IH e2).
  - intros _. apply summary_line_fails in Hf as [e ->]. by eexists _, _.
Qed.

(** X20.  The store is written before the summaries are printed.  In a
    fetching run whose loop over the feeds completes, when some record of
    the lists built by the run, new or old, has no duration, [main] raises
    (in the summary) with the store file already rewritten: it holds the
    new records in front of the old ones, and the files downloaded in the
    run are on disk. *)
Theorem X20_summary_raises_after_store_written w args st news totals s1 feed r :
  only_stats args = false ->
  feeds_loop w (output_dir args) (store st) st = (Ok (news, totals), s1) ->
  feed ∈ totals ->
  r ∈ default [] (audio_list feed) ->
  duration r = None ->
  exists e st',
    main w args st = (Raise e, st') /\
    store st' = totals /\ Forall3 prepended (store st) news totals /\
    files st' = files s1.
Proof.
  intros Hstats Hl Hfeed Hr Hd.
  destruct (print_summary_None _ _ _ Hfeed Hr Hd) as [e0 Hfails].
  destruct (feeds_loop_spec _ _ _ _ _ _ Hl) as [_ Hloop].
  destruct (Hloop news totals eq_refl) as [H3 _].
  destruct (main_after_loop _ _ _ _ _ _ Hstats Hl) as (r0 & st0 & Hmain & Hf & _ & Hs & Hres).
  destruct Hres as [->|[e ->]]; [|by exists e, st0].
  exfalso. revert Hmain.
  unfold main, bind at 1, read_store. rewrite Hstats.
  unfold bind at 1. rewrite Hl. cbn [fst snd].
  unfold bind at 1, write_store. unfold bind at 1, print.
  set (s2 := mkState _ _ _ _). unfold bind at 1.
  destruct (Podcast.print_summary news "New Data" s2) as [[[]|e] s3]; [|discriminate].
  destruct (print_summary_fails totals e0 "Total Data" s3 Hfails) as (e & s4 & Ht).
  unfold bind at 1. rewrite Ht. discriminate.
Qed.

(** The feed offers an episode without duration to a store that knows
    episode 10: the episode is downloaded and recorded, the store is
    written, and the run ends in the summary of the new data. *)
Lemma X20_witness :
  exists e st',
    main untimed_world sample_args (empty_state [sample_feed]) = (Raise e, st') /\
    store st' = [mkFeed (Some "ivoox") (Some "pleno") (Some feed_url)
                   (Some [episode12; episode10])] /\
    Forall3 prepended [sample_feed]
      [mkFeed (Some "ivoox") (Some "pleno") (Some feed_url) (Some [episode12])]
      [mkFeed (Some "ivoox") (Some "pleno") (Some feed_url) (Some [episode12; episode10])] /\
    files st' = files (feeds_loop untimed_world "audio" [sample_feed]
                         (empty_state [sample_feed])).2.
Proof.
  apply (X20_summary_raises_after_store_written untimed_world sample_args
           (empty_state [sample_feed])
           [mkFeed (Some "ivoox") (Some "pleno") (Some feed_url) (Some [episode12])]
           [mkFeed (Some "ivoox") (Some "pleno") (Some feed_url) (Some [episode12; episode10])]
           (feeds_loop untimed_world "audio" [sample_feed] (empty_state [sample_feed])).2
           (mkFeed (Some "ivoox") (Some "pleno") (Some feed_url) (Some [episode12; episode10]))
           episode12).
  - reflexivity.
  - vm_compute; reflexivity.
  - left.
  - left.
  - reflexivity.
Defined.

End PodcastSummaryFacts.

Module StoreFileFacts.
Import Py StoreFile.

Lemma universal_newlines_line (l rest : string) :
  has_char "013" l = false ->
  universal_newlines (l +:+ nl +:+ rest) = l +:+ nl +:+ universal_newlines rest.
Proof.
  induction l as [|a l IH]; [done|].
  cbn [has_char]. intros [Ha Hl]%orb_false_iff.
  change (String a l +:+ nl +:+ rest) with (String a (l +:+ nl +:+ rest)).
  cbn [universal_newlines]. rewrite Ha.
  change (String a l +:+ nl +:+ universal_newlines rest)
    with (String a (l +:+ nl +:+ universal_newlines rest)).
  by rewrite IH.
Qed.

Lemma file_lines_line (l rest : string) :
  has_char "010" l = false ->
  file_lines (l +:+ nl +:+ rest) = (l +:+ nl) :: file_lines rest.
Proof.
  induction l as [|a l IH]; [done|].
  cbn [has_char]. intros [Ha Hl]%orb_false_iff.
  change (String a l +:+ nl +:+ rest) with (String a (l +:+ nl +:+ rest)).
  cbn [file_lines]. rewrite Ha, (IH Hl). reflexivity.
Qed.

Section Codec.
Context {J : Type} (dumps : J -> string) (loads : string -> option J).

Lemma lines_of_written (data : list J) (tail : string) :
  Forall (line_codec dumps loads) data ->
  file_lines (universal_newlines (write_json dumps data +:+ tail))
  = map (fun x => dumps x +:+ nl) data ++ file_lines (universal_newlines tail).
Proof.
  induction 1 as [|x data Hx _ IH]; [done|].
  destruct Hx as (Hlf & Hcr & _).
  cbn [write_json map app].
  assert (Happ : (dumps x +:+ nl +:+ write_json dumps data) +:+ tail
                 = dumps x +:+ nl +:+ (write_json dumps data +:+ tail)).
  { generalize (dumps x). intros l. induction l as [|a l IHl]; [done|].
    change (String a l +:+ nl +:+ write_json dumps data) 
      with (String a (l +:+ nl +:+ write_json dumps data)).
    change (String a l +:+ nl +:+ (write_json dumps data +:+ tail))
      with (String a (l +:+ nl +:+ (write_json dumps data +:+ tail))).
    change (String a (l +:+ nl +:+ write_json dumps data) +:+ tail)
      with (String a ((l +:+ nl +:+ write_json dumps data) +:+ tail)).
    by rewrite IHl. }
  rewrite Happ, (universal_newlines_line _ _ Hcr), (file_lines_line _ _ Hlf).
  by rewrite IH.
Qed.

Lemma append_empty (s : string) : s +:+ "" = s.
Proof.
  induction s as [|a s IH]; [done|].
  change (String a s +:+ "") with (String a (s +:+ "")). by rewrite IH.
Qed.

Lemma mapM_loads_lines (data : list J) :
  Forall (line_codec dumps loads) data ->
  mapM loads (map (fun x => dumps x +:+ nl) data) = Some data.
Proof.
  intros H. apply mapM_Some. induction H as [|x data Hx _ IH]; simpl; constructor; [|done].
  by destruct Hx as (_ & _ & _ & _ & _ & ?).
Qed.

Lemma stripped_lines (data : list J) :
  Forall (line_codec dumps loads) data ->
  List.filter truthy (map strip (map (fun x => dumps x +:+ nl) data)) = map dumps data.
Proof.
  induction 1 as [|x data Hx _ IH]; [done|].
  destruct Hx as (_ & _ & Hs & Ht & _). simpl. by rewrite Hs, Ht, IH.
Qed.

Lemma mapM_loads_dumps (data : list J) :
  Forall (line_codec dumps loads) data -> mapM loads (map dumps data) = Some data.
Proof.
  intros H. apply mapM_Some. induction H as [|x data Hx _ IH]; simpl; constructor; [|done].
  by destruct Hx as (_ & _ & _ & _ & ? & _).
Qed.

(** X15.  Writing a store and reading the file back gives the same list,
    for [write_json]/[read_json] and for [write_feeds]/[read_feeds],
    whenever the JSON codec, on each entry, dumps without a line end in the
    text, dumps a non-empty text without surrounding whitespace, and loads
    back what it dumped (also when a line end follows). *)
Theorem X15_store_round_trip (data : list J) :
  Forall (line_codec dumps loads) data ->
  read_json loads (write_json dumps data) = Some data /\
  read_feeds loads (write_feeds dumps data) = Some data.
Proof.
  intros H. unfold read_json, read_feeds, write_feeds.
  rewrite <- (append_empty (write_json dumps data)), (lines_of_written _ _ H).
  simpl. rewrite app_nil_r. split; [by apply mapM_loads_lines|].
  rewrite (stripped_lines _ H). by apply mapM_loads_dumps.
Qed.

(** X16.  The two readers differ on an empty line.  With one empty line
    after the entries, [read_feeds] passes it over and returns the entries,
    while [read_json] hands it to [json.loads], whose exception ends the
    reading. *)
Theorem X16_empty_line_read_differently (data : list J) :
  Forall (line_codec dumps loads) data ->
  loads nl = None ->
  read_feeds loads (write_feeds dumps data +:+ nl) = Some data /\
  read_json loads (write_json dumps data +:+ nl) = None.
Proof.
  intros H Hnl. unfold read_json, read_feeds, write_feeds.
  rewrite (lines_of_written _ _ H). cbn [universal_newlines nl file_lines bool_decide].
  simpl (file_lines _). split.
  - rewrite map_app, List.filter_app, (stripped_lines _ H). simpl. rewrite app_nil_r.
    by apply mapM_loads_dumps.
  - apply mapM_None. apply Exists_app. right. by left.
Qed.

End Codec.

End StoreFileFacts.

Module DownloadAudioFacts.
Import Py DownloadAudio.

Lemma endswith_app (suffix p s : string) :
  endswith suffix s = true -> endswith suffix (p +:+ s) = true.
Proof.
  intros H. induction p as [|a p IH]; [done|].
  change (String a p +:+ s) with (String a (p +:+ s)). cbn [endswith].
  rewrite IH. apply orb_true_r.
Qed.

(** What holds of a collected URL. *)
Lemma add_src_spec (acc : gset string) (src : option string) (u : string) :
  u ∈ add_src acc src ->
  u ∈ acc \/
  exists s, src = Some s /\ endswith ".mp4" s = true /\
            u = (if startswith "/" s then site +:+ s else s).
Proof.
  unfold add_src. destruct src as [s|]; [|by left].
  destruct (truthy s && endswith ".mp4" s) eqn:Hc; [|by left].
  apply andb_true_iff in Hc as [_ He].
  intros [H|H%elem_of_singleton]%elem_of_union; [by left|].
  right. by exists s.
Qed.

Lemma video_urls_acc (srcs : list (option string)) :
  forall (acc : gset string) (u : string),
    u ∈ foldl add_src acc srcs ->
    u ∈ acc \/
    exists s, Some s ∈ srcs /\ endswith ".mp4" s = true /\
              u = (if startswith "/" s then site +:+ s else s).
Proof.
  induction srcs as [|src srcs IH]; intros acc u; simpl; [by left|].
  intros [H|(s & Hin & He & Hu)]%IH.
  - apply add_src_spec in H as [H|(s & -> & He & Hu)]; [by left|].
    right. exists s. split; [left|done].
  - right. exists s. split; [by right|done].
Qed.

Lemma video_urls_size (srcs : list (option string)) :
  forall acc : gset string, (size (foldl add_src acc srcs) <= size acc + length srcs)%nat.
Proof.
  induction srcs as [|src srcs IH]; intros acc; simpl; [lia|].
  etrans; [apply IH|].
  assert (size (add_src acc src) <= size acc + 1)%nat; [|lia].
  unfold add_src. destruct src as [s|]; [|lia].
  destruct (truthy s && endswith ".mp4" s); [|lia].
  rewrite size_union_alt.
  assert (size (({[if startswith "/" s then site +:+ s else s]} : gset string) ∖ acc)
          <= 1)%nat; [|lia].
  etrans; [apply subseteq_size|]; [apply subseteq_difference_l; reflexivity|].
  by rewrite size_singleton.
Qed.

(** X17.  Every URL that the audio script collects comes from the [src]
    of a tag that ends in [".mp4"], still ends in [".mp4"], and does not
    start with a slash: a [src] that starts with one has the site put in
    front.  The count it prints is at most the number of tags. *)
Theorem X17_collected_video_urls (srcs : list (option string)) :
  (forall u, u ∈ video_urls srcs ->
     endswith ".mp4" u = true /\ startswith "/" u = false /\
     exists s, Some s ∈ srcs /\ (u = s \/ u = site +:+ s)) /\
  (size (video_urls srcs) <= length srcs)%nat.
Proof.
  split.
  - intros u [H|(s & Hin & He & ->)]%video_urls_acc; [set_solver|].
    destruct (startswith "/" s) eqn:Hs.
    + split; [by apply endswith_app|]. split; [reflexivity|]. exists s. split; [done|by right].
    + split; [done|]. split; [done|]. exists s. split; [done|by left].
  - pose proof (video_urls_size srcs ∅) as H. by rewrite size_empty in H.
Qed.

End DownloadAudioFacts.

Module StoreFileWitness.
Import Py StoreFile StoreFileFacts StoreFileSamples.

Lemma X15_witness :
  read_json load_number (write_json dump_number [3; -14]) = Some [3; -14] /\
  read_feeds load_number (write_feeds dump_number [3; -14]) = Some [3; -14].
Proof.
  apply (X15_store_round_trip dump_number load_number [3; -14]).
  repeat constructor.
Defined.

Lemma X16_witness :
  read_feeds load_number (write_feeds dump_number [3; -14] +:+ nl) = Some [3; -14] /\
  read_json load_number (write_json dump_number [3; -14] +:+ nl) = None.
Proof.
  apply (X16_empty_line_read_differently dump_number load_number [3; -14]).
  - repeat constructor.
  - reflexivity.
Defined.

End StoreFileWitness.

